(** * Mini UART driver (BCM2711): data model, operations and properties

    Shallow embedding of the driver's C code.  Machine integers are [Z] with
    the wrap-around of their width written out, characters are [ascii],
    character buffers are [list ascii].  Every access to the hardware, to the
    global [config] and [stats] structures and to the mutexes is an operation
    of a small instruction set; driver functions are programs over that
    instruction set, interpreted sequentially by [run] and, for two callers,
    by the interleaving semantics of module [Conc]. *)

From Stdlib Require Import ZArith Bool Ascii String DecimalString DecimalN Lia.
From Stdlib Require Import List.
Import ListNotations.

Local Open Scope Z_scope.
Set Warnings "-abstract-large-number".

(* ------------------------------------------------------------------ *)
(** ** Machine integers and error numbers *)

Definition u16 (x : Z) : Z := x mod 2 ^ 16.
Definition u32 (x : Z) : Z := x mod 2 ^ 32.
Definition u64 (x : Z) : Z := x mod 2 ^ 64.

Definition is_u32 (x : Z) : Prop := 0 <= x < 2 ^ 32.
Definition is_u64 (x : Z) : Prop := 0 <= x < 2 ^ 64.

Definition EINVAL : Z := 22.
Definition EFAULT : Z := 14.

(* ------------------------------------------------------------------ *)
(** ** rpi2.h: constants, registers, configuration and statistics *)

Definition GPIO_FSEL_ALT5 : Z := 2.
Definition GPIO_PUPDN_NONE : Z := 0.
Definition GPIO_PUPDN_UP : Z := 1.

Definition BAUD_9600 : Z := 9600.
Definition BAUD_19200 : Z := 19200.
Definition BAUD_38400 : Z := 38400.
Definition BAUD_57600 : Z := 57600.
Definition BAUD_115200 : Z := 115200.

Definition DATA_BITS_7 : Z := 0.
Definition DATA_BITS_8 : Z := 3.

(** The fields of [struct uart_regs] the driver touches, and the two GPIO
    registers reached through [gpio + GPFSEL1] and [gpio + GPPUPPDN0]. *)
Inductive reg : Type :=
| ENABLES | MU_IO | MU_IER | MU_IIR | MU_LCR | MU_MCR | MU_LSR | MU_MSR
| MU_SCRATCH | MU_CNTL | MU_STAT | MU_BAUD
| GPFSEL1 | GPPUPPDN0.

Definition reg_eqb (a b : reg) : bool :=
  match a, b with
  | ENABLES, ENABLES | MU_IO, MU_IO | MU_IER, MU_IER | MU_IIR, MU_IIR
  | MU_LCR, MU_LCR | MU_MCR, MU_MCR | MU_LSR, MU_LSR | MU_MSR, MU_MSR
  | MU_SCRATCH, MU_SCRATCH | MU_CNTL, MU_CNTL | MU_STAT, MU_STAT
  | MU_BAUD, MU_BAUD | GPFSEL1, GPFSEL1 | GPPUPPDN0, GPPUPPDN0 => true
  | _, _ => false
  end.

Record uart_config : Type := mk_config {
  baudrate : Z;
  data_bits : Z;
  system_clock : Z
}.

Record uart_stats : Type := mk_stats {
  tx_bytes : Z;
  rx_bytes : Z;
  tx_errors : Z;
  rx_errors : Z;
  fifo_overruns : Z
}.

Inductive cfg_field : Type := Baudrate | DataBits | SystemClock.
Inductive stat_field : Type := TxBytes | RxBytes | TxErrors | RxErrors | FifoOverruns.

Definition stat_field_eqb (a b : stat_field) : bool :=
  match a, b with
  | TxBytes, TxBytes | RxBytes, RxBytes | TxErrors, TxErrors
  | RxErrors, RxErrors | FifoOverruns, FifoOverruns => true
  | _, _ => false
  end.

Definition get_cfg (f : cfg_field) (c : uart_config) : Z :=
  match f with
  | Baudrate => baudrate c
  | DataBits => data_bits c
  | SystemClock => system_clock c
  end.

Definition set_cfg (f : cfg_field) (v : Z) (c : uart_config) : uart_config :=
  match f with
  | Baudrate => mk_config v (data_bits c) (system_clock c)
  | DataBits => mk_config (baudrate c) v (system_clock c)
  | SystemClock => mk_config (baudrate c) (data_bits c) v
  end.

Definition get_stat (f : stat_field) (s : uart_stats) : Z :=
  match f with
  | TxBytes => tx_bytes s
  | RxBytes => rx_bytes s
  | TxErrors => tx_errors s
  | RxErrors => rx_errors s
  | FifoOverruns => fifo_overruns s
  end.

Definition set_stat (f : stat_field) (v : Z) (s : uart_stats) : uart_stats :=
  match f with
  | TxBytes => mk_stats v (rx_bytes s) (tx_errors s) (rx_errors s) (fifo_overruns s)
  | RxBytes => mk_stats (tx_bytes s) v (tx_errors s) (rx_errors s) (fifo_overruns s)
  | TxErrors => mk_stats (tx_bytes s) (rx_bytes s) v (rx_errors s) (fifo_overruns s)
  | RxErrors => mk_stats (tx_bytes s) (rx_bytes s) (tx_errors s) v (fifo_overruns s)
  | FifoOverruns => mk_stats (tx_bytes s) (rx_bytes s) (tx_errors s) (rx_errors s) v
  end.

(** [static struct uart_config config = { BAUD_9600, DATA_BITS_8, 500000000 }]
    and [static struct uart_stats stats = {0}]. *)
Definition initial_config : uart_config := mk_config BAUD_9600 DATA_BITS_8 500000000.
Definition zero_stats : uart_stats := mk_stats 0 0 0 0 0.

Inductive mutex : Type := uart_config_mutex | uart_tx_mutex | uart_rx_mutex.

Definition mutex_eqb (a b : mutex) : bool :=
  match a, b with
  | uart_config_mutex, uart_config_mutex
  | uart_tx_mutex, uart_tx_mutex
  | uart_rx_mutex, uart_rx_mutex => true
  | _, _ => false
  end.

(* ------------------------------------------------------------------ *)
(** ** Instruction set and programs *)

(** One constructor per primitive the C code calls.  Every operation yields
    a [Z]: the value read for the three loads, [0] for the others. *)
Inductive op : Type :=
| Readl (r : reg)                       (* readl(&uart->r) *)
| Writel (v : Z) (r : reg)              (* writel(v, &uart->r) *)
| Usleep (lo hi : Z)                    (* usleep_range(lo, hi) *)
| CpuRelax                              (* cpu_relax() *)
| Wmb                                   (* wmb() *)
| MutexLock (m : mutex)
| MutexUnlock (m : mutex)
| LoadCfg (f : cfg_field)               (* read of config.f *)
| StoreCfg (f : cfg_field) (v : Z)      (* config.f = v *)
| LoadStat (f : stat_field)             (* read of stats.f *)
| StoreStat (f : stat_field) (v : Z)    (* stats.f = v *)
| ResetStats.                           (* memset(&stats, 0, sizeof(stats)) *)

(** What a run leaves behind for an observer: register writes in order
    (the bytes written to [MU_IO] are the wire), sleeps, lock traffic and
    stores to the statistics. *)
Inductive event : Type :=
| EvWrite (v : Z) (r : reg)
| EvSleep (lo hi : Z)
| EvRelax
| EvWmb
| EvLock (m : mutex)
| EvUnlock (m : mutex)
| EvStatStore (f : stat_field) (v : Z)
| EvStatsReset.

Inductive prog (A : Type) : Type :=
| Ret (a : A)
| Vis (o : op) (k : Z -> prog A).

Arguments Ret {A} a.
Arguments Vis {A} o k.

Fixpoint bind {A B : Type} (p : prog A) (f : A -> prog B) : prog B :=
  match p with
  | Ret a => f a
  | Vis o k => Vis o (fun z => bind (k z) f)
  end.

Definition call (o : op) : prog Z := Vis o (fun z => Ret z).

Declare Scope prog_scope.
Delimit Scope prog_scope with prog.
Notation "x <- p ;; q" := (bind p (fun x => q))
  (at level 61, p at next level, right associativity) : prog_scope.
Notation "p ;; q" := (bind p (fun _ => q))
  (at level 61, right associativity) : prog_scope.
Local Open Scope prog_scope.

(* ------------------------------------------------------------------ *)
(** ** The device behind the registers, and the sequential interpreter *)

(** A device answers reads (a read may change it: reading [MU_IO] pops the
    receive FIFO), accepts writes, and evolves while the driver sleeps. *)
Class Device (D : Type) : Type := {
  dev_readl : reg -> D -> Z * D;
  dev_writel : Z -> reg -> D -> D;
  dev_sleep : Z -> Z -> D -> D
}.

Record state (D : Type) : Type := mk_state {
  st_config : uart_config;
  st_stats : uart_stats;
  st_dev : D
}.

Arguments mk_state {D} _ _ _.
Arguments st_config {D} _.
Arguments st_stats {D} _.
Arguments st_dev {D} _.

Section Interp.
Context {D : Type} `{Device D}.

Definition exec_op (o : op) (s : state D) : Z * state D * list event :=
  match o with
  | Readl r =>
      let (v, d) := dev_readl r (st_dev s) in
      (u32 v, mk_state (st_config s) (st_stats s) d, [])
  | Writel v r =>
      (0, mk_state (st_config s) (st_stats s) (dev_writel (u32 v) r (st_dev s)),
       [EvWrite (u32 v) r])
  | Usleep lo hi =>
      (0, mk_state (st_config s) (st_stats s) (dev_sleep lo hi (st_dev s)),
       [EvSleep lo hi])
  | CpuRelax => (0, s, [EvRelax])
  | Wmb => (0, s, [EvWmb])
  | MutexLock m => (0, s, [EvLock m])
  | MutexUnlock m => (0, s, [EvUnlock m])
  | LoadCfg f => (get_cfg f (st_config s), s, [])
  | StoreCfg f v =>
      (0, mk_state (set_cfg f (u32 v) (st_config s)) (st_stats s) (st_dev s), [])
  | LoadStat f => (get_stat f (st_stats s), s, [])
  | StoreStat f v =>
      (0, mk_state (st_config s) (set_stat f (u64 v) (st_stats s)) (st_dev s),
       [EvStatStore f (u64 v)])
  | ResetStats =>
      (0, mk_state (st_config s) zero_stats (st_dev s), [EvStatsReset])
  end.

Fixpoint run {A : Type} (p : prog A) (s : state D) : A * state D * list event :=
  match p with
  | Ret a => (a, s, [])
  | Vis o k =>
      let '(z, s1, t1) := exec_op o s in
      let '(a, s2, t2) := run (k z) s1 in
      (a, s2, t1 ++ t2)
  end.
End Interp.

(* ------------------------------------------------------------------ *)
(** ** Baud rate register (calculate_baud_register) *)

(** Both failures return [-EINVAL]; they differ in the message logged. *)
Inductive baud_error : Type :=
| InvalidBaudRate      (* "Invalid baud rate: %u" *)
| BaudOverflow.        (* "Baud rate calculation overflow" *)

Inductive baud_result : Type :=
| BaudReg (reg_value : Z)     (* return 0, *reg_value set *)
| BaudErr (e : baud_error).   (* return -EINVAL *)

(** The arithmetic of the function, on the value of [config.system_clock]
    and the argument, both [u32]. *)
Definition baud_register (clock baud : Z) : baud_result :=
  if (baud =? 0) || (baud >? clock / 8) then BaudErr InvalidBaudRate
  else
    let denominator := u32 (8 * baud) in
    let res := u32 (clock / denominator - 1) in
    if res >? 65535 then BaudErr BaudOverflow
    else BaudReg (u16 res).

Definition calculate_baud_register (baud : Z) : prog baud_result :=
  clock <- call (LoadCfg SystemClock) ;;
  Ret (baud_register clock baud).

Definition baud_status (r : baud_result) : Z :=
  match r with
  | BaudReg _ => 0
  | BaudErr _ => - EINVAL
  end.

(* ------------------------------------------------------------------ *)
(** ** Characters and C strings *)

Definition NUL : ascii := "000"%char.
Definition LF : ascii := "010"%char.
Definition CR : ascii := "013"%char.

(** [(u32)(c & 0xFF)] and [(char)(v & 0xFF)]. *)
Definition u32_of_char (c : ascii) : Z := Z.land (Z.of_N (N_of_ascii c)) 255.
Definition char_of_u32 (v : Z) : ascii := ascii_of_N (Z.to_N (Z.land v 255)).

Definition chars (s : string) : list ascii := list_ascii_of_string s.

(** The characters a [const char *] designates: those before the first NUL
    (the end of the list stands for memory holding a NUL). *)
Fixpoint c_str (s : list ascii) : list ascii :=
  match s with
  | [] => []
  | c :: s' => if Ascii.eqb c NUL then [] else c :: c_str s'
  end.

(** The kernel's [strncmp]: compares as unsigned characters, stops after
    [count] characters or at a NUL. *)
Fixpoint strncmp (cs ct : list ascii) (count : nat) : Z :=
  match count with
  | O => 0
  | S count' =>
      let c1 := hd NUL cs in
      let c2 := hd NUL ct in
      if negb (Ascii.eqb c1 c2) then
        if (N_of_ascii c1 <? N_of_ascii c2)%N then -1 else 1
      else if Ascii.eqb c1 NUL then 0
      else strncmp (tl cs) (tl ct) count'
  end.

(** [isspace] and [isdigit] of the kernel's ctype table. *)
Definition isspace (c : ascii) : bool :=
  let n := N_of_ascii c in
  ((9 <=? n) && (n <=? 13) || (n =? 32) || (n =? 160))%N.

Definition isdigit (c : ascii) : bool :=
  let n := N_of_ascii c in ((48 <=? n) && (n <=? 57))%N.

Fixpoint skip_spaces (s : list ascii) : list ascii :=
  match s with
  | c :: s' => if isspace c then skip_spaces s' else s
  | [] => []
  end.

(** Matching of the literal part of a scanf format: each character must be
    equal; the input ending early is a mismatch. *)
Fixpoint match_literal (lit s : list ascii) : option (list ascii) :=
  match lit with
  | [] => Some s
  | l :: lit' =>
      match s with
      | c :: s' => if Ascii.eqb l c then match_literal lit' s' else None
      | [] => None
      end
  end.

(** Accumulation of the leading decimal digits in an [unsigned long long]. *)
Fixpoint parse_decimal (s : list ascii) (acc : Z) : Z :=
  match s with
  | c :: s' =>
      if isdigit c
      then parse_decimal s' (u64 (acc * 10 + (Z.of_N (N_of_ascii c) - 48)))
      else acc
  | [] => acc
  end.

(** [sscanf(kbuf, "baud=%u", &new_baud)]: [Some v] when the call returns 1,
    with [v] the value stored in the [u32] [new_baud]; [None] when it
    returns 0.  As in the kernel's [vsscanf]: the literal must match, white
    space before the number is skipped, at least one decimal digit is
    required, the digits are accumulated in 64 bits and the result is
    truncated to [unsigned int]. *)
Definition sscanf_baud (kbuf : list ascii) : option Z :=
  match match_literal (chars "baud=") (c_str kbuf) with
  | None => None
  | Some rest =>
      let str := skip_spaces rest in
      if isdigit (hd NUL str) then Some (u32 (parse_decimal str 0)) else None
  end.

(** [%u] and [%llu] of [snprintf]. *)
Definition decimal (n : Z) : list ascii :=
  chars (NilZero.string_of_uint (N.to_uint (Z.to_N n))).

Definition line (s : string) : list ascii := chars s ++ [LF].
Definition dquote : list ascii := ["034"%char].

(** User memory behind a [char __user *]: [None] when the pointer is not
    mapped, [Some bytes] for the bytes readable from it.
    [copy_from_user(kbuf, buf, len)] yields the [len] bytes copied, or
    [None] when it returns non-zero (the number of bytes it could not
    copy).  A copy of no bytes reads no user memory and returns 0 whatever
    the pointer. *)
Definition copy_from_user (buf : option (list ascii)) (len : Z) : option (list ascii) :=
  match buf with
  | None => if len <=? 0 then Some [] else None
  | Some bytes =>
      if len <=? Z.of_nat (length bytes)
      then Some (firstn (Z.to_nat len) bytes)
      else None
  end.

(** What a read handler hands back: its return value, the bytes it copied
    to the user buffer, and the file position it leaves in [*ppos]. *)
Record read_result : Type := mk_read {
  rd_ret : Z;
  rd_data : list ascii;
  rd_ppos : Z
}.

(* ------------------------------------------------------------------ *)
(** ** Driver functions *)

(** [stats.f++] on a [u64] field: a load and a store. *)
Definition stat_incr (f : stat_field) : prog unit :=
  v <- call (LoadStat f) ;;
  call (StoreStat f (v + 1)) ;;
  Ret tt.

(** [while (count--) cpu_relax();] for a non-negative count. *)
Fixpoint delay_cycles (count : nat) : prog unit :=
  match count with
  | O => Ret tt
  | S n => call CpuRelax ;; delay_cycles n
  end.

Definition uart_clear_fifos : prog unit :=
  call (Writel 2 MU_IIR) ;;
  call (Writel 4 MU_IIR) ;;
  call (Usleep 100 150) ;;
  Ret tt.

Definition uart_apply_config : prog Z :=
  baud <- call (LoadCfg Baudrate) ;;
  r <- calculate_baud_register baud ;;
  match r with
  | BaudErr _ => Ret (- EINVAL)
  | BaudReg baud_reg =>
      call (MutexLock uart_config_mutex) ;;
      call (Writel 0 MU_CNTL) ;;
      uart_clear_fifos ;;
      bits <- call (LoadCfg DataBits) ;;
      call (Writel bits MU_LCR) ;;
      call (Writel baud_reg MU_BAUD) ;;
      call (Writel 3 MU_CNTL) ;;
      call Wmb ;;
      call (MutexUnlock uart_config_mutex) ;;
      Ret 0
  end.

Definition uart_init_gpio : prog unit :=
  val <- call (Readl GPFSEL1) ;;
  let val := Z.land val (u32 (Z.lnot (Z.lor (Z.shiftl 7 12) (Z.shiftl 7 15)))) in
  let val := Z.lor val (Z.lor (Z.shiftl GPIO_FSEL_ALT5 12) (Z.shiftl GPIO_FSEL_ALT5 15)) in
  call (Writel val GPFSEL1) ;;
  val <- call (Readl GPPUPPDN0) ;;
  let val := Z.land val (u32 (Z.lnot (Z.lor (Z.shiftl 3 28) (Z.shiftl 3 30)))) in
  let val := Z.lor val (Z.lor (Z.shiftl GPIO_PUPDN_NONE 28) (Z.shiftl GPIO_PUPDN_UP 30)) in
  call (Writel val GPPUPPDN0) ;;
  delay_cycles 150.

Definition uart_init_hardware : prog Z :=
  baud <- call (LoadCfg Baudrate) ;;
  r <- calculate_baud_register baud ;;
  match r with
  | BaudErr _ => Ret (- EINVAL)
  | BaudReg baud_reg =>
      val <- call (Readl ENABLES) ;;
      call (Writel (Z.lor val 1) ENABLES) ;;
      call (Writel 0 MU_CNTL) ;;
      call (Writel 0 MU_IER) ;;
      uart_clear_fifos ;;
      bits <- call (LoadCfg DataBits) ;;
      call (Writel bits MU_LCR) ;;
      call (Writel 0 MU_MCR) ;;
      call (Writel baud_reg MU_BAUD) ;;
      call (Writel 3 MU_CNTL) ;;
      call Wmb ;;
      Ret 0
  end.

(** The wait loop of [uart_send_char],
    [while (!(readl(&uart->MU_LSR) & (1 << 5)) && timeout-- > 0) usleep_range(1, 2);]
    entered with [timeout = n]; yields the value of [timeout] on exit.  When
    the status bit is set the right operand is not evaluated and [timeout]
    keeps its value; when [timeout] is 0 the test fails and leaves it at -1. *)
Fixpoint tx_wait (n : nat) : prog Z :=
  lsr <- call (Readl MU_LSR) ;;
  if negb (Z.land lsr 32 =? 0) then Ret (Z.of_nat n)
  else
    match n with
    | O => Ret (-1)
    | S m => call (Usleep 1 2) ;; tx_wait m
    end.

(** [uart_send_char] after its newline test: wait, then either count a
    timeout or write the character and count it. *)
Definition send_char_body (c : ascii) : prog unit :=
  timeout <- tx_wait 10000 ;;
  if timeout <=? 0 then stat_incr TxErrors
  else
    call (Writel (u32_of_char c) MU_IO) ;;
    stat_incr TxBytes.

(** [uart_send_char] calls itself on ['\r'] when given ['\n']; [depth]
    bounds the nesting of that call.  ['\r'] is not ['\n'], so the nested
    call never recurses and depth 1 is exact ([uart_send_char_unfold]). *)
Fixpoint uart_send_char_depth (depth : nat) (c : ascii) : prog unit :=
  (if Ascii.eqb c LF then
     match depth with
     | S d => uart_send_char_depth d CR
     | O => Ret tt
     end
   else Ret tt) ;;
  send_char_body c.

Definition uart_send_char (c : ascii) : prog unit := uart_send_char_depth 1 c.

(** The loop of [uart_send_string], over the memory at [s]. *)
Fixpoint send_string_loop (s : list ascii) : prog unit :=
  match s with
  | [] => Ret tt
  | c :: s' =>
      if Ascii.eqb c NUL then Ret tt
      else
        (if Ascii.eqb c LF then uart_send_char CR else Ret tt) ;;
        uart_send_char c ;;
        send_string_loop s'
  end.

Definition uart_send_string (s : list ascii) : prog unit :=
  call (MutexLock uart_tx_mutex) ;;
  send_string_loop s ;;
  call (MutexUnlock uart_tx_mutex) ;;
  Ret tt.

Definition uart_data_available : prog Z :=
  lsr <- call (Readl MU_LSR) ;;
  Ret (Z.land lsr 1).

Definition uart_check_rx_errors : prog unit :=
  lsr <- call (Readl MU_LSR) ;;
  if negb (Z.land lsr 2 =? 0) then stat_incr FifoOverruns else Ret tt.

Definition uart_receive_char : prog ascii :=
  avail <- uart_data_available ;;
  if avail =? 0 then Ret NUL
  else
    uart_check_rx_errors ;;
    stat_incr RxBytes ;;
    v <- call (Readl MU_IO) ;;
    Ret (char_of_u32 v).

(** The first wait of [uart_proc_read],
    [while (!uart_data_available() && timeout-- > 0) usleep_range(1000, 1500);]
    entered with [timeout = n]; yields the value of [timeout] on exit. *)
Fixpoint rx_first_wait (n : nat) : prog Z :=
  avail <- uart_data_available ;;
  if negb (avail =? 0) then Ret (Z.of_nat n)
  else
    match n with
    | O => Ret (-1)
    | S m => call (Usleep 1000 1500) ;; rx_first_wait m
    end.

Definition MAX_CONSECUTIVE_NO_DATA : Z := 300.

(** [sizeof(kbuf) - 1] for [char kbuf[512]]. *)
Definition KBUF_LIMIT : Z := 511.

(** The loops of [uart_proc_read] need not terminate (a device may report
    data for ever and deliver only NUL characters), so they take fuel: one
    unit per iteration, [None] when it runs out.  The buffer [kbuf] is kept
    as the list of its first [i] characters, [i] being its length. *)

(** Inner loop:
    [while (uart_data_available() && i < sizeof(kbuf) - 1 && i < count)]. *)
Fixpoint rx_inner (fuel : nat) (count : Z) (kbuf : list ascii) (no_data : Z)
  : prog (option (list ascii * Z)) :=
  match fuel with
  | O => Ret None
  | S fuel' =>
      avail <- uart_data_available ;;
      let i := Z.of_nat (length kbuf) in
      if negb (avail =? 0) && (i <? KBUF_LIMIT) && (i <? count) then
        c <- uart_receive_char ;;
        if negb (Ascii.eqb c NUL)
        then rx_inner fuel' count (kbuf ++ [c]) 0
        else rx_inner fuel' count kbuf no_data
      else Ret (Some (kbuf, no_data))
  end.

(** The idle step shared by the two branches after the inner loop: sleep,
    count the idle iteration; [true] when the loop must [break]. *)
Definition rx_idle (no_data : Z) : prog (Z * bool) :=
  call (Usleep 1000 1500) ;;
  let no_data := no_data + 1 in
  Ret (no_data, no_data >=? MAX_CONSECUTIVE_NO_DATA).

(** Outer loop: [while (i < sizeof(kbuf) - 1 && i < count)]. *)
Fixpoint rx_outer (fuel : nat) (count : Z) (kbuf : list ascii) (no_data : Z)
  : prog (option (list ascii)) :=
  match fuel with
  | O => Ret None
  | S fuel' =>
      let i := Z.of_nat (length kbuf) in
      if (i <? KBUF_LIMIT) && (i <? count) then
        r <- rx_inner fuel' count kbuf no_data ;;
        match r with
        | None => Ret None
        | Some (kbuf, no_data) =>
            let i := Z.of_nat (length kbuf) in
            if i >? 0 then
              avail <- uart_data_available ;;
              if avail =? 0 then
                r <- rx_idle no_data ;;
                if snd r then Ret (Some kbuf)
                else rx_outer fuel' count kbuf (fst r)
              else rx_outer fuel' count kbuf no_data
            else if i =? 0 then
              avail <- uart_data_available ;;
              if avail =? 0 then
                r <- rx_idle no_data ;;
                if snd r then Ret (Some kbuf)
                else rx_outer fuel' count kbuf (fst r)
              else rx_outer fuel' count kbuf no_data
            else rx_outer fuel' count kbuf no_data
        end
      else Ret (Some kbuf)
  end.

(** [uart_proc_read(file, buf, count, ppos)]; [user_ok] tells whether
    [copy_to_user] to [buf] succeeds, [ppos] is the value of [*ppos]. *)
Definition uart_proc_read (fuel : nat) (user_ok : bool) (count ppos : Z)
  : prog (option read_result) :=
  if ppos >? 0 then Ret (Some (mk_read 0 [] ppos))
  else
    call (MutexLock uart_rx_mutex) ;;
    timeout <- rx_first_wait 1000 ;;
    if timeout <=? 0 then
      call (MutexUnlock uart_rx_mutex) ;;
      Ret (Some (mk_read 0 [] ppos))
    else
      r <- rx_outer fuel count [] 0 ;;
      match r with
      | None => Ret None
      | Some kbuf =>
          call (MutexUnlock uart_rx_mutex) ;;
          let i := Z.of_nat (length kbuf) in
          if i =? 0 then Ret (Some (mk_read 0 [] ppos))
          else if user_ok then Ret (Some (mk_read i kbuf (ppos + i)))
          else
            stat_incr RxErrors ;;
            Ret (Some (mk_read (- EFAULT) [] ppos))
      end.

(** [uart_proc_write(file, buf, count, ppos)]. *)
Definition uart_proc_write (buf : option (list ascii)) (count : Z) : prog Z :=
  let len := Z.min count KBUF_LIMIT in
  match copy_from_user buf len with
  | None =>
      stat_incr TxErrors ;;
      Ret (- EFAULT)
  | Some kbuf =>
      uart_send_string (kbuf ++ [NUL]) ;;
      Ret count
  end.

(** The tail common to the three text readers: [len] is what [snprintf]
    returned for the text written to [kbuf[512]]; [user_ok] tells whether
    the caller's buffer can be written.  [copy_to_user] of no bytes writes
    no user memory and returns 0 whatever the buffer. *)
Definition read_text (text : list ascii) (user_ok : bool) (count ppos : Z)
  : read_result :=
  let kbuf := firstn 511 text in
  let len := Z.of_nat (length text) in
  let len := if len >? count then count else len in
  if user_ok || (len <=? 0)
  then mk_read len (firstn (Z.to_nat len) kbuf) (ppos + len)
  else mk_read (- EFAULT) [] ppos.

Definition config_text (c : uart_config) : list ascii :=
  line "UART Configuration" ++
  line "==================" ++
  chars "Baudrate: " ++ decimal (baudrate c) ++ [LF] ++
  chars "Data bits: " ++
    chars (if data_bits c =? DATA_BITS_8 then "8" else "7") ++ [LF] ++
  chars "System clock: " ++ decimal (system_clock c) ++ line " Hz" ++
  [LF] ++ line "Supported baud rates:" ++
  line "  9600, 19200, 38400, 57600, 115200" ++
  [LF] ++ line "To change configuration, write:" ++
  chars "  echo " ++ dquote ++ chars "baud=115200" ++ dquote ++
    line " > /proc/uart_config" ++
  chars "  echo " ++ dquote ++ chars "bits=7" ++ dquote ++
    line " > /proc/uart_config" ++
  chars "  echo " ++ dquote ++ chars "clear_fifo" ++ dquote ++
    line " > /proc/uart_config".

Definition uart_config_read (user_ok : bool) (count ppos : Z) : prog read_result :=
  if ppos >? 0 then Ret (mk_read 0 [] ppos)
  else
    b <- call (LoadCfg Baudrate) ;;
    d <- call (LoadCfg DataBits) ;;
    c <- call (LoadCfg SystemClock) ;;
    Ret (read_text (config_text (mk_config b d c)) user_ok count ppos).

(** [uart_config_write(file, buf, count, ppos)], [kbuf] being [char[128]]. *)
Definition uart_config_write (buf : option (list ascii)) (count : Z) : prog Z :=
  let len := Z.min count 127 in
  match copy_from_user buf len with
  | None => Ret (- EFAULT)
  | Some bytes =>
      let kbuf := bytes ++ [NUL] in
      match sscanf_baud kbuf with
      | Some new_baud =>
          if negb (new_baud =? BAUD_9600) && negb (new_baud =? BAUD_19200) &&
             negb (new_baud =? BAUD_38400) && negb (new_baud =? BAUD_57600) &&
             negb (new_baud =? BAUD_115200)
          then Ret (- EINVAL)
          else
            call (StoreCfg Baudrate new_baud) ;;
            r <- uart_apply_config ;;
            if negb (r =? 0) then Ret (- EINVAL) else Ret count
      | None =>
          if strncmp kbuf (chars "bits=8") 6 =? 0 then
            call (StoreCfg DataBits DATA_BITS_8) ;;
            r <- uart_apply_config ;;
            if negb (r =? 0) then Ret (- EINVAL) else Ret count
          else if strncmp kbuf (chars "bits=7") 6 =? 0 then
            call (StoreCfg DataBits DATA_BITS_7) ;;
            r <- uart_apply_config ;;
            if negb (r =? 0) then Ret (- EINVAL) else Ret count
          else if strncmp kbuf (chars "clear_fifo") 10 =? 0 then
            uart_clear_fifos ;;
            Ret count
          else if strncmp kbuf (chars "reset_stats") 11 =? 0 then
            call ResetStats ;;
            Ret count
          else Ret (- EINVAL)
      end
  end.

Definition yes_no (b : bool) : list ascii := chars (if b then "Yes" else "No").

Definition status_text (lsr stat : Z) : list ascii :=
  line "UART Status" ++
  line "===========" ++
  chars "TX FIFO empty: " ++ yes_no (negb (Z.land lsr 32 =? 0)) ++ [LF] ++
  chars "TX FIFO full: " ++ yes_no (negb (Z.land stat 512 =? 0)) ++ [LF] ++
  chars "RX FIFO has data: " ++ yes_no (negb (Z.land lsr 1 =? 0)) ++ [LF] ++
  chars "RX FIFO overrun: " ++
    chars (if negb (Z.land lsr 2 =? 0) then "Yes (ERROR!)" else "No") ++ [LF] ++
  chars "TX FIFO level: " ++ decimal (Z.land (Z.shiftr stat 24) 15) ++ [LF] ++
  chars "RX FIFO level: " ++ decimal (Z.land (Z.shiftr stat 16) 15) ++ [LF].

Definition uart_status_read (user_ok : bool) (count ppos : Z) : prog read_result :=
  if ppos >? 0 then Ret (mk_read 0 [] ppos)
  else
    lsr <- call (Readl MU_LSR) ;;
    stat <- call (Readl MU_STAT) ;;
    Ret (read_text (status_text lsr stat) user_ok count ppos).

Definition stats_text (s : uart_stats) : list ascii :=
  line "UART Statistics" ++
  line "===============" ++
  chars "TX bytes: " ++ decimal (tx_bytes s) ++ [LF] ++
  chars "RX bytes: " ++ decimal (rx_bytes s) ++ [LF] ++
  chars "TX errors: " ++ decimal (tx_errors s) ++ [LF] ++
  chars "RX errors: " ++ decimal (rx_errors s) ++ [LF] ++
  chars "FIFO overruns: " ++ decimal (fifo_overruns s) ++ [LF] ++
  [LF] ++ chars "To reset: echo " ++ dquote ++ chars "reset_stats" ++ dquote ++
    line " > /proc/uart_config".

Definition uart_stats_read (user_ok : bool) (count ppos : Z) : prog read_result :=
  if ppos >? 0 then Ret (mk_read 0 [] ppos)
  else
    a <- call (LoadStat TxBytes) ;;
    b <- call (LoadStat RxBytes) ;;
    c <- call (LoadStat TxErrors) ;;
    d <- call (LoadStat RxErrors) ;;
    e <- call (LoadStat FifoOverruns) ;;
    Ret (read_text (stats_text (mk_stats a b c d e)) user_ok count ppos).

(* ------------------------------------------------------------------ *)
(** ** The endpoints as operations *)

(** One call on one of the five /proc files, or one of the two attach-time
    routines, or a message the driver sends itself when it is loaded or
    unloaded, with its arguments. *)
Inductive operation : Type :=
| OpTxWrite (buf : option (list ascii)) (count : Z)
| OpRxRead (fuel : nat) (user_ok : bool) (count ppos : Z)
| OpConfigRead (user_ok : bool) (count ppos : Z)
| OpConfigWrite (buf : option (list ascii)) (count : Z)
| OpStatusRead (user_ok : bool) (count ppos : Z)
| OpStatsRead (user_ok : bool) (count ppos : Z)
| OpInitGpio
| OpInitHardware
| OpSendString (s : list ascii).

Definition operation_prog (o : operation) : prog unit :=
  match o with
  | OpTxWrite buf count => uart_proc_write buf count ;; Ret tt
  | OpRxRead fuel user_ok count ppos => uart_proc_read fuel user_ok count ppos ;; Ret tt
  | OpConfigRead user_ok count ppos => uart_config_read user_ok count ppos ;; Ret tt
  | OpConfigWrite buf count => uart_config_write buf count ;; Ret tt
  | OpStatusRead user_ok count ppos => uart_status_read user_ok count ppos ;; Ret tt
  | OpStatsRead user_ok count ppos => uart_stats_read user_ok count ppos ;; Ret tt
  | OpInitGpio => uart_init_gpio
  | OpInitHardware => uart_init_hardware ;; Ret tt
  | OpSendString s => uart_send_string s
  end.

(** The bytes put on the wire by a run: the values written to [MU_IO]. *)
Fixpoint wire (t : list event) : list Z :=
  match t with
  | [] => []
  | EvWrite v MU_IO :: t' => v :: wire t'
  | _ :: t' => wire t'
  end.

(** The register writes of a run, in order. *)
Fixpoint reg_writes (t : list event) : list (reg * Z) :=
  match t with
  | [] => []
  | EvWrite v r :: t' => (r, v) :: reg_writes t'
  | _ :: t' => reg_writes t'
  end.

Fixpoint sleeps (t : list event) : nat :=
  match t with
  | [] => O
  | EvSleep _ _ :: t' => S (sleeps t')
  | _ :: t' => sleeps t'
  end.

(** Number of stores to the counter [f], and whether the statistics were
    cleared, in a run. *)
Fixpoint stat_stores (f : stat_field) (t : list event) : nat :=
  match t with
  | [] => O
  | EvStatStore g _ :: t' =>
      if stat_field_eqb f g then S (stat_stores f t') else stat_stores f t'
  | _ :: t' => stat_stores f t'
  end.

Fixpoint has_reset (t : list event) : bool :=
  match t with
  | [] => false
  | EvStatsReset :: _ => true
  | _ :: t' => has_reset t'
  end.

(* ------------------------------------------------------------------ *)
(** ** A simulated device *)

(** An in-memory stand-in for the Mini UART: a receive FIFO that is popped
    by reads of [MU_IO] and whose non-emptiness is bit 0 of [MU_LSR], an
    overrun flag (bit 1, cleared by reading [MU_LSR]), a transmitter that
    has space (bit 5) once [sim_tx_busy] microseconds of sleep have passed,
    and a log of the writes, from which the other registers read back the
    last value written. *)
Record sim_dev : Type := mk_sim {
  sim_rx : list ascii;
  sim_overrun : bool;
  sim_tx_busy : Z;
  sim_written : list (reg * Z)
}.

Fixpoint last_written (r : reg) (l : list (reg * Z)) (dflt : Z) : Z :=
  match l with
  | [] => dflt
  | (r', v) :: l' => last_written r l' (if reg_eqb r r' then v else dflt)
  end.

Definition sim_lsr (d : sim_dev) : Z :=
  (match sim_rx d with [] => 0 | _ :: _ => 1 end) +
  (if sim_overrun d then 2 else 0) +
  (if sim_tx_busy d <=? 0 then 32 else 0).

Definition sim_stat (d : sim_dev) : Z :=
  (if sim_tx_busy d <=? 0 then 0 else 512) +
  Z.shiftl (Z.min (Z.of_nat (length (sim_rx d))) 8) 16.

Definition sim_readl (r : reg) (d : sim_dev) : Z * sim_dev :=
  match r with
  | MU_LSR => (sim_lsr d, mk_sim (sim_rx d) false (sim_tx_busy d) (sim_written d))
  | MU_IO =>
      match sim_rx d with
      | [] => (0, d)
      | c :: rx => (Z.of_N (N_of_ascii c),
                    mk_sim rx (sim_overrun d) (sim_tx_busy d) (sim_written d))
      end
  | MU_STAT => (sim_stat d, d)
  | _ => (last_written r (sim_written d) 0, d)
  end.

Definition sim_writel (v : Z) (r : reg) (d : sim_dev) : sim_dev :=
  let rx :=
    match r with
    | MU_IIR => if Z.land v 2 =? 0 then sim_rx d else []
    | _ => sim_rx d
    end in
  mk_sim rx (sim_overrun d) (sim_tx_busy d) (sim_written d ++ [(r, v)]).

Definition sim_sleep (lo hi : Z) (d : sim_dev) : sim_dev :=
  mk_sim (sim_rx d) (sim_overrun d) (Z.max 0 (sim_tx_busy d - lo)) (sim_written d).

#[export] Instance sim_device : Device sim_dev := {
  dev_readl := sim_readl;
  dev_writel := sim_writel;
  dev_sleep := sim_sleep
}.

(** A simulated device holding [rx] in its receive FIFO, with a free
    transmitter. *)
Definition sim_with_rx (rx : list ascii) : sim_dev := mk_sim rx false 0 [].

Definition sim_state (c : uart_config) (st : uart_stats) (d : sim_dev) : state sim_dev :=
  mk_state c st d.

(* ------------------------------------------------------------------ *)
(** ** Two callers: interleaving semantics with mutexes *)

Module Conc.

Inductive tid : Type := T1 | T2.

Definition other (t : tid) : tid := match t with T1 => T2 | T2 => T1 end.

Definition tid_eqb (a b : tid) : bool :=
  match a, b with T1, T1 | T2, T2 => true | _, _ => false end.

(** The shared driver state and device, who holds each mutex, what each
    caller has left to execute, and the events so far with their caller. *)
Record cstate (D : Type) : Type := mk_cstate {
  c_state : state D;
  c_owner : mutex -> option tid;
  c_prog1 : prog unit;
  c_prog2 : prog unit;
  c_trace : list (tid * event)
}.

Arguments mk_cstate {D} _ _ _ _ _.
Arguments c_state {D} _.
Arguments c_owner {D} _.
Arguments c_prog1 {D} _.
Arguments c_prog2 {D} _.
Arguments c_trace {D} _.

Definition c_prog {D : Type} (t : tid) (c : cstate D) : prog unit :=
  match t with T1 => c_prog1 c | T2 => c_prog2 c end.

Definition set_prog {D : Type} (t : tid) (p : prog unit) (c : cstate D)
  (st : state D) (ow : mutex -> option tid) (tr : list (tid * event)) : cstate D :=
  match t with
  | T1 => mk_cstate st ow p (c_prog2 c) tr
  | T2 => mk_cstate st ow (c_prog1 c) p tr
  end.

Definition set_owner (m : mutex) (o : option tid) (ow : mutex -> option tid)
  : mutex -> option tid :=
  fun m' => if mutex_eqb m m' then o else ow m'.

(** One scheduling slot given to caller [t]: it executes its next
    operation atomically.  [mutex_lock] on a held mutex does not proceed
    (the caller stays where it is); a caller that has returned does
    nothing. *)
Definition step {D : Type} `{Device D} (t : tid) (c : cstate D) : cstate D :=
  match c_prog t c with
  | Ret _ => c
  | Vis (MutexLock m) k =>
      match c_owner c m with
      | Some _ => c
      | None =>
          set_prog t (k 0) c (c_state c) (set_owner m (Some t) (c_owner c))
                   (c_trace c ++ [(t, EvLock m)])
      end
  | Vis (MutexUnlock m) k =>
      set_prog t (k 0) c (c_state c) (set_owner m None (c_owner c))
               (c_trace c ++ [(t, EvUnlock m)])
  | Vis o k =>
      let '(z, st, evs) := exec_op o (c_state c) in
      set_prog t (k z) c st (c_owner c) (c_trace c ++ map (pair t) evs)
  end.

Definition run_schedule {D : Type} `{Device D} (sched : list tid) (c : cstate D)
  : cstate D :=
  fold_left (fun c t => step t c) sched c.

Definition start {D : Type} (st : state D) (p1 p2 : prog unit) : cstate D :=
  mk_cstate st (fun _ => None) p1 p2 [].

Definition finished {D : Type} (c : cstate D) : bool :=
  match c_prog1 c, c_prog2 c with
  | Ret _, Ret _ => true
  | _, _ => false
  end.

(** The wire with the caller of each byte. *)
Fixpoint tagged_wire (t : list (tid * event)) : list (tid * Z) :=
  match t with
  | [] => []
  | (a, EvWrite v MU_IO) :: t' => (a, v) :: tagged_wire t'
  | _ :: t' => tagged_wire t'
  end.

(** The caller that took [m] first. *)
Fixpoint first_locker (m : mutex) (t : list (tid * event)) : option tid :=
  match t with
  | [] => None
  | (a, EvLock m') :: t' => if mutex_eqb m m' then Some a else first_locker m t'
  | _ :: t' => first_locker m t'
  end.

End Conc.

(* ------------------------------------------------------------------ *)
(** ** Notions used in the statements *)

Definition supported_baud (b : Z) : bool :=
  (b =? BAUD_9600) || (b =? BAUD_19200) || (b =? BAUD_38400) ||
  (b =? BAUD_57600) || (b =? BAUD_115200).

(** [stats.f++]. *)
Definition bump (f : stat_field) (st : uart_stats) : uart_stats :=
  set_stat f (u64 (get_stat f st + 1)) st.

(** Calls of [uart_send_char]'s wait-and-write part made by
    [uart_send_string] on the string at [s]: one per character, and two more
    for each line feed. *)
Fixpoint send_attempts (s : list ascii) : nat :=
  match s with
  | [] => O
  | c :: s' =>
      if Ascii.eqb c NUL then O
      else ((if Ascii.eqb c LF then 3 else 1) + send_attempts s')%nat
  end.

(** The bytes a character puts on the wire when the transmitter has space:
    a line feed goes out as CR (from the loop of [uart_send_string]), CR
    (from the nested call in [uart_send_char]), LF. *)
Definition expand_char (c : ascii) : list Z :=
  if Ascii.eqb c LF then [13; 13; 10] else [u32_of_char c].

Definition expected_wire (s : list ascii) : list Z := flat_map expand_char (c_str s).

(** [I] is a set of device states in which the transmitter reports space
    (bit 5 of [MU_LSR]) and which the transmit path cannot leave: the
    transmitter always has space. *)
Definition tx_space_always {D : Type} `{Device D} (I : D -> Prop) : Prop :=
  (forall d, I d ->
     Z.land (u32 (fst (dev_readl MU_LSR d))) 32 <> 0 /\ I (snd (dev_readl MU_LSR d))) /\
  (forall d v, I d -> I (dev_writel v MU_IO d)).

(** Simulated devices whose transmitter is free. *)
Definition sim_tx_free (d : sim_dev) : Prop := sim_tx_busy d <= 0.

(** [n] increments of the counter [f], and the stores they make. *)
Fixpoint bump_n (f : stat_field) (n : nat) (st : uart_stats) : uart_stats :=
  match n with
  | O => st
  | S n' => bump_n f n' (bump f st)
  end.

Fixpoint store_events (f : stat_field) (n : nat) (st : uart_stats) : list event :=
  match n with
  | O => []
  | S n' => EvStatStore f (u64 (get_stat f st + 1)) :: store_events f n' (bump f st)
  end.

(** The loop conditions [i < sizeof(kbuf) - 1 && i < count] of
    [uart_proc_read], for the buffer filled so far. *)
Definition room (count : Z) (kbuf : list ascii) : bool :=
  (Z.of_nat (length kbuf) <? KBUF_LIMIT) && (Z.of_nat (length kbuf) <? count).

(** What the inner loop of [uart_proc_read] makes of a receive FIFO holding
    [rx] to which nothing is added: the buffer it builds and the part of
    the FIFO it leaves. *)
Fixpoint drain (count : Z) (kbuf rx : list ascii) : list ascii * list ascii :=
  match rx with
  | [] => (kbuf, [])
  | c :: rx' =>
      if room count kbuf then
        if negb (Ascii.eqb c NUL) then drain count (kbuf ++ [c]) rx'
        else drain count kbuf rx'
      else (kbuf, rx)
  end.

Definition not_nul (c : ascii) : bool := negb (Ascii.eqb c NUL).

(** Idle iterations [uart_proc_read] goes through once the inner loop has
    made [kbuf] of a FIFO and left [rx] in it, nothing more arriving: none
    when data is left (the buffer is full), one when the FIFO is empty and
    the buffer full, [MAX_CONSECUTIVE_NO_DATA] when the FIFO is empty and
    the buffer has room. *)
Definition idle_sleeps (count : Z) (kbuf rx : list ascii) : nat :=
  match rx with
  | [] => if room count kbuf then 300%nat else 1%nat
  | _ :: _ => O
  end.


(** Whether a call is a [reset_stats] command on the config file. *)
Definition is_reset_stats (o : operation) : bool :=
  match o with
  | OpConfigWrite buf count =>
      match copy_from_user buf (Z.min count 127) with
      | Some bytes => strncmp (bytes ++ [NUL]) (chars "reset_stats") 11 =? 0
      | None => false
      end
  | _ => false
  end.

(** [n] increments of a [u64] counter holding [x]. *)
Fixpoint advance (n : nat) (x : Z) : Z :=
  match n with
  | O => x
  | S n' => advance n' (u64 (x + 1))
  end.

(** A program that only ever increments counters: it never clears the
    statistics, and leaves each counter at its value advanced once per
    store the run made to it. *)
Definition counts_ok {D : Type} `{Device D} {A : Type} (p : prog A) : Prop :=
  forall s : state D,
    let '(_, s', t) := run p s in
    has_reset t = false /\
    forall f, get_stat f (st_stats s') =
              advance (stat_stores f t) (get_stat f (st_stats s)).

(** Operations other than the two stores to the statistics. *)
Definition keeps_stats (o : op) : Prop :=
  match o with
  | StoreStat _ _ | ResetStats => False
  | _ => True
  end.

(** ** Shape of a caller of [uart_send_string] *)

(** Operations other than taking or releasing a mutex. *)
Definition plain (o : op) : Prop :=
  match o with
  | MutexLock _ | MutexUnlock _ => False
  | _ => True
  end.

(** Programs that never touch a mutex. *)
Inductive plain_prog {A : Type} : prog A -> Prop :=
| plain_ret (a : A) : plain_prog (Ret a)
| plain_vis (o : op) (k : Z -> prog A) :
    plain o -> (forall z, plain_prog (k z)) -> plain_prog (Vis o k).

(** What is left of a call of [uart_send_string] that holds the transmit
    mutex: operations that touch no mutex, then the release of the transmit
    mutex, then the return. *)
Inductive in_section : prog unit -> Prop :=
| in_unlock (k : Z -> prog unit) :
    (forall z, k z = Ret tt) -> in_section (Vis (MutexUnlock uart_tx_mutex) k)
| in_plain (o : op) (k : Z -> prog unit) :
    plain o -> (forall z, in_section (k z)) -> in_section (Vis o k).

(** Where a caller stands with respect to the transmit mutex. *)
Inductive phase : Type := Before | Inside | After.

Definition tx_phase (p : prog unit) : phase :=
  match p with
  | Ret _ => After
  | Vis (MutexLock uart_tx_mutex) _ => Before
  | Vis _ _ => Inside
  end.

(** A caller about to take the transmit mutex, or holding it, or done. *)
Definition sender_ok (p : prog unit) : Prop :=
  match p with
  | Ret _ => True
  | Vis (MutexLock uart_tx_mutex) k => forall z, in_section (k z)
  | Vis _ _ => in_section p
  end.

(** The bytes of caller [a], as they appear on the tagged wire. *)
Definition bytes_of (a : Conc.tid) (w : list Z) : list (Conc.tid * Z) := map (pair a) w.

(** What holds of two callers of [uart_send_string] at every point of every
    interleaving: each is well formed, the transmit mutex is held exactly
    by a caller inside its section, and the wire is the bytes of a caller
    [a] followed by the bytes of the other, the other having written
    nothing before [a] is done, [a] being the first to have taken the
    mutex. *)
Definition no_interleaving {D : Type} (c : Conc.cstate D) : Prop :=
  (forall t, sender_ok (Conc.c_prog t c)) /\
  (forall t, Conc.c_owner c uart_tx_mutex = Some t <->
             tx_phase (Conc.c_prog t c) = Inside) /\
  exists a wa wb,
    Conc.tagged_wire (Conc.c_trace c) = bytes_of a wa ++ bytes_of (Conc.other a) wb /\
    (tx_phase (Conc.c_prog (Conc.other a) c) = Before -> wb = []) /\
    (tx_phase (Conc.c_prog a c) = Before -> wa = []) /\
    (tx_phase (Conc.c_prog (Conc.other a) c) <> Before ->
     tx_phase (Conc.c_prog a c) = After) /\
    Conc.first_locker uart_tx_mutex (Conc.c_trace c) =
      match tx_phase (Conc.c_prog a c) with
      | Before => None
      | _ => Some a
      end.

(** The number a decimal numeral denotes, most significant digit first,
    continuing from [acc]. *)
Fixpoint uint_value (d : Decimal.uint) (acc : Z) : Z :=
  match d with
  | Decimal.Nil => acc
  | Decimal.D0 l => uint_value l (10 * acc)
  | Decimal.D1 l => uint_value l (10 * acc + 1)
  | Decimal.D2 l => uint_value l (10 * acc + 2)
  | Decimal.D3 l => uint_value l (10 * acc + 3)
  | Decimal.D4 l => uint_value l (10 * acc + 4)
  | Decimal.D5 l => uint_value l (10 * acc + 5)
  | Decimal.D6 l => uint_value l (10 * acc + 6)
  | Decimal.D7 l => uint_value l (10 * acc + 7)
  | Decimal.D8 l => uint_value l (10 * acc + 8)
  | Decimal.D9 l => uint_value l (10 * acc + 9)
  end.

(* ------------------------------------------------------------------ *)
(** ** Attaching and detaching the module *)

Definition ENOMEM : Z := 12.

(** The five /proc files of rpi2.h. *)
Inductive proc_file : Type :=
| PROC_UART_TX | PROC_UART_RX | PROC_UART_CONFIG | PROC_UART_STATUS | PROC_UART_STATS.

(** What the module obtains from the kernel: the mapping of the GPIO
    registers ([gpio = ioremap(GPIO_BASE, 0x1000)]), the mapping of the
    UART registers ([uart = ioremap(AUX_BASE, sizeof(struct uart_regs))])
    and the five /proc entries ([proc_create]). *)
Inductive resource : Type :=
| GpioMap
| UartMap
| ProcEntry (f : proc_file).

Definition proc_file_eqb (a b : proc_file) : bool :=
  match a, b with
  | PROC_UART_TX, PROC_UART_TX | PROC_UART_RX, PROC_UART_RX
  | PROC_UART_CONFIG, PROC_UART_CONFIG | PROC_UART_STATUS, PROC_UART_STATUS
  | PROC_UART_STATS, PROC_UART_STATS => true
  | _, _ => false
  end.

Definition resource_eqb (a b : resource) : bool :=
  match a, b with
  | GpioMap, GpioMap | UartMap, UartMap => true
  | ProcEntry f, ProcEntry g => proc_file_eqb f g
  | _, _ => false
  end.

(** A call that obtained a resource ([ioremap] or [proc_create] returning
    non-NULL), or one that gives it back ([iounmap], [proc_remove]). *)
Inductive kcall : Type :=
| Obtained (r : resource)
| Released (r : resource).

(** ["Mini UART driver loaded successfully!\r\n"] and
    ["Mini UART driver unloading...\r\n"]. *)
Definition loaded_message : list ascii :=
  chars "Mini UART driver loaded successfully!" ++ [CR; LF; NUL].
Definition unloading_message : list ascii :=
  chars "Mini UART driver unloading..." ++ [CR; LF; NUL].

(** The labels at the end of [uart_driver_init], each falling through to
    the next. *)
Definition cleanup_uart : list kcall := [Released UartMap; Released GpioMap].
Definition cleanup_tx : list kcall := Released (ProcEntry PROC_UART_TX) :: cleanup_uart.
Definition cleanup_rx : list kcall := Released (ProcEntry PROC_UART_RX) :: cleanup_tx.
Definition cleanup_config : list kcall :=
  Released (ProcEntry PROC_UART_CONFIG) :: cleanup_rx.
Definition cleanup_status : list kcall :=
  Released (ProcEntry PROC_UART_STATUS) :: cleanup_config.

(** [uart_driver_init]; [ok r] tells whether the kernel grants [r].  The
    result is the value returned and the calls made to obtain and give back
    resources, in order. *)
Definition uart_driver_init (ok : resource -> bool) : prog (Z * list kcall) :=
  if negb (ok GpioMap) then Ret (- ENOMEM, [])
  else
    let k := [Obtained GpioMap] in
    if negb (ok UartMap) then Ret (- ENOMEM, k ++ [Released GpioMap])
    else
      let k := k ++ [Obtained UartMap] in
      uart_init_gpio ;;
      ret <- uart_init_hardware ;;
      if negb (ret =? 0) then Ret (ret, k ++ [Released UartMap; Released GpioMap])
      else if negb (ok (ProcEntry PROC_UART_TX)) then Ret (- ENOMEM, k ++ cleanup_uart)
      else
        let k := k ++ [Obtained (ProcEntry PROC_UART_TX)] in
        if negb (ok (ProcEntry PROC_UART_RX)) then Ret (- ENOMEM, k ++ cleanup_tx)
        else
          let k := k ++ [Obtained (ProcEntry PROC_UART_RX)] in
          if negb (ok (ProcEntry PROC_UART_CONFIG)) then Ret (- ENOMEM, k ++ cleanup_rx)
          else
            let k := k ++ [Obtained (ProcEntry PROC_UART_CONFIG)] in
            if negb (ok (ProcEntry PROC_UART_STATUS))
            then Ret (- ENOMEM, k ++ cleanup_config)
            else
              let k := k ++ [Obtained (ProcEntry PROC_UART_STATUS)] in
              if negb (ok (ProcEntry PROC_UART_STATS))
              then Ret (- ENOMEM, k ++ cleanup_status)
              else
                let k := k ++ [Obtained (ProcEntry PROC_UART_STATS)] in
                uart_send_string loaded_message ;;
                Ret (0, k).

(** [uart_driver_exit]; the two flags are the tests [if (uart)] and
    [if (gpio)]. *)
Definition uart_driver_exit (uart_mapped gpio_mapped : bool) : prog (list kcall) :=
  uart_send_string unloading_message ;;
  Ret ([Released (ProcEntry PROC_UART_STATS);
        Released (ProcEntry PROC_UART_STATUS);
        Released (ProcEntry PROC_UART_CONFIG);
        Released (ProcEntry PROC_UART_RX);
        Released (ProcEntry PROC_UART_TX)] ++
       (if uart_mapped then [Released UartMap] else []) ++
       (if gpio_mapped then [Released GpioMap] else [])).

(** The resources held after a sequence of calls, the most recent first;
    [None] when a call gives back something other than the resource
    obtained last among those still held. *)
Fixpoint held_after (log : list kcall) (held : list resource) : option (list resource) :=
  match log with
  | [] => Some held
  | Obtained r :: log' => held_after log' (r :: held)
  | Released r :: log' =>
      match held with
      | r' :: held' => if resource_eqb r r' then held_after log' held' else None
      | [] => None
      end
  end.

Definition all_resources : list resource :=
  [GpioMap; UartMap; ProcEntry PROC_UART_TX; ProcEntry PROC_UART_RX;
   ProcEntry PROC_UART_CONFIG; ProcEntry PROC_UART_STATUS; ProcEntry PROC_UART_STATS].

(* ------------------------------------------------------------------ *)
(** ** What a run executes *)

(** The primitives a run executes, in order (the reads included, which
    leave no event). *)
Fixpoint executed {D : Type} `{Device D} {A : Type} (p : prog A) (s : state D) : list op :=
  match p with
  | Ret _ => []
  | Vis o k => let '(z, s1, _) := exec_op o s in o :: executed (k z) s1
  end.

(** Programs all of whose primitives, on every path, are among those
    [allowed]. *)
Inductive uses_only {A : Type} (allowed : op -> bool) : prog A -> Prop :=
| uses_ret (a : A) : uses_only allowed (Ret a)
| uses_vis (o : op) (k : Z -> prog A) :
    allowed o = true -> (forall z, uses_only allowed (k z)) ->
    uses_only allowed (Vis o k).

(** The primitives of the transmit path, of the receive path, of the three
    text files, of the commands of the config file and of the two attach
    routines. *)
Definition tx_footprint (o : op) : bool :=
  match o with
  | Readl MU_LSR | Writel _ MU_IO | Usleep 1 2
  | MutexLock uart_tx_mutex | MutexUnlock uart_tx_mutex
  | LoadStat TxBytes | StoreStat TxBytes _
  | LoadStat TxErrors | StoreStat TxErrors _ => true
  | _ => false
  end.

Definition rx_footprint (o : op) : bool :=
  match o with
  | Readl MU_LSR | Readl MU_IO | Usleep 1000 1500
  | MutexLock uart_rx_mutex | MutexUnlock uart_rx_mutex
  | LoadStat RxBytes | StoreStat RxBytes _
  | LoadStat RxErrors | StoreStat RxErrors _
  | LoadStat FifoOverruns | StoreStat FifoOverruns _ => true
  | _ => false
  end.

Definition config_read_footprint (o : op) : bool :=
  match o with LoadCfg _ => true | _ => false end.

Definition stats_read_footprint (o : op) : bool :=
  match o with LoadStat _ => true | _ => false end.

Definition status_read_footprint (o : op) : bool :=
  match o with Readl MU_LSR | Readl MU_STAT => true | _ => false end.

Definition config_write_footprint (o : op) : bool :=
  match o with
  | LoadCfg _ | StoreCfg Baudrate _ | StoreCfg DataBits _
  | MutexLock uart_config_mutex | MutexUnlock uart_config_mutex
  | Writel _ MU_CNTL | Writel _ MU_IIR | Writel _ MU_LCR | Writel _ MU_BAUD
  | Usleep 100 150 | Wmb | ResetStats => true
  | _ => false
  end.

Definition init_gpio_footprint (o : op) : bool :=
  match o with
  | Readl GPFSEL1 | Writel _ GPFSEL1 | Readl GPPUPPDN0 | Writel _ GPPUPPDN0
  | CpuRelax => true
  | _ => false
  end.

Definition init_hardware_footprint (o : op) : bool :=
  match o with
  | LoadCfg _ | Readl ENABLES | Writel _ ENABLES
  | Writel _ MU_CNTL | Writel _ MU_IER | Writel _ MU_IIR | Writel _ MU_LCR
  | Writel _ MU_MCR | Writel _ MU_BAUD | Usleep 100 150 | Wmb => true
  | _ => false
  end.

Definition footprint (o : operation) : op -> bool :=
  match o with
  | OpTxWrite _ _ | OpSendString _ => tx_footprint
  | OpRxRead _ _ _ _ => rx_footprint
  | OpConfigRead _ _ _ => config_read_footprint
  | OpConfigWrite _ _ => config_write_footprint
  | OpStatusRead _ _ _ => status_read_footprint
  | OpStatsRead _ _ _ => stats_read_footprint
  | OpInitGpio => init_gpio_footprint
  | OpInitHardware => init_hardware_footprint
  end.

(* ------------------------------------------------------------------ *)
(** ** Disciplines a trace is checked against *)

(** Mutexes: the mutex held after the events of [t], starting with [held];
    [None] when a mutex is taken while one is held, when a mutex is
    released that is not the one held, or when [MU_IO] is written without
    the transmit mutex. *)
Fixpoint lock_trace (held : option mutex) (t : list event) : option (option mutex) :=
  match t with
  | [] => Some held
  | EvLock m :: t' =>
      match held with
      | None => lock_trace (Some m) t'
      | Some _ => None
      end
  | EvUnlock m :: t' =>
      match held with
      | Some m' => if mutex_eqb m m' then lock_trace None t' else None
      | None => None
      end
  | EvWrite _ MU_IO :: t' =>
      match held with
      | Some uart_tx_mutex => lock_trace held t'
      | _ => None
      end
  | _ :: t' => lock_trace held t'
  end.

(** Line settings: [cntl] is the value last written to [MU_CNTL] in the
    trace so far.  The format and divisor registers may be written only
    after a write of 0 to [MU_CNTL] (transmitter and receiver disabled),
    and a trace that wrote [MU_CNTL] must end with 3 in it (both enabled). *)
Fixpoint reconfig_trace (cntl : option Z) (t : list event) : bool :=
  match t with
  | [] => match cntl with Some v => v =? 3 | None => true end
  | EvWrite v MU_CNTL :: t' => reconfig_trace (Some v) t'
  | EvWrite _ MU_LCR :: t' | EvWrite _ MU_BAUD :: t' =>
      match cntl with
      | Some v => (v =? 0) && reconfig_trace cntl t'
      | None => false
      end
  | _ :: t' => reconfig_trace cntl t'
  end.

(* ------------------------------------------------------------------ *)
(** ** Further notions used in the statements *)

(** The configurations the driver means to be in: a supported rate, 7 or 8
    data bits, the clock it is built with. *)
Definition valid_config (c : uart_config) : bool :=
  supported_baud (baudrate c) &&
  ((data_bits c =? DATA_BITS_7) || (data_bits c =? DATA_BITS_8)) &&
  (system_clock c =? 500000000).

(** A sequence of calls, one after the other. *)
Fixpoint run_ops {D : Type} `{Device D} (os : list operation) (s : state D) : state D :=
  match os with
  | [] => s
  | o :: os' => run_ops os' (snd (fst (run (operation_prog o) s)))
  end.

(** Whether the characters of [s] begin with those of [lit]. *)
Fixpoint starts_with (lit s : list ascii) : bool :=
  match lit with
  | [] => true
  | l :: lit' =>
      match s with
      | c :: s' => Ascii.eqb l c && starts_with lit' s'
      | [] => false
      end
  end.

(** A device that never answers: every register reads 0, so the
    transmitter never reports space and the receiver never has data. *)
Definition silent_device : Device unit := {|
  dev_readl := fun _ d => (0, d);
  dev_writel := fun _ _ d => d;
  dev_sleep := fun _ _ d => d
|}.

(** [I] is a set of device states in which the transmitter reports no
    space (bit 5 of [MU_LSR] clear) and which reading the status and
    sleeping cannot leave. *)
Definition tx_space_never {D : Type} `{Device D} (I : D -> Prop) : Prop :=
  (forall d, I d ->
     Z.land (u32 (fst (dev_readl MU_LSR d))) 32 = 0 /\ I (snd (dev_readl MU_LSR d))) /\
  (forall d lo hi, I d -> I (dev_sleep lo hi d)).

(** Devices on which reading [MU_LSR] clears the overrun flag (bit 1): a
    read that directly follows another finds it clear. *)
Definition lsr_read_clears_overrun {D : Type} `{Device D} : Prop :=
  forall d : D,
    Z.land (u32 (fst (dev_readl MU_LSR (snd (dev_readl MU_LSR d))))) 2 = 0.

(** Number of [cpu_relax] calls in a run. *)
Fixpoint relaxes (t : list event) : nat :=
  match t with
  | [] => O
  | EvRelax :: t' => S (relaxes t')
  | _ :: t' => relaxes t'
  end.

(** The stores to [config] that keep it as the driver means it: a supported
    rate, 7 or 8 data bits, and never the clock. *)
Definition config_store_ok (o : op) : bool :=
  match o with
  | StoreCfg Baudrate v => supported_baud v
  | StoreCfg DataBits v => (v =? DATA_BITS_7) || (v =? DATA_BITS_8)
  | StoreCfg SystemClock _ => false
  | _ => true
  end.

(** The primitives of [a] other than taking or releasing a mutex: what a
    function executes while it holds its mutex. *)
Definition without_locks (a : op -> bool) (o : op) : bool :=
  a o && match o with MutexLock _ | MutexUnlock _ => false | _ => true end.

(** Programs every run of which, from any state and on any device of the
    class, leaves a trace satisfying [P]. *)
Definition every_run {D : Type} `{Device D} {A : Type}
    (P : list event -> Prop) (p : prog A) : Prop :=
  forall s : state D, P (snd (run p s)).

(** What a first read (at position 0) of [count] bytes of a text file hands
    back when the copy succeeds: the first [count] characters of the text,
    their number as return value and as new position. *)
Definition delivered (text : list ascii) (count : Z) (r : read_result) : Prop :=
  rd_data r = firstn (Z.to_nat count) text /\
  rd_ret r = Z.of_nat (length (rd_data r)) /\
  rd_ret r = Z.min count (Z.of_nat (length text)) /\
  rd_ppos r = rd_ret r.

(** The value last written to the register [r] in a trace, if any. *)
Fixpoint last_write (r : reg) (t : list event) (seen : option Z) : option Z :=
  match t with
  | [] => seen
  | EvWrite v r' :: t' => last_write r t' (if reg_eqb r r' then Some v else seen)
  | _ :: t' => last_write r t' seen
  end.

(** The text of a rate command, and the call that writes it to the config
    file. *)
Definition baud_command (N : Z) : list ascii := chars "baud=" ++ decimal N.

Definition write_baud (N : Z) : prog unit :=
  operation_prog (OpConfigWrite (Some (baud_command N))
                                (Z.of_nat (length (baud_command N)))).

(** The divisor [calculate_baud_register] yields for the rate [N] with the
    500 MHz clock. *)
Definition divisor_500MHz (N : Z) : Z := 500000000 / (8 * N) - 1.

(* ================================================================== *)
(** * Properties *)

(* ------------------------------------------------------------------ *)
(** ** The interpreter *)

Section InterpFacts.
Context {D : Type} `{Device D}.

Lemma run_bind {A B : Type} (p : prog A) (f : A -> prog B) (s : state D) :
  run (bind p f) s =
  let '(a, s1, t1) := run p s in
  let '(b, s2, t2) := run (f a) s1 in
  (b, s2, t1 ++ t2).
Proof.
  revert s. induction p as [a | o k IH]; intros s; simpl.
  - destruct (run (f a) s) as [[b s2] t2]. reflexivity.
  - destruct (exec_op o s) as [[z s1] t1].
    rewrite IH.
    destruct (run (k z) s1) as [[a s2] t2].
    destruct (run (f a) s2) as [[b s3] t3].
    now rewrite app_assoc.
Qed.

Lemma run_calculate_baud_register (b : Z) (s : state D) :
  run (calculate_baud_register b) s =
  (baud_register (system_clock (st_config s)) b, s, []).
Proof. reflexivity. Qed.

End InterpFacts.

(* ------------------------------------------------------------------ *)
(** ** Baud rate arithmetic *)

Lemma supported_baud_cases (b : Z) :
  supported_baud b = true <->
  b = 9600 \/ b = 19200 \/ b = 38400 \/ b = 57600 \/ b = 115200.
Proof.
  unfold supported_baud, BAUD_9600, BAUD_19200, BAUD_38400, BAUD_57600, BAUD_115200.
  rewrite !orb_true_iff, !Z.eqb_eq. tauto.
Qed.

(** Within the accepted range neither the product [8 * baud] nor the
    subtraction wraps, so the 32-bit computation is the exact one. *)
Lemma baud_register_exact (c b : Z) :
  is_u32 c -> is_u32 b ->
  baud_register c b =
  if (b =? 0) || (b >? c / 8) then BaudErr InvalidBaudRate
  else if c / (8 * b) - 1 >? 65535 then BaudErr BaudOverflow
  else BaudReg (c / (8 * b) - 1).
Proof.
  unfold is_u32, baud_register. intros Hc Hb.
  destruct ((b =? 0) || (b >? c / 8)) eqn:E; [reflexivity|].
  apply orb_false_iff in E. destruct E as [E0 E8].
  apply Z.eqb_neq in E0.
  assert (Hle : b <= c / 8) by (destruct (Z.gtb_spec b (c / 8)); [discriminate | lia]).
  assert (H8 : 8 * b <= c).
  { pose proof (Z.mul_div_le c 8 ltac:(lia)). lia. }
  assert (Hden : u32 (8 * b) = 8 * b) by (unfold u32; apply Z.mod_small; lia).
  rewrite Hden.
  assert (Hq1 : 1 <= c / (8 * b)) by (apply Z.div_le_lower_bound; lia).
  assert (Hq2 : c / (8 * b) <= c).
  { apply Z.div_le_upper_bound; [lia|]. nia. }
  assert (Hres : u32 (c / (8 * b) - 1) = c / (8 * b) - 1)
    by (unfold u32; apply Z.mod_small; lia).
  rewrite Hres.
  destruct (Z.gtb_spec (c / (8 * b) - 1) 65535); [reflexivity|].
  f_equal. unfold u16. apply Z.mod_small. lia.
Qed.

(** C2: [calculate_baud_register] fails as an invalid rate exactly when the
    rate is 0 or above [clock / 8]; otherwise its value is
    [clock / (8 * baud) - 1] (floor division), failing as an overflow
    exactly when that exceeds 0xFFFF; with the 500 MHz clock every
    supported rate yields that value and it fits 16 bits; 115200 gives 541. *)
Theorem compute_divisor_spec (c b : Z) :
  is_u32 c -> is_u32 b ->
  (baud_register c b = BaudErr InvalidBaudRate <-> b = 0 \/ b > c / 8) /\
  (baud_register c b = BaudErr BaudOverflow <->
     ~ (b = 0 \/ b > c / 8) /\ c / (8 * b) - 1 > 65535) /\
  (forall v, baud_register c b = BaudReg v <->
     ~ (b = 0 \/ b > c / 8) /\ v = c / (8 * b) - 1 /\ v <= 65535) /\
  (supported_baud b = true ->
     baud_register 500000000 b = BaudReg (500000000 / (8 * b) - 1) /\
     0 <= 500000000 / (8 * b) - 1 <= 65535) /\
  baud_register 500000000 115200 = BaudReg 541.
Proof.
  intros Hc Hb.
  pose proof (baud_register_exact c b Hc Hb) as E.
  assert (Hinv : (b =? 0) || (b >? c / 8) = true <-> b = 0 \/ b > c / 8).
  { rewrite orb_true_iff, Z.eqb_eq, Z.gtb_gt. tauto. }
  split; [|split; [|split; [|split]]].
  - rewrite E. destruct ((b =? 0) || (b >? c / 8)).
    + split; [intros _; apply Hinv; reflexivity | reflexivity].
    + split; [| intros Hx; apply Hinv in Hx; discriminate].
      destruct (c / (8 * b) - 1 >? 65535); discriminate.
  - rewrite E. destruct ((b =? 0) || (b >? c / 8)).
    + split; [discriminate | intros [Hn _]; exfalso; apply Hn, Hinv; reflexivity].
    + destruct (Z.gtb_spec (c / (8 * b) - 1) 65535) as [Hgt | Hle].
      * split; [intros _ | reflexivity].
        split; [intros Hx; apply Hinv in Hx; discriminate | lia].
      * split; [discriminate | intros [_ Hx]; lia].
  - intros v. rewrite E. destruct ((b =? 0) || (b >? c / 8)).
    + split; [discriminate | intros [Hn _]; exfalso; apply Hn, Hinv; reflexivity].
    + destruct (Z.gtb_spec (c / (8 * b) - 1) 65535) as [Hgt | Hle].
      * split; [discriminate | intros [_ [-> Hv]]; lia].
      * split.
        -- intros Hx. injection Hx as <-.
           split; [intros Hx; apply Hinv in Hx; discriminate | split; [reflexivity | exact Hle]].
        -- intros [_ [-> _]]. reflexivity.
  - intros Hs. apply supported_baud_cases in Hs.
    destruct Hs as [-> | [-> | [-> | [-> | ->]]]];
      (split; [reflexivity | vm_compute; split; discriminate]).
  - reflexivity.
Qed.

Lemma compute_divisor_spec_witness :
  is_u32 500000000 /\ is_u32 9600 /\
  (forall v, baud_register 500000000 9600 = BaudReg v <->
     ~ (9600 = 0 \/ 9600 > 500000000 / 8) /\
     v = 500000000 / (8 * 9600) - 1 /\ v <= 65535).
Proof.
  assert (H1 : is_u32 500000000) by (unfold is_u32; lia).
  assert (H2 : is_u32 9600) by (unfold is_u32; lia).
  split; [exact H1 | split; [exact H2 |]].
  exact (proj1 (proj2 (proj2 (compute_divisor_spec 500000000 9600 H1 H2)))).
Defined.

(* ------------------------------------------------------------------ *)
(** ** Events and characters *)

Lemma wire_app (t1 t2 : list event) : wire (t1 ++ t2) = wire t1 ++ wire t2.
Proof.
  induction t1 as [| e t1 IH]; simpl; [reflexivity|].
  destruct e as [v r | | | | | | |]; try exact IH.
  destruct r; simpl; try exact IH. now rewrite IH.
Qed.

Lemma sleeps_app (t1 t2 : list event) : sleeps (t1 ++ t2) = (sleeps t1 + sleeps t2)%nat.
Proof.
  induction t1 as [| e t1 IH]; simpl; [reflexivity|].
  destruct e; simpl; try exact IH. now rewrite IH.
Qed.

Lemma stat_stores_app (f : stat_field) (t1 t2 : list event) :
  stat_stores f (t1 ++ t2) = (stat_stores f t1 + stat_stores f t2)%nat.
Proof.
  induction t1 as [| e t1 IH]; simpl; [reflexivity|].
  destruct e; simpl; try exact IH.
  destruct (stat_field_eqb f f0); simpl; now rewrite IH.
Qed.

Lemma has_reset_app (t1 t2 : list event) :
  has_reset (t1 ++ t2) = has_reset t1 || has_reset t2.
Proof.
  induction t1 as [| e t1 IH]; simpl; [reflexivity|].
  destruct e; simpl; try exact IH. reflexivity.
Qed.

Lemma wire_sleeps (k : nat) (lo hi : Z) : wire (repeat (EvSleep lo hi) k) = [].
Proof. induction k; simpl; auto. Qed.

Lemma sleeps_repeat (k : nat) (lo hi : Z) : sleeps (repeat (EvSleep lo hi) k) = k.
Proof. induction k; simpl; auto. Qed.

Lemma stat_stores_sleeps (f : stat_field) (k : nat) (lo hi : Z) :
  stat_stores f (repeat (EvSleep lo hi) k) = O.
Proof. induction k; simpl; auto. Qed.

Lemma u32_of_char_range (c : ascii) : 0 <= u32_of_char c < 256.
Proof. destruct c as [[] [] [] [] [] [] [] []]; vm_compute; split; congruence. Qed.

Lemma u32_of_char_LF (c : ascii) : u32_of_char c = 10 -> c = LF.
Proof. destruct c as [[] [] [] [] [] [] [] []]; vm_compute; congruence. Qed.

Lemma char_of_u32_of_char (c : ascii) : char_of_u32 (Z.of_N (N_of_ascii c)) = c.
Proof. destruct c as [[] [] [] [] [] [] [] []]; reflexivity. Qed.

Lemma u32_small (v : Z) : 0 <= v < 2 ^ 32 -> u32 v = v.
Proof. intros Hv. unfold u32. now apply Z.mod_small. Qed.

Lemma u32_u32_of_char (c : ascii) : u32 (u32_of_char c) = u32_of_char c.
Proof. apply u32_small. pose proof (u32_of_char_range c). lia. Qed.

Lemma u32_N_of_ascii (c : ascii) : u32 (Z.of_N (N_of_ascii c)) = Z.of_N (N_of_ascii c).
Proof. destruct c as [[] [] [] [] [] [] [] []]; reflexivity. Qed.

(** The recursion of [uart_send_char], as the C function has it. *)
Lemma uart_send_char_unfold (c : ascii) :
  uart_send_char c =
  ((if Ascii.eqb c LF then uart_send_char CR else Ret tt) ;; send_char_body c).
Proof.
  unfold uart_send_char. simpl uart_send_char_depth at 1.
  destruct (Ascii.eqb c LF); reflexivity.
Qed.

Lemma uart_send_char_depth_exact (d : nat) (c : ascii) :
  uart_send_char_depth (S d) c = uart_send_char c.
Proof.
  unfold uart_send_char. simpl.
  destruct (Ascii.eqb c LF); [| reflexivity].
  destruct d; reflexivity.
Qed.

(* ------------------------------------------------------------------ *)
(** ** Transmit path *)

Section TxFacts.
Context {D : Type} `{Device D}.

Lemma run_stat_incr (f : stat_field) (s : state D) :
  run (stat_incr f) s =
  (tt, mk_state (st_config s) (bump f (st_stats s)) (st_dev s),
   [EvStatStore f (u64 (get_stat f (st_stats s) + 1))]).
Proof. reflexivity. Qed.

(** The wait loop only sleeps; it leaves a positive [timeout] exactly when
    the status bit was seen set at one of the first [n] polls. *)
Lemma run_tx_wait (n : nat) (s : state D) :
  exists (k : nat) (t : Z) (s' : state D),
    run (tx_wait n) s = (t, s', repeat (EvSleep 1 2) k) /\
    st_config s' = st_config s /\ st_stats s' = st_stats s /\
    ((0 < t /\ (k < n)%nat) \/ (t <= 0 /\ k = n)).
Proof.
  revert s. induction n as [| m IH]; intros s.
  - simpl. destruct (dev_readl MU_LSR (st_dev s)) as [v d]. simpl.
    destruct (Z.land (u32 v) 32 =? 0); simpl;
      exists O; eexists; eexists; (split; [reflexivity |]); simpl; intuition lia.
  - cbn [tx_wait bind call run exec_op].
    destruct (dev_readl MU_LSR (st_dev s)) as [v d].
    destruct (Z.land (u32 v) 32 =? 0); cbn [negb bind run].
    + cbn [call bind run exec_op st_config st_stats st_dev].
      destruct (IH (mk_state (st_config s) (st_stats s) (dev_sleep 1 2 d)))
        as (k & t & s' & Hr & Hc & Hs & Hk).
      rewrite Hr. exists (S k), t, s'.
      split; [reflexivity |]. simpl in Hc, Hs.
      repeat split; try assumption. lia.
    + exists O. eexists. eexists. split; [reflexivity |].
      simpl. repeat split. left. lia.
Qed.

(** What [uart_send_char] does for its own character, after the nested
    call for a line feed: a timeout after 10000 sleeps counts an error and
    writes nothing; otherwise the character is written and counted. *)
Lemma run_send_char_body (c : ascii) (s : state D) :
  exists (k : nat) (d : D),
    (k <= 10000)%nat /\
    ((k = 10000%nat /\
      run (send_char_body c) s =
      (tt, mk_state (st_config s) (bump TxErrors (st_stats s)) d,
       repeat (EvSleep 1 2) k ++
       [EvStatStore TxErrors (u64 (tx_errors (st_stats s) + 1))]))
     \/
     ((k < 10000)%nat /\
      run (send_char_body c) s =
      (tt, mk_state (st_config s) (bump TxBytes (st_stats s)) d,
       repeat (EvSleep 1 2) k ++
       [EvWrite (u32_of_char c) MU_IO;
        EvStatStore TxBytes (u64 (tx_bytes (st_stats s) + 1))]))).
Proof.
  unfold send_char_body. rewrite run_bind.
  destruct (run_tx_wait 10000 s) as (k & t & s' & Hr & Hc & Hs & Hk).
  rewrite Hr. destruct s' as [cfg st d]. simpl in Hc, Hs. subst cfg st.
  destruct Hk as [[Ht Hk] | [Ht Hk]].
  - exists k, (dev_writel (u32_of_char c) MU_IO d). split; [lia |]. right.
    split; [exact Hk |].
    replace (t <=? 0) with false by (symmetry; apply Z.leb_gt; lia).
    cbn [bind call run exec_op]. rewrite run_stat_incr.
    cbn [st_config st_stats st_dev]. rewrite u32_u32_of_char. reflexivity.
  - exists k, d. split; [lia |]. left. split; [exact Hk |].
    replace (t <=? 0) with true by (symmetry; apply Z.leb_le; lia).
    rewrite run_stat_incr. reflexivity.
Qed.

End TxFacts.

Section TxOutcome.
Context {D : Type} `{Device D}.

Lemma body_attempts (c : ascii) (s : state D) :
  let '(_, _, t) := run (send_char_body c) s in
  (stat_stores TxBytes t + stat_stores TxErrors t = 1)%nat.
Proof.
  destruct (run_send_char_body c s) as (k & d & _ & [[_ Hr] | [_ Hr]]);
    rewrite Hr; rewrite !stat_stores_app, !stat_stores_sleeps; reflexivity.
Qed.

Lemma send_char_attempts (c : ascii) (s : state D) :
  let '(_, _, t) := run (uart_send_char c) s in
  (stat_stores TxBytes t + stat_stores TxErrors t =
   if Ascii.eqb c LF then 2 else 1)%nat.
Proof.
  rewrite uart_send_char_unfold, run_bind.
  destruct (Ascii.eqb c LF).
  - rewrite uart_send_char_unfold. cbn [Ascii.eqb CR LF Bool.eqb andb].
    cbn [bind].
    pose proof (body_attempts CR s) as H1.
    destruct (run (send_char_body CR) s) as [[u s0] t0].
    pose proof (body_attempts c s0) as H2.
    destruct (run (send_char_body c) s0) as [[u1 s1] t1].
    rewrite !stat_stores_app. lia.
  - cbn [run].
    pose proof (body_attempts c s) as H2.
    destruct (run (send_char_body c) s) as [[u1 s1] t1].
    exact H2.
Qed.

Lemma send_string_loop_attempts (str : list ascii) (s : state D) :
  let '(_, _, t) := run (send_string_loop str) s in
  (stat_stores TxBytes t + stat_stores TxErrors t = send_attempts str)%nat.
Proof.
  revert s. induction str as [| c str IH]; intros s; [reflexivity |].
  cbn [send_string_loop send_attempts].
  destruct (Ascii.eqb c NUL); [reflexivity |].
  rewrite run_bind.
  assert (Hpre :
    let '(_, _, t) := run (if Ascii.eqb c LF then uart_send_char CR else Ret tt) s in
    (stat_stores TxBytes t + stat_stores TxErrors t =
     if Ascii.eqb c LF then 1 else 0)%nat).
  { destruct (Ascii.eqb c LF); [| reflexivity].
    exact (send_char_attempts CR s). }
  destruct (run (if Ascii.eqb c LF then uart_send_char CR else Ret tt) s)
    as [[u s0] t0].
  rewrite run_bind.
  pose proof (send_char_attempts c s0) as Hc.
  destruct (run (uart_send_char c) s0) as [[u1 s1] t1].
  specialize (IH s1).
  destruct (run (send_string_loop str) s1) as [[u2 s2] t2].
  rewrite !stat_stores_app.
  destruct (Ascii.eqb c LF); lia.
Qed.

(** The two outcomes of [uart_send_char] for its own character. *)
Lemma send_char_outcome (c : ascii) (s : state D) :
  let '(_, s0, t0) :=
    run (if Ascii.eqb c LF then uart_send_char CR else Ret tt) s in
  let '(_, s1, t1) := run (uart_send_char c) s in
  st_config s1 = st_config s0 /\
  exists k : nat,
    (k = 10000%nat /\
     st_stats s1 = bump TxErrors (st_stats s0) /\
     t1 = t0 ++ repeat (EvSleep 1 2) k ++
          [EvStatStore TxErrors (u64 (tx_errors (st_stats s0) + 1))] /\
     wire t1 = wire t0)
    \/
    ((k < 10000)%nat /\
     st_stats s1 = bump TxBytes (st_stats s0) /\
     t1 = t0 ++ repeat (EvSleep 1 2) k ++
          [EvWrite (u32_of_char c) MU_IO;
           EvStatStore TxBytes (u64 (tx_bytes (st_stats s0) + 1))] /\
     wire t1 = wire t0 ++ [u32_of_char c]).
Proof.
  rewrite (uart_send_char_unfold c), run_bind.
  destruct (run (if Ascii.eqb c LF then uart_send_char CR else Ret tt) s)
    as [[u s0] t0].
  destruct (run_send_char_body c s0) as (k & d & _ & [[Hk Hr] | [Hk Hr]]);
    rewrite Hr; (split; [reflexivity |]); exists k; [left | right];
    (split; [exact Hk |]); (split; [reflexivity |]); (split; [reflexivity |]);
    rewrite !wire_app, wire_sleeps; simpl; [now rewrite app_nil_r | reflexivity].
Qed.

Lemma send_string_attempts (str : list ascii) (s : state D) :
  let '(_, _, t) := run (uart_send_string str) s in
  (stat_stores TxBytes t + stat_stores TxErrors t = send_attempts str)%nat.
Proof.
  unfold uart_send_string.
  cbn [bind call run exec_op].
  pose proof (send_string_loop_attempts str s) as Hl.
  rewrite run_bind.
  destruct (run (send_string_loop str) s) as [[u s1] t1].
  cbn [bind call run exec_op].
  rewrite !stat_stores_app. simpl. lia.
Qed.

End TxOutcome.

Lemma lf_after_two_cr (str : list ascii) (pre post : list Z) :
  flat_map expand_char str = pre ++ 10 :: post ->
  exists pre', pre = pre' ++ [13; 13].
Proof.
  revert pre. induction str as [| c str IH]; intros pre Heq.
  - destruct pre; discriminate.
  - cbn [flat_map] in Heq. unfold expand_char at 1 in Heq.
    destruct (Ascii.eqb c LF) eqn:Ec.
    + destruct pre as [| x0 [| x1 [| x2 pre]]]; try discriminate.
      * injection Heq as E0 E1 _. subst x0 x1. exists []. reflexivity.
      * injection Heq as E0 E1 E2 Heq. subst x0 x1 x2.
        destruct (IH pre Heq) as [p ->].
        exists (13 :: 13 :: 10 :: p). reflexivity.
    + destruct pre as [| x0 pre].
      * injection Heq as Hx _. apply u32_of_char_LF in Hx. subst c. discriminate.
      * injection Heq as E0 Heq. subst x0.
        destruct (IH pre Heq) as [p ->].
        exists (u32_of_char c :: p). reflexivity.
Qed.

Section TxReady.
Context {D : Type} `{Device D}.
Variable I : D -> Prop.
Hypothesis HI : tx_space_always I.

Lemma run_tx_wait_ready (n : nat) (s : state D) :
  I (st_dev s) ->
  exists d, I d /\
    run (tx_wait n) s = (Z.of_nat n, mk_state (st_config s) (st_stats s) d, []).
Proof.
  intros Hs. destruct HI as [Hlsr _]. specialize (Hlsr _ Hs).
  destruct n; cbn [tx_wait bind call run exec_op];
    destruct (dev_readl MU_LSR (st_dev s)) as [v d]; simpl in Hlsr;
    destruct Hlsr as [Hv Hd]; apply Z.eqb_neq in Hv; rewrite Hv;
    exists d; (split; [exact Hd | reflexivity]).
Qed.

Lemma run_send_char_body_ready (c : ascii) (s : state D) :
  I (st_dev s) ->
  exists d, I d /\
    run (send_char_body c) s =
    (tt, mk_state (st_config s) (bump TxBytes (st_stats s)) d,
     [EvWrite (u32_of_char c) MU_IO;
      EvStatStore TxBytes (u64 (tx_bytes (st_stats s) + 1))]).
Proof.
  intros Hs. unfold send_char_body. rewrite run_bind.
  destruct (run_tx_wait_ready 10000 s Hs) as (d & Hd & Hr). rewrite Hr.
  change (Z.of_nat 10000 <=? 0) with false.
  cbn [bind call run exec_op st_config st_stats st_dev].
  rewrite u32_u32_of_char.
  exists (dev_writel (u32_of_char c) MU_IO d).
  split; [apply HI; exact Hd | reflexivity].
Qed.

Lemma wire_send_char_ready (c : ascii) (s : state D) :
  I (st_dev s) ->
  let '(_, s', t) := run (uart_send_char c) s in
  I (st_dev s') /\
  wire t = if Ascii.eqb c LF then [13; 10] else [u32_of_char c].
Proof.
  intros Hs. rewrite uart_send_char_unfold, run_bind.
  destruct (Ascii.eqb c LF) eqn:Ec.
  - apply Ascii.eqb_eq in Ec. subst c.
    rewrite uart_send_char_unfold. cbn [Ascii.eqb CR LF Bool.eqb andb bind].
    destruct (run_send_char_body_ready CR s Hs) as (d0 & Hd0 & Hr0). rewrite Hr0.
    destruct (run_send_char_body_ready LF
                (mk_state (st_config s) (bump TxBytes (st_stats s)) d0) Hd0)
      as (d1 & Hd1 & Hr1).
    fold LF. rewrite Hr1. split; [exact Hd1 | reflexivity].
  - cbn [run].
    destruct (run_send_char_body_ready c s Hs) as (d0 & Hd0 & Hr0). rewrite Hr0.
    split; [exact Hd0 | reflexivity].
Qed.

Lemma wire_send_string_loop_ready (str : list ascii) (s : state D) :
  I (st_dev s) ->
  let '(_, s', t) := run (send_string_loop str) s in
  I (st_dev s') /\ wire t = expected_wire str.
Proof.
  revert s. induction str as [| c str IH]; intros s Hs.
  - split; [exact Hs | reflexivity].
  - unfold expected_wire. cbn [send_string_loop c_str].
    destruct (Ascii.eqb c NUL); [split; [exact Hs | reflexivity] |].
    cbn [flat_map]. fold (expected_wire str).
    rewrite run_bind.
    assert (Hpre :
      let '(_, s', t) := run (if Ascii.eqb c LF then uart_send_char CR else Ret tt) s in
      I (st_dev s') /\ wire t = if Ascii.eqb c LF then [13] else []).
    { destruct (Ascii.eqb c LF); [| split; [exact Hs | reflexivity]].
      exact (wire_send_char_ready CR s Hs). }
    destruct (run (if Ascii.eqb c LF then uart_send_char CR else Ret tt) s)
      as [[u s0] t0].
    destruct Hpre as [Hs0 Ht0].
    rewrite run_bind.
    pose proof (wire_send_char_ready c s0 Hs0) as Hc.
    destruct (run (uart_send_char c) s0) as [[u1 s1] t1].
    destruct Hc as [Hs1 Ht1].
    specialize (IH s1 Hs1).
    destruct (run (send_string_loop str) s1) as [[u2 s2] t2].
    destruct IH as [Hs2 Ht2].
    split; [exact Hs2 |].
    rewrite !wire_app, Ht0, Ht1, Ht2. unfold expand_char.
    destruct (Ascii.eqb c LF); reflexivity.
Qed.

(** C4: when the transmitter always has space, [uart_send_string] puts on
    the wire the characters of the string with every line feed expanded to
    CR CR LF; so every line feed on the wire comes right after a carriage
    return, and in fact after two. *)
Theorem send_string_crlf (str : list ascii) (s : state D) :
  I (st_dev s) ->
  let '(_, _, t) := run (uart_send_string str) s in
  wire t = expected_wire str /\
  (forall pre post, wire t = pre ++ 10 :: post -> exists pre', pre = pre' ++ [13]) /\
  (forall pre post, wire t = pre ++ 10 :: post -> exists pre', pre = pre' ++ [13; 13]).
Proof.
  intros Hs. unfold uart_send_string. cbn [bind call run exec_op].
  rewrite run_bind.
  pose proof (wire_send_string_loop_ready str s Hs) as Hl.
  destruct (run (send_string_loop str) s) as [[u s1] t1].
  destruct Hl as [_ Ht1].
  cbn [bind call run exec_op].
  assert (Hw : wire ([EvLock uart_tx_mutex] ++ t1 ++ [EvUnlock uart_tx_mutex] ++ [])
               = expected_wire str).
  { rewrite !wire_app, Ht1. simpl. now rewrite app_nil_r. }
  rewrite Hw. split; [reflexivity |]. split.
  - intros pre post Heq. destruct (lf_after_two_cr _ _ _ Heq) as [p ->].
    exists (p ++ [13]). now rewrite <- app_assoc.
  - intros pre post Heq. exact (lf_after_two_cr _ _ _ Heq).
Qed.

End TxReady.

Lemma sim_tx_space_always : tx_space_always sim_tx_free.
Proof.
  split.
  - intros [rx ov busy wr] Hd. unfold sim_tx_free in *. simpl in *.
    unfold sim_lsr. simpl.
    replace (busy <=? 0) with true by (symmetry; apply Z.leb_le; exact Hd).
    split; [| exact Hd].
    destruct rx, ov; vm_compute; discriminate.
  - intros d v Hd. exact Hd.
Qed.

Lemma send_string_crlf_witness :
  tx_space_always sim_tx_free /\
  sim_tx_free (st_dev (sim_state initial_config zero_stats (sim_with_rx []))) /\
  let '(_, _, t) :=
    run (uart_send_string ("a"%char :: LF :: "b"%char :: nil))
        (sim_state initial_config zero_stats (sim_with_rx [])) in
  wire t = expected_wire ("a"%char :: LF :: "b"%char :: nil) /\
  (forall pre post, wire t = pre ++ 10 :: post -> exists pre', pre = pre' ++ [13]) /\
  (forall pre post, wire t = pre ++ 10 :: post -> exists pre', pre = pre' ++ [13; 13]).
Proof.
  assert (H0 : sim_tx_free (st_dev (sim_state initial_config zero_stats (sim_with_rx []))))
    by (unfold sim_tx_free; simpl; lia).
  split; [exact sim_tx_space_always | split; [exact H0 |]].
  exact (send_string_crlf sim_tx_free sim_tx_space_always
           ("a"%char :: LF :: "b"%char :: nil) _ H0).
Defined.

(** On the simulated device with a free transmitter, ["a\nb"] goes out as
    [a CR CR LF b]; with a transmitter busy for 20 ms a character times
    out, after 10000 sleeps, and is counted in [tx_errors]. *)
Example send_string_sim_example :
  let '(_, s, t) :=
    run (uart_send_string ("a"%char :: LF :: "b"%char :: nil))
        (sim_state initial_config zero_stats (sim_with_rx [])) in
  wire t = [97; 13; 13; 10; 98] /\ tx_bytes (st_stats s) = 5.
Proof. vm_compute. split; reflexivity. Qed.

Example send_char_timeout_example :
  let '(_, s, t) :=
    run (uart_send_char "a")
        (sim_state initial_config zero_stats (mk_sim [] false 20000 [])) in
  wire t = [] /\ sleeps t = 10000%nat /\
  tx_errors (st_stats s) = 1 /\ tx_bytes (st_stats s) = 0.
Proof. vm_compute. repeat split; reflexivity. Qed.

(* ------------------------------------------------------------------ *)
(** ** Transmit wait on the simulated device *)

(** The transmitter of the simulated device frees after [busy]
    microseconds of sleep: the wait loop sees it at the poll that follows
    the [busy]-th sleep when [busy <= n], and gives up after [n] sleeps
    otherwise. *)
Lemma sim_lsr_bit5 (rx : list ascii) (ov : bool) (busy : Z) (wr : list (reg * Z)) :
  (Z.land (u32 (sim_lsr (mk_sim rx ov busy wr))) 32 =? 0) = negb (busy <=? 0).
Proof.
  unfold sim_lsr. cbn [sim_rx sim_overrun sim_tx_busy].
  destruct rx, ov, (busy <=? 0); reflexivity.
Qed.

Lemma run_tx_wait_sim (n : nat) :
  forall cfg st rx ov busy wr,
    0 <= busy ->
    run (tx_wait n) (mk_state cfg st (mk_sim rx ov busy wr)) =
    if busy <=? Z.of_nat n
    then (Z.of_nat n - busy, mk_state cfg st (mk_sim rx false 0 wr),
          repeat (EvSleep 1 2) (Z.to_nat busy))
    else (-1, mk_state cfg st (mk_sim rx false (busy - Z.of_nat n) wr),
          repeat (EvSleep 1 2) n).
Proof.
  induction n as [| n IH]; intros cfg st rx ov busy wr Hb;
    cbn [tx_wait bind call run exec_op st_config st_stats st_dev dev_readl
         sim_device sim_readl sim_rx sim_overrun sim_tx_busy sim_written];
    rewrite sim_lsr_bit5, negb_involutive;
    destruct (Z.leb_spec busy 0) as [Hle | Hgt].
  - assert (busy = 0) by lia. subst busy. reflexivity.
  - replace (busy <=? Z.of_nat 0) with false by (symmetry; apply Z.leb_gt; lia).
    cbn [Z.of_nat]. rewrite Z.sub_0_r. reflexivity.
  - assert (busy = 0) by lia. subst busy.
    cbn [run]. rewrite Z.sub_0_r. reflexivity.
  - cbn [bind call run exec_op st_config st_stats st_dev dev_sleep sim_device].
    unfold sim_sleep. cbn [sim_rx sim_overrun sim_tx_busy sim_written].
    rewrite Z.max_r by lia. rewrite IH by lia.
    rewrite Nat2Z.inj_succ.
    destruct (Z.leb_spec (busy - 1) (Z.of_nat n));
      destruct (Z.leb_spec busy (Z.succ (Z.of_nat n))); try lia.
    + replace (Z.to_nat busy) with (S (Z.to_nat (busy - 1))) by lia.
      replace (Z.succ (Z.of_nat n) - busy) with (Z.of_nat n - (busy - 1)) by lia.
      reflexivity.
    + replace (busy - Z.succ (Z.of_nat n)) with (busy - 1 - Z.of_nat n) by lia.
      reflexivity.
Qed.

(** C6: [uart_send_char c], once the nested call for a line feed is done,
    either times out (10000 sleeps without seeing transmit space at one of
    the first 10000 polls): [tx_errors] goes up by one and nothing is
    written to [MU_IO]; or succeeds: the character is written to [MU_IO]
    and [tx_bytes] goes up by one.  [uart_send_string] goes on after a
    timeout: every character of the string gets its attempts, each counted
    in [tx_bytes] or in [tx_errors].  On the simulated device the
    character is sent when the transmitter frees within 9999 microseconds
    of sleep and times out otherwise. *)
Theorem send_byte_outcome :
  (forall (D : Type) (dev : Device D) (c : ascii) (s : state D),
     let '(_, s0, t0) :=
       run (if Ascii.eqb c LF then uart_send_char CR else Ret tt) s in
     let '(_, s1, t1) := run (uart_send_char c) s in
     st_config s1 = st_config s0 /\
     exists k : nat,
       (k = 10000%nat /\
        st_stats s1 = bump TxErrors (st_stats s0) /\
        t1 = t0 ++ repeat (EvSleep 1 2) k ++
             [EvStatStore TxErrors (u64 (tx_errors (st_stats s0) + 1))] /\
        wire t1 = wire t0)
       \/
       ((k < 10000)%nat /\
        st_stats s1 = bump TxBytes (st_stats s0) /\
        t1 = t0 ++ repeat (EvSleep 1 2) k ++
             [EvWrite (u32_of_char c) MU_IO;
              EvStatStore TxBytes (u64 (tx_bytes (st_stats s0) + 1))] /\
        wire t1 = wire t0 ++ [u32_of_char c])) /\
  (forall (D : Type) (dev : Device D) (str : list ascii) (s : state D),
     let '(_, _, t) := run (uart_send_string str) s in
     (stat_stores TxBytes t + stat_stores TxErrors t = send_attempts str)%nat) /\
  (forall (c : ascii) cfg st rx ov (busy : Z) wr,
     Ascii.eqb c LF = false -> 0 <= busy ->
     let '(_, s1, t1) :=
       run (uart_send_char c) (mk_state cfg st (mk_sim rx ov busy wr)) in
     if busy <? 10000
     then wire t1 = [u32_of_char c] /\ st_stats s1 = bump TxBytes st /\
          sleeps t1 = Z.to_nat busy
     else wire t1 = [] /\ st_stats s1 = bump TxErrors st /\
          sleeps t1 = 10000%nat).
Proof.
  split; [| split].
  - intros D dev c s. apply send_char_outcome.
  - intros D dev str s. apply send_string_attempts.
  - intros c cfg st rx ov busy wr Hc Hb.
    rewrite uart_send_char_unfold, Hc. cbn [bind].
    unfold send_char_body. rewrite run_bind, run_tx_wait_sim by exact Hb.
    change (Z.of_nat 10000) with 10000.
    destruct (Z.ltb_spec busy 10000) as [Hlt | Hge].
    + replace (busy <=? 10000) with true by (symmetry; apply Z.leb_le; lia).
      replace (10000 - busy <=? 0) with false by (symmetry; apply Z.leb_gt; lia).
      cbn [bind call run exec_op st_config st_stats st_dev].
      rewrite run_stat_incr.
      rewrite !wire_app, wire_sleeps, !sleeps_app, sleeps_repeat.
      rewrite u32_u32_of_char. cbn [wire app sleeps].
      repeat split; try reflexivity. lia.
    + destruct (Z.leb_spec busy 10000) as [Hle | Hgt].
      * assert (busy = 10000) by lia. subst busy.
        change (10000 - 10000 <=? 0) with true. cbn iota.
        rewrite run_stat_incr.
        rewrite !wire_app, wire_sleeps, !sleeps_app, sleeps_repeat.
        cbn [wire sleeps app]. rewrite Nat.add_0_r.
        repeat split; reflexivity.
      * change (-1 <=? 0) with true. cbn iota. rewrite run_stat_incr.
        rewrite !wire_app, wire_sleeps, !sleeps_app, sleeps_repeat.
        cbn [wire sleeps app]. rewrite Nat.add_0_r.
        repeat split; reflexivity.
Qed.

Lemma send_byte_outcome_witness :
  Ascii.eqb "a"%char LF = false /\ 0 <= 250 /\
  let '(_, s1, t1) :=
    run (uart_send_char "a")
        (mk_state initial_config zero_stats (mk_sim [] false 250 [])) in
  if 250 <? 10000
  then wire t1 = [u32_of_char "a"] /\ st_stats s1 = bump TxBytes zero_stats /\
       sleeps t1 = Z.to_nat 250
  else wire t1 = [] /\ st_stats s1 = bump TxErrors zero_stats /\
       sleeps t1 = 10000%nat.
Proof.
  assert (H1 : Ascii.eqb "a"%char LF = false) by reflexivity.
  assert (H2 : 0 <= 250) by lia.
  split; [exact H1 |]. split; [exact H2 |].
  destruct send_byte_outcome as (_ & _ & W).
  exact (W "a"%char initial_config zero_stats [] false 250 [] H1 H2).
Defined.

(* ------------------------------------------------------------------ *)
(** ** Receive path on the simulated device *)

Lemma sim_lsr_bit0 (rx : list ascii) (ov : bool) (busy : Z) (wr : list (reg * Z)) :
  Z.land (u32 (sim_lsr (mk_sim rx ov busy wr))) 1 =
  match rx with [] => 0 | _ :: _ => 1 end.
Proof.
  unfold sim_lsr. simpl. destruct rx, ov, (busy <=? 0); reflexivity.
Qed.

Lemma sim_lsr_bit1 (rx : list ascii) (busy : Z) (wr : list (reg * Z)) :
  Z.land (u32 (sim_lsr (mk_sim rx false busy wr))) 2 = 0.
Proof.
  unfold sim_lsr. simpl. destruct rx, (busy <=? 0); reflexivity.
Qed.

Lemma run_data_available_sim cfg st rx ov busy wr :
  run uart_data_available (mk_state cfg st (mk_sim rx ov busy wr)) =
  (match rx with [] => 0 | _ :: _ => 1 end,
   mk_state cfg st (mk_sim rx false busy wr), []).
Proof.
  unfold uart_data_available.
  cbn [bind call run exec_op st_config st_stats st_dev dev_readl sim_device
       sim_readl sim_rx sim_overrun sim_tx_busy sim_written app].
  now rewrite sim_lsr_bit0.
Qed.

Lemma run_receive_char_sim cfg st c rx ov busy wr :
  run uart_receive_char (mk_state cfg st (mk_sim (c :: rx) ov busy wr)) =
  (c, mk_state cfg (bump RxBytes st) (mk_sim rx false busy wr),
   [EvStatStore RxBytes (u64 (rx_bytes st + 1))]).
Proof.
  unfold uart_receive_char. rewrite run_bind, run_data_available_sim.
  cbn [Z.eqb]. unfold uart_check_rx_errors.
  cbn [bind call run exec_op st_config st_stats st_dev dev_readl sim_device
       sim_readl sim_rx sim_overrun sim_tx_busy sim_written app].
  rewrite sim_lsr_bit1. cbn [Z.eqb negb bind call run exec_op].
  rewrite run_bind, run_stat_incr.
  cbn [bind call run exec_op st_config st_stats st_dev dev_readl sim_device
       sim_readl sim_rx sim_overrun sim_tx_busy sim_written app get_stat].
  rewrite u32_N_of_ascii, char_of_u32_of_char. reflexivity.
Qed.

Lemma drain_length (count : Z) (rx kbuf : list ascii) :
  (length (snd (drain count kbuf rx)) <= length rx)%nat.
Proof.
  revert kbuf. induction rx as [| c rx IH]; intros kbuf; simpl; [lia |].
  destruct (room count kbuf); [| simpl; lia].
  destruct (negb (Ascii.eqb c NUL)); [specialize (IH (kbuf ++ [c])) | specialize (IH kbuf)]; lia.
Qed.

(** The inner loop empties the FIFO into the buffer, dropping NUL
    characters, until the FIFO is empty or the buffer has no room; every
    character taken from the FIFO is counted in [rx_bytes]. *)
Lemma run_rx_inner_sim (rx : list ascii) :
  forall (fuel : nat) (count : Z) (kbuf : list ascii) cfg st ov busy wr,
    (length rx < fuel)%nat ->
    run (rx_inner fuel count kbuf 0) (mk_state cfg st (mk_sim rx ov busy wr)) =
    (Some (fst (drain count kbuf rx), 0),
     mk_state cfg
       (bump_n RxBytes (length rx - length (snd (drain count kbuf rx))) st)
       (mk_sim (snd (drain count kbuf rx)) false busy wr),
     store_events RxBytes (length rx - length (snd (drain count kbuf rx))) st).
Proof.
  induction rx as [| c rx IH]; intros fuel count kbuf cfg st ov busy wr Hf;
    destruct fuel as [| fuel]; try (simpl in Hf; lia).
  - cbn [rx_inner]. rewrite run_bind, run_data_available_sim. reflexivity.
  - cbn [rx_inner]. rewrite run_bind, run_data_available_sim.
    cbn [Z.eqb negb andb drain]. fold (room count kbuf).
    destruct (room count kbuf) eqn:Hroom.
    + rewrite run_bind, run_receive_char_sim.
      assert (Hf' : (length rx < fuel)%nat) by (simpl in Hf; lia).
      destruct (negb (Ascii.eqb c NUL)).
      * rewrite (IH fuel count (kbuf ++ [c]) cfg (bump RxBytes st) false busy wr Hf').
        pose proof (drain_length count rx (kbuf ++ [c])) as Hl.
        replace (length (c :: rx) - length (snd (drain count (kbuf ++ [c]) rx)))%nat
          with (S (length rx - length (snd (drain count (kbuf ++ [c]) rx))))
          by (change (length (c :: rx)) with (S (length rx)); lia).
        reflexivity.
      * rewrite (IH fuel count kbuf cfg (bump RxBytes st) false busy wr Hf').
        pose proof (drain_length count rx kbuf) as Hl.
        replace (length (c :: rx) - length (snd (drain count kbuf rx)))%nat
          with (S (length rx - length (snd (drain count kbuf rx))))
          by (change (length (c :: rx)) with (S (length rx)); lia).
        reflexivity.
    + cbn [fst snd]. rewrite Nat.sub_diag. reflexivity.
Qed.

Lemma run_rx_inner_empty (fuel : nat) (count : Z) (kbuf : list ascii) (nd : Z)
      cfg st ov busy wr :
  (1 <= fuel)%nat ->
  run (rx_inner fuel count kbuf nd) (mk_state cfg st (mk_sim [] ov busy wr)) =
  (Some (kbuf, nd), mk_state cfg st (mk_sim [] false busy wr), []).
Proof.
  intros Hf. destruct fuel as [| fuel]; [lia |].
  cbn [rx_inner]. rewrite run_bind, run_data_available_sim. reflexivity.
Qed.

Lemma run_rx_idle_sim (nd : Z) cfg st rx ov busy wr :
  run (rx_idle nd) (mk_state cfg st (mk_sim rx ov busy wr)) =
  ((nd + 1, nd + 1 >=? MAX_CONSECUTIVE_NO_DATA),
   mk_state cfg st (mk_sim rx ov (Z.max 0 (busy - 1000)) wr),
   [EvSleep 1000 1500]).
Proof. reflexivity. Qed.

Lemma room_spec (count : Z) (kbuf : list ascii) :
  room count kbuf = true <->
  Z.of_nat (length kbuf) < 511 /\ Z.of_nat (length kbuf) < count.
Proof.
  unfold room, KBUF_LIMIT. rewrite andb_true_iff, !Z.ltb_lt. tauto.
Qed.

(** With the FIFO empty and room in the buffer, the outer loop idles until
    the counter of idle iterations reaches [MAX_CONSECUTIVE_NO_DATA]. *)
Lemma run_rx_outer_idle (k : nat) :
  forall (fuel : nat) (count : Z) (kbuf : list ascii) (nd : Z) cfg st ov busy wr,
    (1 <= k)%nat -> nd = 300 - Z.of_nat k -> (k < fuel)%nat ->
    room count kbuf = true ->
    exists busy',
      run (rx_outer fuel count kbuf nd) (mk_state cfg st (mk_sim [] ov busy wr)) =
      (Some kbuf, mk_state cfg st (mk_sim [] false busy' wr),
       repeat (EvSleep 1000 1500) k).
Proof.
  induction k as [| k IH]; intros fuel count kbuf nd cfg st ov busy wr Hk Hnd Hf Hroom;
    [lia |].
  destruct fuel as [| fuel]; [lia |].
  cbn [rx_outer]. fold (room count kbuf). rewrite Hroom.
  rewrite run_bind, run_rx_inner_empty by lia.
  assert (Hidle : exists busy',
    run (avail <- uart_data_available ;;
         if avail =? 0
         then r <- rx_idle nd ;;
              if snd r then Ret (Some kbuf)
              else rx_outer fuel count kbuf (fst r)
         else rx_outer fuel count kbuf nd)
        (mk_state cfg st (mk_sim [] false busy wr)) =
    (Some kbuf, mk_state cfg st (mk_sim [] false busy' wr),
     repeat (EvSleep 1000 1500) (S k))).
  { rewrite run_bind, run_data_available_sim. cbn [Z.eqb].
    rewrite run_bind, run_rx_idle_sim. cbn [fst snd].
    unfold MAX_CONSECUTIVE_NO_DATA.
    destruct k as [| k].
    - replace (nd + 1 >=? 300) with true by (symmetry; apply Z.geb_le; lia).
      eexists. reflexivity.
    - replace (nd + 1 >=? 300) with false
        by (symmetry; rewrite Z.geb_leb; apply Z.leb_gt; lia).
      destruct (IH fuel count kbuf (nd + 1) cfg st false
                   (Z.max 0 (busy - 1000)) wr) as [busy' Hr]; try lia; try assumption.
      rewrite Hr. exists busy'. reflexivity. }
  destruct Hidle as [busy' Hidle].
  destruct (Z.of_nat (length kbuf) >? 0) eqn:Hpos.
  - rewrite Hidle. exists busy'. reflexivity.
  - destruct (Z.of_nat (length kbuf) =? 0) eqn:Hzero.
    + rewrite Hidle. exists busy'. reflexivity.
    + apply Z.eqb_neq in Hzero.
      destruct (Z.gtb_spec (Z.of_nat (length kbuf)) 0); [discriminate | lia].
Qed.

Lemma nonneg_branch {A : Type} (i : Z) (P Q : A) :
  0 <= i -> (if i >? 0 then P else if i =? 0 then P else Q) = P.
Proof.
  intros Hi. destruct (Z.gtb_spec i 0); [reflexivity |].
  destruct (Z.eqb_spec i 0); [reflexivity | lia].
Qed.

Lemma drain_no_room (count : Z) (kbuf rx : list ascii) :
  room count kbuf = false -> drain count kbuf rx = (kbuf, rx).
Proof. intros Hr. destruct rx; simpl; [reflexivity | now rewrite Hr]. Qed.

Lemma drain_stop (count : Z) (rx : list ascii) :
  forall kbuf, snd (drain count kbuf rx) <> [] ->
               room count (fst (drain count kbuf rx)) = false.
Proof.
  induction rx as [| c rx IH]; intros kbuf Hne; simpl in *; [congruence |].
  destruct (room count kbuf) eqn:Hr; [| exact Hr].
  destruct (negb (Ascii.eqb c NUL)); apply IH; exact Hne.
Qed.

Lemma run_rx_outer_full (fuel : nat) (count : Z) (kbuf : list ascii) (nd : Z)
      (s : state sim_dev) :
  (1 <= fuel)%nat -> room count kbuf = false ->
  run (rx_outer fuel count kbuf nd) s = (Some kbuf, s, []).
Proof.
  intros Hf Hr. destruct fuel as [| fuel]; [lia |].
  cbn [rx_outer]. fold (room count kbuf). now rewrite Hr.
Qed.

(** The two loops of [uart_proc_read] on a FIFO holding [rx], entered with
    an empty buffer. *)
Lemma run_rx_outer_sim (fuel : nat) (count : Z) (rx : list ascii) cfg st busy wr :
  (length rx + 301 < fuel)%nat ->
  exists busy',
    run (rx_outer fuel count [] 0) (mk_state cfg st (mk_sim rx false busy wr)) =
    (Some (fst (drain count [] rx)),
     mk_state cfg
       (bump_n RxBytes (length rx - length (snd (drain count [] rx))) st)
       (mk_sim (snd (drain count [] rx)) false busy' wr),
     store_events RxBytes (length rx - length (snd (drain count [] rx))) st ++
     repeat (EvSleep 1000 1500)
       (if room count [] then
          idle_sleeps count (fst (drain count [] rx)) (snd (drain count [] rx))
        else O)).
Proof.
  intros Hf. destruct (room count []) eqn:Hroom0.
  - destruct fuel as [| fuel]; [lia |].
    cbn [rx_outer]. fold (room count []). rewrite Hroom0.
    rewrite run_bind, run_rx_inner_sim by lia.
    pose proof (drain_stop count rx []) as Hstop.
    destruct (drain count [] rx) as [k1 r1]. cbn [fst snd] in *.
    rewrite nonneg_branch by lia.
    rewrite run_bind, run_data_available_sim.
    destruct r1 as [| c r1]; cbn [Z.eqb idle_sleeps].
    + rewrite run_bind, run_rx_idle_sim. cbn [fst snd].
      change (0 + 1 >=? MAX_CONSECUTIVE_NO_DATA) with false. cbn iota.
      destruct (room count k1) eqn:Hroom1.
      * destruct (run_rx_outer_idle 299 fuel count k1 (0 + 1) cfg
                    (bump_n RxBytes (length rx - 0) st) false
                    (Z.max 0 (busy - 1000)) wr) as [busy' Hr];
          try lia; try assumption.
        cbn [length] in *. rewrite Hr. exists busy'. reflexivity.
      * rewrite run_rx_outer_full by (assumption || lia).
        eexists. cbn [length]. reflexivity.
    + rewrite run_rx_outer_full by (try lia; apply Hstop; discriminate).
      exists busy. reflexivity.
  - rewrite run_rx_outer_full by (assumption || lia).
    rewrite drain_no_room by assumption. cbn [fst snd].
    rewrite Nat.sub_diag. exists busy. reflexivity.
Qed.

Lemma run_rx_first_wait_data (n : nat) cfg st c rx ov busy wr :
  run (rx_first_wait n) (mk_state cfg st (mk_sim (c :: rx) ov busy wr)) =
  (Z.of_nat n, mk_state cfg st (mk_sim (c :: rx) false busy wr), []).
Proof.
  destruct n; cbn [rx_first_wait]; rewrite run_bind, run_data_available_sim;
    reflexivity.
Qed.


(** [uart_proc_read] on a simulated device whose FIFO holds [rx], not empty,
    to which nothing is added, when the copy to the caller succeeds. *)
Lemma run_proc_read_sim (fuel : nat) (count ppos : Z) (rx : list ascii)
      cfg st ov busy wr :
  rx <> [] -> ppos <= 0 -> (length rx + 301 < fuel)%nat ->
  exists busy',
    run (uart_proc_read fuel true count ppos)
        (mk_state cfg st (mk_sim rx ov busy wr)) =
    (Some (if Z.of_nat (length (fst (drain count [] rx))) =? 0
           then mk_read 0 [] ppos
           else mk_read (Z.of_nat (length (fst (drain count [] rx))))
                        (fst (drain count [] rx))
                        (ppos + Z.of_nat (length (fst (drain count [] rx))))),
     mk_state cfg
       (bump_n RxBytes (length rx - length (snd (drain count [] rx))) st)
       (mk_sim (snd (drain count [] rx)) false busy' wr),
     EvLock uart_rx_mutex ::
     (store_events RxBytes (length rx - length (snd (drain count [] rx))) st ++
      repeat (EvSleep 1000 1500)
        (if room count [] then
           idle_sleeps count (fst (drain count [] rx)) (snd (drain count [] rx))
         else O)) ++
     [EvUnlock uart_rx_mutex]).
Proof.
  intros Hne Hp Hf. unfold uart_proc_read.
  replace (ppos >? 0) with false
    by (symmetry; destruct (Z.gtb_spec ppos 0); [lia | reflexivity]).
  destruct rx as [| c rx]; [congruence |].
  cbn [bind call run exec_op]. rewrite run_bind, run_rx_first_wait_data.
  change (Z.of_nat 1000 <=? 0) with false. cbn iota.
  rewrite run_bind.
  destruct (run_rx_outer_sim fuel count (c :: rx) cfg st busy wr Hf) as [busy' Hr].
  rewrite Hr. exists busy'.
  cbn [bind call run exec_op].
  destruct (Z.of_nat (length (fst (drain count [] (c :: rx)))) =? 0);
    cbn [run]; rewrite !app_nil_l, !app_nil_r; reflexivity.
Qed.


Lemma drain_all (count : Z) (rx : list ascii) :
  forall kbuf,
    forallb not_nul rx = true ->
    Z.of_nat (length kbuf) + Z.of_nat (length rx) <= 511 ->
    Z.of_nat (length kbuf) + Z.of_nat (length rx) <= count ->
    drain count kbuf rx = (kbuf ++ rx, []).
Proof.
  induction rx as [| c rx IH]; intros kbuf Hnn H1 H2.
  - simpl. now rewrite app_nil_r.
  - cbn [drain forallb length] in *. apply andb_true_iff in Hnn. destruct Hnn as [Hc Hnn].
    replace (room count kbuf) with true by (symmetry; apply room_spec; lia).
    unfold not_nul in Hc. rewrite Hc.
    rewrite IH; [now rewrite <- app_assoc | exact Hnn | |];
      rewrite length_app; simpl; lia.
Qed.

Lemma drain_filter (count : Z) (rx : list ascii) :
  forall kbuf,
    Z.of_nat (length kbuf) + Z.of_nat (length (filter not_nul rx)) < 511 ->
    Z.of_nat (length kbuf) + Z.of_nat (length (filter not_nul rx)) < count ->
    drain count kbuf rx = (kbuf ++ filter not_nul rx, []).
Proof.
  induction rx as [| c rx IH]; intros kbuf H1 H2.
  - simpl. now rewrite app_nil_r.
  - cbn [drain filter] in *.
    assert (Hroom : room count kbuf = true).
    { apply room_spec. destruct (not_nul c); simpl in *; lia. }
    rewrite Hroom. fold (not_nul c).
    destruct (not_nul c).
    + rewrite IH; [now rewrite <- app_assoc | |];
        rewrite length_app; simpl in *; lia.
    + apply IH; assumption.
Qed.

Lemma bump_n_rx (n : nat) (st : uart_stats) :
  (1 <= n)%nat ->
  bump_n RxBytes n st = set_stat RxBytes (u64 (rx_bytes st + Z.of_nat n)) st.
Proof.
  revert st. induction n as [| n IH]; intros st Hn; [lia |].
  cbn [bump_n]. destruct n as [| n].
  - reflexivity.
  - rewrite IH by lia. unfold bump, set_stat, get_stat. cbn [rx_bytes tx_bytes tx_errors rx_errors fifo_overruns].
    f_equal. unfold u64. rewrite Zplus_mod_idemp_l. f_equal. lia.
Qed.


Lemma stat_stores_store_events (f : stat_field) (n : nat) (st : uart_stats) :
  stat_stores f (store_events f n st) = n.
Proof.
  revert st. induction n as [| n IH]; intros st; simpl; [reflexivity |].
  destruct f; simpl; now rewrite IH.
Qed.




(* ------------------------------------------------------------------ *)
(** ** Receive path on any device: no NUL is returned *)

Section RxAnyDevice.
Context {D : Type} `{Device D}.

Lemma rx_inner_no_nul (fuel : nat) :
  forall (count : Z) (kbuf : list ascii) (nd : Z) (s : state D),
    forallb not_nul kbuf = true ->
    match fst (fst (run (rx_inner fuel count kbuf nd) s)) with
    | Some (kbuf', _) => forallb not_nul kbuf' = true
    | None => True
    end.
Proof.
  induction fuel as [| fuel IH]; intros count kbuf nd s Hk; cbn [rx_inner].
  - exact I.
  - rewrite run_bind.
    destruct (run uart_data_available s) as [[avail s1] t1].
    destruct (negb (avail =? 0) && (Z.of_nat (length kbuf) <? KBUF_LIMIT) &&
              (Z.of_nat (length kbuf) <? count)); [| exact Hk].
    rewrite run_bind.
    destruct (run uart_receive_char s1) as [[c s2] t2].
    destruct (negb (Ascii.eqb c NUL)) eqn:Ec.
    + assert (Hk' : forallb not_nul (kbuf ++ [c]) = true).
      { rewrite forallb_app, Hk. unfold not_nul at 1. simpl. now rewrite Ec. }
      specialize (IH count (kbuf ++ [c]) 0 s2 Hk').
      destruct (run (rx_inner fuel count (kbuf ++ [c]) 0) s2) as [[r s3] t3].
      exact IH.
    + specialize (IH count kbuf nd s2 Hk).
      destruct (run (rx_inner fuel count kbuf nd) s2) as [[r s3] t3].
      exact IH.
Qed.

Lemma rx_outer_no_nul (fuel : nat) :
  forall (count : Z) (kbuf : list ascii) (nd : Z) (s : state D),
    forallb not_nul kbuf = true ->
    match fst (fst (run (rx_outer fuel count kbuf nd) s)) with
    | Some kbuf' => forallb not_nul kbuf' = true
    | None => True
    end.
Proof.
  induction fuel as [| fuel IH]; intros count kbuf nd s Hk; cbn [rx_outer].
  - exact I.
  - destruct ((Z.of_nat (length kbuf) <? KBUF_LIMIT) &&
              (Z.of_nat (length kbuf) <? count)); [| exact Hk].
    rewrite run_bind.
    pose proof (rx_inner_no_nul fuel count kbuf nd s Hk) as Hin.
    destruct (run (rx_inner fuel count kbuf nd) s) as [[[[k1 nd1] |] s1] t1];
      cbn [fst] in Hin; [| exact I].
    rewrite nonneg_branch by lia.
    rewrite run_bind.
    destruct (run uart_data_available s1) as [[avail s2] t2].
    destruct (avail =? 0).
    + rewrite run_bind.
      destruct (run (rx_idle nd1) s2) as [[[nd2 brk] s3] t3]. cbn [fst snd].
      destruct brk; [exact Hin |].
      specialize (IH count k1 nd2 s3 Hin).
      destruct (run (rx_outer fuel count k1 nd2) s3) as [[r s4] t4].
      exact IH.
    + specialize (IH count k1 nd1 s2 Hin).
      destruct (run (rx_outer fuel count k1 nd1) s2) as [[r s4] t4].
      exact IH.
Qed.

Lemma proc_read_no_nul (fuel : nat) (user_ok : bool) (count ppos : Z) (s : state D) :
  match fst (fst (run (uart_proc_read fuel user_ok count ppos) s)) with
  | Some r => forallb not_nul (rd_data r) = true
  | None => True
  end.
Proof.
  unfold uart_proc_read. destruct (ppos >? 0); [reflexivity |].
  cbn [bind call run exec_op]. rewrite run_bind.
  destruct (run (rx_first_wait 1000) s) as [[timeout s1] t1].
  destruct (timeout <=? 0); [reflexivity |].
  rewrite run_bind.
  pose proof (rx_outer_no_nul fuel count [] 0 s1 eq_refl) as Hout.
  destruct (run (rx_outer fuel count [] 0) s1) as [[[k1 |] s2] t2];
    cbn [fst] in Hout; [| exact I].
  cbn [bind call run exec_op].
  destruct (Z.of_nat (length k1) =? 0); [reflexivity |].
  destruct user_ok; [exact Hout | reflexivity].
Qed.

End RxAnyDevice.

Lemma not_nul_not_in (l : list ascii) : forallb not_nul l = true -> ~ In NUL l.
Proof.
  induction l as [| c l IH]; simpl; [tauto |].
  intros Hl [Hc | Hin]; apply andb_true_iff in Hl; destruct Hl as [H1 H2].
  - subst c. discriminate.
  - exact (IH H2 Hin).
Qed.

(** C10: a NUL character read from the device is never placed in the data
    [uart_proc_read] returns, on any device; on the simulated device, every
    character taken from the FIFO, NUL or not, is counted in [rx_bytes],
    and the data returned is the FIFO's content without its NUL characters;
    so the number of bytes returned can be smaller than the increase of
    [rx_bytes] (2 against 3 for the FIFO [a NUL b]). *)
Theorem receive_drops_nul :
  (forall (D : Type) (dev : Device D) (fuel : nat) (user_ok : bool)
          (count ppos : Z) (s : state D),
     match fst (fst (run (uart_proc_read fuel user_ok count ppos) s)) with
     | Some r => ~ In NUL (rd_data r)
     | None => True
     end) /\
  (forall (bytes : list ascii) (count ppos : Z) (fuel : nat) cfg st ov busy wr,
     bytes <> [] -> ppos <= 0 ->
     Z.of_nat (length (filter not_nul bytes)) < 511 ->
     Z.of_nat (length (filter not_nul bytes)) < count ->
     (length bytes + 301 < fuel)%nat ->
     let '(r, s', t) :=
       run (uart_proc_read fuel true count ppos)
           (mk_state cfg st (mk_sim bytes ov busy wr)) in
     (exists res, r = Some res /\ rd_data res = filter not_nul bytes /\
                  rd_ret res = Z.of_nat (length (filter not_nul bytes))) /\
     rx_bytes (st_stats s') = u64 (rx_bytes st + Z.of_nat (length bytes)) /\
     stat_stores RxBytes t = length bytes) /\
  (exists (bytes : list ascii) (count : Z) (fuel : nat),
     let '(r, s', _) :=
       run (uart_proc_read fuel true count 0)
           (sim_state initial_config zero_stats (sim_with_rx bytes)) in
     exists res, r = Some res /\
       rd_ret res < rx_bytes (st_stats s') - rx_bytes zero_stats).
Proof.
  split; [| split].
  - intros D dev fuel user_ok count ppos s.
    pose proof (proc_read_no_nul fuel user_ok count ppos s) as Hn.
    destruct (fst (fst (run (uart_proc_read fuel user_ok count ppos) s)));
      [apply not_nul_not_in; exact Hn | exact I].
  - intros bytes count ppos fuel cfg st ov busy wr Hne Hp H1 H2 Hf.
    destruct (run_proc_read_sim fuel count ppos bytes cfg st ov busy wr Hne Hp Hf)
      as [busy' Hr].
    rewrite Hr. clear Hr.
    rewrite (drain_filter count bytes []) by (simpl; lia).
    cbn [fst snd app st_stats length].
    rewrite Nat.sub_0_r.
    assert (Hlen : (1 <= length bytes)%nat)
      by (destruct bytes; [congruence | simpl; lia]).
    split; [| split].
    + destruct (Z.eqb_spec (Z.of_nat (length (filter not_nul bytes))) 0) as [E | E].
      * eexists. split; [reflexivity |]. cbn [rd_data rd_ret].
        destruct (filter not_nul bytes); [split; [reflexivity | lia] | simpl in E; lia].
      * eexists. split; [reflexivity |]. split; reflexivity.
    + rewrite bump_n_rx by exact Hlen. reflexivity.
    + cbn [stat_stores].
      rewrite !stat_stores_app, stat_stores_store_events, stat_stores_sleeps.
      simpl. lia.
  - exists ["a"%char; NUL; "b"%char], 100, 400%nat.
    vm_compute. eexists. split; reflexivity.
Qed.

Lemma receive_drops_nul_witness :
  ["a"%char; NUL; "b"%char] <> [] /\ 0 <= 0 /\
  Z.of_nat (length (filter not_nul ["a"%char; NUL; "b"%char])) < 511 /\
  Z.of_nat (length (filter not_nul ["a"%char; NUL; "b"%char])) < 100 /\
  (length ["a"%char; NUL; "b"%char] + 301 < 400)%nat /\
  let '(r, s', t) :=
    run (uart_proc_read 400 true 100 0)
        (mk_state initial_config zero_stats
                  (mk_sim ["a"%char; NUL; "b"%char] false 0 [])) in
  (exists res, r = Some res /\
               rd_data res = filter not_nul ["a"%char; NUL; "b"%char] /\
               rd_ret res = Z.of_nat (length (filter not_nul ["a"%char; NUL; "b"%char]))) /\
  rx_bytes (st_stats s') =
    u64 (rx_bytes zero_stats + Z.of_nat (length ["a"%char; NUL; "b"%char])) /\
  stat_stores RxBytes t = length ["a"%char; NUL; "b"%char].
Proof.
  assert (H0 : ["a"%char; NUL; "b"%char] <> []) by discriminate.
  assert (H1 : 0 <= 0) by lia.
  assert (H2 : Z.of_nat (length (filter not_nul ["a"%char; NUL; "b"%char])) < 511)
    by (simpl; lia).
  assert (H3 : Z.of_nat (length (filter not_nul ["a"%char; NUL; "b"%char])) < 100)
    by (simpl; lia).
  assert (H4 : (length ["a"%char; NUL; "b"%char] + 301 < 400)%nat) by (simpl; lia).
  split; [exact H0 |]. split; [exact H1 |]. split; [exact H2 |].
  split; [exact H3 |]. split; [exact H4 |].
  exact (proj1 (proj2 receive_drops_nul) ["a"%char; NUL; "b"%char] 100 0 400%nat
               initial_config zero_stats false 0 [] H0 H1 H2 H3 H4).
Defined.

(* ------------------------------------------------------------------ *)
(** ** The data-out endpoint *)

Lemma c_str_not_nul (l : list ascii) (rest : list ascii) :
  forallb not_nul l = true -> c_str (l ++ NUL :: rest) = l.
Proof.
  induction l as [| c l IH]; intros Hl; [reflexivity |].
  cbn [forallb] in Hl. apply andb_true_iff in Hl. destruct Hl as [Hc Hl].
  cbn [app c_str]. unfold not_nul in Hc.
  destruct (Ascii.eqb c NUL); [discriminate |]. now rewrite IH.
Qed.

Lemma c_str_length (l : list ascii) : (length (c_str l) <= length l)%nat.
Proof.
  induction l as [| c l IH]; simpl; [lia |].
  destruct (Ascii.eqb c NUL); simpl; lia.
Qed.

(** C5 (amended): [uart_proc_write] never refuses a call for its length.
    It copies the first [min(count, 511)] bytes, hands them to
    [uart_send_string] (which sends them up to the first NUL) and returns
    [count]; so at most 511 bytes are handed on, and when [count <= 511]
    and the bytes hold no NUL the value returned is the number of bytes
    handed on.  The only failure is a faulting copy: [-EFAULT], one more
    [tx_errors], nothing sent; that is what a write of at least one byte
    from an unmapped buffer gets.  A write of no bytes copies nothing, so
    it cannot fault: it returns 0 after taking and releasing the transmit
    mutex, whatever the buffer. *)
Theorem write_data_truncates {D : Type} `{Device D}
        (bytes : list ascii) (count : Z) (s : state D) :
  0 <= count <= Z.of_nat (length bytes) ->
  let passed := firstn (Z.to_nat (Z.min count 511)) bytes in
  run (uart_proc_write (Some bytes) count) s =
    (let '(_, s', t) := run (uart_send_string (passed ++ [NUL])) s in (count, s', t)) /\
  Z.of_nat (length (c_str (passed ++ [NUL]))) <= 511 /\
  (count <= 511 -> forallb not_nul passed = true ->
   Z.of_nat (length (c_str (passed ++ [NUL]))) = count) /\
  (forall (buf : option (list ascii)) (n : Z),
     copy_from_user buf (Z.min n 511) = None ->
     run (uart_proc_write buf n) s =
       (- EFAULT, mk_state (st_config s) (bump TxErrors (st_stats s)) (st_dev s),
        [EvStatStore TxErrors (u64 (tx_errors (st_stats s) + 1))])) /\
  (forall n : Z, 0 < n -> copy_from_user None (Z.min n 511) = None) /\
  (forall buf : option (list ascii),
     run (uart_proc_write buf 0) s =
       (0, s, [EvLock uart_tx_mutex; EvUnlock uart_tx_mutex])).
Proof.
  intros Hc passed.
  assert (Hlen : length passed = Z.to_nat (Z.min count 511)).
  { unfold passed. apply firstn_length_le. lia. }
  split; [| split; [| split; [| split; [| split]]]].
  - unfold uart_proc_write, copy_from_user, KBUF_LIMIT.
    replace (Z.min count 511 <=? Z.of_nat (length bytes)) with true
      by (symmetry; apply Z.leb_le; lia).
    fold passed. rewrite run_bind.
    destruct (run (uart_send_string (passed ++ [NUL])) s) as [[u s'] t].
    cbn [run]. now rewrite app_nil_r.
  - pose proof (c_str_length (passed ++ [NUL])) as Hl.
    rewrite length_app in Hl. simpl in Hl. 
    destruct (forallb not_nul passed) eqn:Hnn.
    + rewrite c_str_not_nul by exact Hnn. lia.
    + assert (Hlt : (length (c_str (passed ++ [NUL])) <= length passed)%nat).
      { clear -Hnn. induction passed as [| c l IH]; [discriminate |].
        cbn [forallb] in Hnn. cbn [app c_str length]. unfold not_nul in Hnn.
        destruct (Ascii.eqb c NUL); simpl in *; [lia |].
        specialize (IH Hnn). lia. }
      lia.
  - intros Hle Hnn. rewrite c_str_not_nul by exact Hnn. lia.
  - intros buf n Hcopy. unfold uart_proc_write, KBUF_LIMIT. rewrite Hcopy. reflexivity.
  - intros n Hn. unfold copy_from_user.
    destruct (Z.leb_spec (Z.min n 511) 0) as [Hle | Hgt]; [lia | reflexivity].
  - intros [l |]; unfold uart_proc_write, copy_from_user, KBUF_LIMIT;
      change (Z.min 0 511) with 0; [| reflexivity].
    replace (0 <=? Z.of_nat (length l)) with true by (symmetry; apply Z.leb_le; lia).
    reflexivity.
Qed.

Lemma write_data_truncates_witness :
  0 <= 3 <= Z.of_nat (length (chars "abc")) /\
  let passed := firstn (Z.to_nat (Z.min 3 511)) (chars "abc") in
  run (uart_proc_write (Some (chars "abc")) 3)
      (sim_state initial_config zero_stats (sim_with_rx [])) =
    (let '(_, s', t) :=
       run (uart_send_string (passed ++ [NUL]))
           (sim_state initial_config zero_stats (sim_with_rx [])) in (3, s', t)) /\
  Z.of_nat (length (c_str (passed ++ [NUL]))) <= 511 /\
  (3 <= 511 -> forallb not_nul passed = true ->
   Z.of_nat (length (c_str (passed ++ [NUL]))) = 3).
Proof.
  assert (H0 : 0 <= 3 <= Z.of_nat (length (chars "abc"))) by (simpl; lia).
  split; [exact H0 |].
  destruct (write_data_truncates (chars "abc") 3
              (sim_state initial_config zero_stats (sim_with_rx [])) H0)
    as (W1 & W2 & W3 & _).
  split; [exact W1 |]. split; [exact W2 | exact W3].
Defined.

(** C5 as stated fails: a call with 600 bytes is not refused; it returns
    600 after putting the first 511 bytes on the wire. *)
Lemma write_data_oversize_counterexample :
  let '(r, _, t) :=
    run (uart_proc_write (Some (repeat "A"%char 600)) 600)
        (sim_state initial_config zero_stats (sim_with_rx [])) in
  r = 600 /\ wire t = repeat 65 511 /\ Z.of_nat (length (wire t)) <> r.
Proof. vm_compute. repeat split; try reflexivity. discriminate. Qed.

(* ------------------------------------------------------------------ *)
(** ** Scanning a decimal number *)


Lemma of_uint_acc_value (d : Decimal.uint) :
  forall p, Z.pos (Pos.of_uint_acc d p) = uint_value d (Z.pos p).
Proof.
  induction d; intros p; cbn [Pos.of_uint_acc uint_value]; try reflexivity;
    rewrite IHd; f_equal; lia.
Qed.

Lemma of_uint_value (d : Decimal.uint) : Z.of_N (Pos.of_uint d) = uint_value d 0.
Proof.
  induction d; cbn [Pos.of_uint uint_value]; try reflexivity; try exact IHd;
    cbn [Z.of_N]; rewrite of_uint_acc_value; reflexivity.
Qed.













Lemma uint_value_digits (d : Decimal.uint) :
  forall acc, 0 <= acc ->
    acc * 10 ^ Z.of_nat (length (chars (NilEmpty.string_of_uint d))) <= uint_value d acc.
Proof.
  unfold chars.
  induction d; intros acc Ha;
    cbn [uint_value NilEmpty.string_of_uint list_ascii_of_string length];
    [cbn; lia | ..];
    rewrite Nat2Z.inj_succ, Z.pow_succ_r by lia;
    match goal with
    | |- _ <= uint_value _ ?a =>
        specialize (IHd a ltac:(lia));
        assert (0 <= 10 ^ Z.of_nat
                  (length (list_ascii_of_string (NilEmpty.string_of_uint d))))
          by (apply Z.pow_nonneg; lia);
        nia
    end.
Qed.

Lemma nzhead_head (d : Decimal.uint) :
  match Decimal.nzhead d with Decimal.D0 _ => False | _ => True end.
Proof. induction d; cbn; auto. Qed.

(** The decimal text of a 32-bit number has at most ten digits. *)
Lemma decimal_length (n : Z) : 0 <= n < 2 ^ 32 -> (length (decimal n) <= 10)%nat.
Proof.
  intros Hn.
  assert (Hval : uint_value (N.to_uint (Z.to_N n)) 0 = n).
  { rewrite <- of_uint_value. change (Pos.of_uint ?d) with (N.of_uint d).
    rewrite DecimalN.Unsigned.of_to. lia. }
  assert (Hnorm : N.to_uint (Z.to_N n) = Decimal.unorm (N.to_uint (Z.to_N n))).
  { rewrite <- DecimalN.Unsigned.to_of, DecimalN.Unsigned.of_to. reflexivity. }
  unfold decimal, NilZero.string_of_uint.
  set (e := N.to_uint (Z.to_N n)) in *.
  unfold Decimal.unorm in Hnorm. pose proof (nzhead_head e) as Hh.
  destruct (Decimal.nzhead e) eqn:Enz; rewrite Hnorm; try (cbn; lia); try contradiction;
    rewrite Hnorm in Hval; cbn [uint_value] in Hval;
    cbn [NilEmpty.string_of_uint chars list_ascii_of_string length];
    match type of Hval with
    | uint_value ?l ?a = _ =>
        pose proof (uint_value_digits l a ltac:(lia)) as Hd;
        unfold chars in Hd;
        set (L := length (list_ascii_of_string (NilEmpty.string_of_uint l))) in *;
        destruct (le_lt_dec L 9) as [Hle | Hgt]; [lia |];
        exfalso;
        assert (Hp : 10 ^ 10 <= 10 ^ Z.of_nat L) by (apply Z.pow_le_mono_r; lia);
        change (10 ^ 10) with 10000000000 in Hp;
        change (2 ^ 32) with 4294967296 in Hn;
        nia
    end.
Qed.

(* ------------------------------------------------------------------ *)
(** ** The config endpoint *)

Section ConfigFacts.
Context {D : Type} `{Device D}.

Lemma run_apply_config_fail (s : state D) (e : baud_error) :
  baud_register (system_clock (st_config s)) (baudrate (st_config s)) = BaudErr e ->
  run uart_apply_config s = (- EINVAL, s, []).
Proof.
  intros He. unfold uart_apply_config, calculate_baud_register.
  cbn [bind call run exec_op get_cfg]. rewrite He. reflexivity.
Qed.

Lemma unsupported_test (v : Z) :
  negb (v =? BAUD_9600) && negb (v =? BAUD_19200) && negb (v =? BAUD_38400) &&
  negb (v =? BAUD_57600) && negb (v =? BAUD_115200) = negb (supported_baud v).
Proof.
  unfold supported_baud.
  destruct (v =? BAUD_9600), (v =? BAUD_19200), (v =? BAUD_38400),
           (v =? BAUD_57600), (v =? BAUD_115200); reflexivity.
Qed.

Lemma supported_baud_u32 (v : Z) : supported_baud v = true -> u32 v = v.
Proof.
  intros Hs. apply supported_baud_cases in Hs.
  destruct Hs as [-> | [-> | [-> | [-> | ->]]]]; reflexivity.
Qed.

End ConfigFacts.

(* ------------------------------------------------------------------ *)
(** ** Statistics *)

Lemma advance_add (n m : nat) (x : Z) : advance (n + m) x = advance m (advance n x).
Proof. revert x. induction n as [| n IH]; intros x; simpl; [reflexivity | apply IH]. Qed.


Section Counters.
Context {D : Type} `{Device D}.

Lemma counts_ret {A : Type} (a : A) : counts_ok (Ret a).
Proof. intros s. simpl. split; [reflexivity | intros f; reflexivity]. Qed.

Lemma counts_bind {A B : Type} (p : prog A) (k : A -> prog B) :
  counts_ok p -> (forall a, counts_ok (k a)) -> counts_ok (bind p k).
Proof.
  intros Hp Hk s. rewrite run_bind. specialize (Hp s).
  destruct (run p s) as [[a s1] t1]. specialize (Hk a s1).
  destruct (run (k a) s1) as [[b s2] t2].
  destruct Hp as [Hr1 Hs1], Hk as [Hr2 Hs2].
  split.
  - rewrite has_reset_app, Hr1, Hr2. reflexivity.
  - intros f. rewrite stat_stores_app, advance_add, Hs2, Hs1. reflexivity.
Qed.

Lemma counts_call (o : op) : keeps_stats o -> counts_ok (call o).
Proof.
  intros Ho s.
  destruct o; try contradiction; cbn [call run exec_op];
    try (split; [reflexivity | intros ?; reflexivity]).
  destruct (dev_readl r (st_dev s)) as [v d].
  split; [reflexivity | intros ?; reflexivity].
Qed.

Lemma counts_incr (f : stat_field) : counts_ok (stat_incr f).
Proof.
  intros s. rewrite run_stat_incr. split; [reflexivity |].
  intros g. destruct (st_stats s). destruct f, g; reflexivity.
Qed.

Ltac counts_step :=
  first
    [ match goal with Hc : counts_ok ?p |- counts_ok ?p => exact Hc end
    | apply counts_ret
    | apply counts_incr
    | apply counts_call; exact I
    | match goal with
      | |- counts_ok (if ?b then _ else _) => destruct b
      | |- counts_ok (match ?x with _ => _ end) => destruct x
      | |- counts_ok (bind _ _) => apply counts_bind; [| intros ?]
      end ].

Ltac counts := repeat counts_step.

Lemma counts_tx_wait (n : nat) : counts_ok (tx_wait n).
Proof. induction n; cbn [tx_wait]; counts. Qed.

Lemma counts_send_char (c : ascii) : counts_ok (uart_send_char c).
Proof.
  pose proof (counts_tx_wait 10000) as Hw.
  assert (Hb : forall c, counts_ok (send_char_body c))
    by (intros c'; unfold send_char_body; counts).
  rewrite uart_send_char_unfold. apply counts_bind; [| intros _; apply Hb].
  destruct (Ascii.eqb c LF); [| apply counts_ret].
  rewrite uart_send_char_unfold. apply counts_bind; [| intros _; apply Hb].
  change (Ascii.eqb CR LF) with false. apply counts_ret.
Qed.

Lemma counts_send_string (s : list ascii) : counts_ok (uart_send_string s).
Proof.
  assert (Hl : counts_ok (send_string_loop s)).
  { induction s as [| c s IH]; cbn [send_string_loop]; [apply counts_ret |].
    pose proof (counts_send_char c) as Hc. pose proof (counts_send_char CR) as Hcr.
    counts. }
  unfold uart_send_string. counts.
Qed.

Lemma counts_proc_write (buf : option (list ascii)) (count : Z) :
  counts_ok (uart_proc_write buf count).
Proof.
  unfold uart_proc_write.
  destruct (copy_from_user buf (Z.min count KBUF_LIMIT)) as [kbuf |].
  - pose proof (counts_send_string (kbuf ++ [NUL])). counts.
  - counts.
Qed.

Lemma counts_data_available : counts_ok uart_data_available.
Proof. unfold uart_data_available. counts. Qed.

Lemma counts_receive_char : counts_ok uart_receive_char.
Proof.
  pose proof counts_data_available.
  unfold uart_receive_char, uart_check_rx_errors. counts.
Qed.

Lemma counts_rx_first_wait (n : nat) : counts_ok (rx_first_wait n).
Proof.
  pose proof counts_data_available.
  induction n; cbn [rx_first_wait]; counts.
Qed.

Lemma counts_rx_inner (fuel : nat) :
  forall count kbuf nd, counts_ok (rx_inner fuel count kbuf nd).
Proof.
  pose proof counts_data_available. pose proof counts_receive_char.
  induction fuel as [| fuel IH]; intros count kbuf nd; cbn [rx_inner];
    [apply counts_ret |].
  apply counts_bind; [assumption | intros avail].
  destruct (negb (avail =? 0) && (Z.of_nat (length kbuf) <? KBUF_LIMIT) &&
            (Z.of_nat (length kbuf) <? count)); [| apply counts_ret].
  apply counts_bind; [assumption | intros c].
  destruct (negb (Ascii.eqb c NUL)); apply IH.
Qed.

Lemma counts_rx_outer (fuel : nat) :
  forall count kbuf nd, counts_ok (rx_outer fuel count kbuf nd).
Proof.
  pose proof counts_data_available.
  induction fuel as [| fuel IH]; intros count kbuf nd; cbn [rx_outer];
    [apply counts_ret |].
  destruct ((Z.of_nat (length kbuf) <? KBUF_LIMIT) &&
            (Z.of_nat (length kbuf) <? count)); [| apply counts_ret].
  apply counts_bind; [apply counts_rx_inner | intros [[k1 nd1] |]];
    [| apply counts_ret].
  rewrite nonneg_branch by lia.
  apply counts_bind; [assumption | intros avail].
  destruct (avail =? 0); [| apply IH].
  apply counts_bind; [unfold rx_idle; counts | intros [nd2 brk]].
  cbn [fst snd]. destruct brk; [apply counts_ret | apply IH].
Qed.

Lemma counts_proc_read (fuel : nat) (user_ok : bool) (count ppos : Z) :
  counts_ok (uart_proc_read fuel user_ok count ppos).
Proof.
  pose proof (counts_rx_first_wait 1000). pose proof (counts_rx_outer fuel count [] 0).
  unfold uart_proc_read. counts.
Qed.

Lemma counts_clear_fifos : counts_ok uart_clear_fifos.
Proof. unfold uart_clear_fifos. counts. Qed.

Lemma counts_apply_config : counts_ok uart_apply_config.
Proof.
  pose proof counts_clear_fifos.
  unfold uart_apply_config, calculate_baud_register. counts.
Qed.

Lemma counts_init_hardware : counts_ok uart_init_hardware.
Proof.
  pose proof counts_clear_fifos.
  unfold uart_init_hardware, calculate_baud_register. counts.
Qed.

Lemma counts_init_gpio : counts_ok uart_init_gpio.
Proof.
  assert (Hd : forall n, counts_ok (delay_cycles n))
    by (induction n; cbn [delay_cycles]; counts).
  unfold uart_init_gpio.
  apply counts_bind; [apply counts_call; exact I | intros v1]. cbv zeta.
  apply counts_bind; [apply counts_call; exact I | intros _].
  apply counts_bind; [apply counts_call; exact I | intros v2]. cbv zeta.
  apply counts_bind; [apply counts_call; exact I | intros _].
  apply Hd.
Qed.

Lemma counts_config_read (user_ok : bool) (count ppos : Z) :
  counts_ok (uart_config_read user_ok count ppos).
Proof. unfold uart_config_read. counts. Qed.

Lemma counts_status_read (user_ok : bool) (count ppos : Z) :
  counts_ok (uart_status_read user_ok count ppos).
Proof. unfold uart_status_read. counts. Qed.

Lemma counts_stats_read (user_ok : bool) (count ppos : Z) :
  counts_ok (uart_stats_read user_ok count ppos).
Proof. unfold uart_stats_read. counts. Qed.

End Counters.

Section ConfigWriteCounters.
Context {D : Type} `{Device D}.



Lemma counts_config_write (buf : option (list ascii)) (count : Z) :
  is_reset_stats (OpConfigWrite buf count) = false ->
  counts_ok (uart_config_write buf count).
Proof.
  intros Hnr. pose proof (@counts_apply_config D _) as Ha.
  pose proof (@counts_clear_fifos D _) as Hc.
  unfold uart_config_write. cbn [is_reset_stats] in Hnr.
  destruct (copy_from_user buf (Z.min count 127)) as [bytes |]; [| apply counts_ret].
  cbv zeta. rewrite Hnr.
  destruct (sscanf_baud (bytes ++ [NUL])) as [v |].
  - destruct (negb (v =? BAUD_9600) && negb (v =? BAUD_19200) &&
              negb (v =? BAUD_38400) && negb (v =? BAUD_57600) &&
              negb (v =? BAUD_115200)); [apply counts_ret |].
    apply counts_bind; [apply counts_call; exact I | intros _].
    apply counts_bind; [exact Ha | intros r].
    destruct (negb (r =? 0)); apply counts_ret.
  - destruct (strncmp (bytes ++ [NUL]) (chars "bits=8") 6 =? 0).
    { apply counts_bind; [apply counts_call; exact I | intros _].
      apply counts_bind; [exact Ha | intros r].
      destruct (negb (r =? 0)); apply counts_ret. }
    destruct (strncmp (bytes ++ [NUL]) (chars "bits=7") 6 =? 0).
    { apply counts_bind; [apply counts_call; exact I | intros _].
      apply counts_bind; [exact Ha | intros r].
      destruct (negb (r =? 0)); apply counts_ret. }
    destruct (strncmp (bytes ++ [NUL]) (chars "clear_fifo") 10 =? 0).
    { apply counts_bind; [exact Hc | intros _]. apply counts_ret. }
    apply counts_ret.
Qed.


Lemma counts_operation (o : operation) :
  is_reset_stats o = false -> counts_ok (operation_prog o).
Proof.
  intros Hnr. destruct o; cbn [operation_prog].
  - apply counts_bind; [apply counts_proc_write | intros _; apply counts_ret].
  - apply counts_bind; [apply counts_proc_read | intros _; apply counts_ret].
  - apply counts_bind; [apply counts_config_read | intros _; apply counts_ret].
  - apply counts_bind; [apply counts_config_write; exact Hnr | intros _; apply counts_ret].
  - apply counts_bind; [apply counts_status_read | intros _; apply counts_ret].
  - apply counts_bind; [apply counts_stats_read | intros _; apply counts_ret].
  - apply counts_init_gpio.
  - apply counts_bind; [apply counts_init_hardware | intros _; apply counts_ret].
  - apply counts_send_string.
Qed.


End ConfigWriteCounters.


(** After three bytes sent and a reset, the stats file shows zeros. *)
Example reset_stats_example :
  let s0 := sim_state initial_config zero_stats (sim_with_rx []) in
  let '(_, s1, _) := run (uart_proc_write (Some (chars "abc")) 3) s0 in
  let '(_, s2, _) := run (uart_config_write (Some (chars "reset_stats")) 11) s1 in
  tx_bytes (st_stats s1) = 3 /\ st_stats s2 = zero_stats /\
  fst (fst (run (uart_stats_read true 512 0) s2)) =
  read_text (stats_text zero_stats) true 512 0.
Proof. vm_compute. repeat split; reflexivity. Qed.

(* ------------------------------------------------------------------ *)
(** ** Two concurrent callers of [uart_send_string] *)

Lemma plain_bind {A B : Type} (p : prog A) (f : A -> prog B) :
  plain_prog p -> (forall a, plain_prog (f a)) -> plain_prog (bind p f).
Proof.
  intros Hp Hf. induction Hp as [a | o k Ho Hk IH]; cbn [bind].
  - apply Hf.
  - apply plain_vis; [exact Ho | exact IH].
Qed.

Lemma in_section_bind {A : Type} (p : prog A) (f : A -> prog unit) :
  plain_prog p -> (forall a, in_section (f a)) -> in_section (bind p f).
Proof.
  intros Hp Hf. induction Hp as [a | o k Ho Hk IH]; cbn [bind].
  - apply Hf.
  - apply in_plain; [exact Ho | exact IH].
Qed.

Lemma plain_call (o : op) : plain o -> plain_prog (call o).
Proof. intros Ho. apply plain_vis; [exact Ho | intros z; apply plain_ret]. Qed.

Lemma plain_stat_incr (f : stat_field) : plain_prog (stat_incr f).
Proof.
  unfold stat_incr.
  apply plain_bind; [apply plain_call; exact I | intros v].
  apply plain_bind; [apply plain_call; exact I | intros _; apply plain_ret].
Qed.

Lemma plain_tx_wait (n : nat) : plain_prog (tx_wait n).
Proof.
  induction n as [| n IH]; cbn [tx_wait];
    (apply plain_bind; [apply plain_call; exact I | intros lsr]);
    destruct (negb (Z.land lsr 32 =? 0)); try apply plain_ret.
  apply plain_bind; [apply plain_call; exact I | intros _; exact IH].
Qed.

Lemma plain_send_char_body (c : ascii) : plain_prog (send_char_body c).
Proof.
  unfold send_char_body.
  apply plain_bind; [apply plain_tx_wait | intros timeout].
  destruct (timeout <=? 0); [apply plain_stat_incr |].
  apply plain_bind; [apply plain_call; exact I | intros _; apply plain_stat_incr].
Qed.

Lemma plain_send_char (c : ascii) : plain_prog (uart_send_char c).
Proof.
  rewrite uart_send_char_unfold.
  apply plain_bind; [| intros _; apply plain_send_char_body].
  destruct (Ascii.eqb c LF); [| apply plain_ret].
  rewrite uart_send_char_unfold. change (Ascii.eqb CR LF) with false.
  apply plain_bind; [apply plain_ret | intros _; apply plain_send_char_body].
Qed.

Lemma plain_send_string_loop (s : list ascii) : plain_prog (send_string_loop s).
Proof.
  induction s as [| c s IH]; cbn [send_string_loop]; [apply plain_ret |].
  destruct (Ascii.eqb c NUL); [apply plain_ret |].
  apply plain_bind.
  - destruct (Ascii.eqb c LF); [apply plain_send_char | apply plain_ret].
  - intros _. apply plain_bind; [apply plain_send_char | intros _; exact IH].
Qed.

(** [uart_send_string] takes the transmit mutex first, touches no mutex
    while it sends, and releases the transmit mutex last. *)
Lemma sender_ok_send_string (s : list ascii) : sender_ok (uart_send_string s).
Proof.
  unfold uart_send_string. cbn [bind call sender_ok]. intros z.
  apply in_section_bind; [apply plain_send_string_loop | intros _].
  apply in_unlock. intros z'. reflexivity.
Qed.

Lemma in_section_phase (p : prog unit) : in_section p -> tx_phase p = Inside.
Proof.
  intros Hp. destruct Hp as [k Hk | o k Ho Hk]; [reflexivity |].
  destruct o; try reflexivity; contradiction.
Qed.

Lemma in_section_inv (o : op) (k : Z -> prog unit) :
  in_section (Vis o k) ->
  (o = MutexUnlock uart_tx_mutex /\ forall z, k z = Ret tt) \/
  (plain o /\ forall z, in_section (k z)).
Proof.
  intros Hp. inversion Hp as [k' Hk Heq | o' k' Ho Hk Heq]; subst.
  - left. split; [reflexivity | exact Hk].
  - right. split; [exact Ho | exact Hk].
Qed.

Lemma tagged_wire_app (t1 t2 : list (Conc.tid * event)) :
  Conc.tagged_wire (t1 ++ t2) = Conc.tagged_wire t1 ++ Conc.tagged_wire t2.
Proof.
  induction t1 as [| [a e] t1 IH]; cbn [app Conc.tagged_wire]; [reflexivity |].
  destruct e as [v r | | | | | | |]; try exact IH.
  destruct r; try exact IH. cbn [app]. now rewrite IH.
Qed.

Lemma tagged_wire_of (a : Conc.tid) (evs : list event) :
  Conc.tagged_wire (map (pair a) evs) = bytes_of a (wire evs).
Proof.
  induction evs as [| e evs IH]; [reflexivity |].
  cbn [map Conc.tagged_wire wire].
  destruct e as [v r | | | | | | |]; try exact IH.
  destruct r; try exact IH. unfold bytes_of in *. cbn [map]. now rewrite IH.
Qed.

Lemma first_locker_app_some (m : mutex) (t1 t2 : list (Conc.tid * event)) (a : Conc.tid) :
  Conc.first_locker m t1 = Some a -> Conc.first_locker m (t1 ++ t2) = Some a.
Proof.
  induction t1 as [| [b e] t1 IH]; cbn [app Conc.first_locker]; [discriminate |].
  destruct e; try exact IH.
  destruct (mutex_eqb m m0); [auto | exact IH].
Qed.

Lemma first_locker_app_none (m : mutex) (t1 t2 : list (Conc.tid * event)) :
  Conc.first_locker m t1 = None ->
  Conc.first_locker m (t1 ++ t2) = Conc.first_locker m t2.
Proof.
  induction t1 as [| [b e] t1 IH]; cbn [app Conc.first_locker]; [reflexivity |].
  destruct e; try exact IH.
  destruct (mutex_eqb m m0); [discriminate | exact IH].
Qed.

Lemma bytes_of_app (a : Conc.tid) (w1 w2 : list Z) :
  bytes_of a (w1 ++ w2) = bytes_of a w1 ++ bytes_of a w2.
Proof. unfold bytes_of. apply map_app. Qed.

Lemma in_section_sender_ok (p : prog unit) : in_section p -> sender_ok p.
Proof.
  intros Hp. destruct p as [u | o k]; [exact I |].
  destruct o; try exact Hp.
  destruct m; try exact Hp.
  apply in_section_inv in Hp. destruct Hp as [[Hp _] | [Hp _]];
    [discriminate | contradiction].
Qed.

Section ConcInvariant.
Context {D : Type} `{Device D}.

Lemma no_interleaving_start (st : state D) (s1 s2 : list ascii) :
  no_interleaving (Conc.start st (uart_send_string s1) (uart_send_string s2)).
Proof.
  split; [| split].
  - intros [|]; apply sender_ok_send_string.
  - intros [|]; (split; intros Hx; [discriminate Hx |]);
      cbn [Conc.start Conc.c_prog Conc.c_prog1 Conc.c_prog2] in Hx;
      unfold uart_send_string in Hx; cbn [bind call tx_phase] in Hx; discriminate Hx.
  - exists Conc.T1, [], [].
    cbn [Conc.start Conc.c_prog Conc.other Conc.c_prog1 Conc.c_prog2 Conc.c_trace].
    unfold uart_send_string. cbn [bind call tx_phase].
    repeat split; try reflexivity; intros Hx; congruence.
Qed.

(** A caller takes the free transmit mutex. *)
Lemma no_interleaving_acquire (t : Conc.tid) (c : Conc.cstate D) (k : Z -> prog unit) :
  no_interleaving c ->
  Conc.c_prog t c = Vis (MutexLock uart_tx_mutex) k ->
  Conc.c_owner c uart_tx_mutex = None ->
  no_interleaving
    (Conc.set_prog t (k 0) c (Conc.c_state c)
       (Conc.set_owner uart_tx_mutex (Some t) (Conc.c_owner c))
       (Conc.c_trace c ++ [(t, EvLock uart_tx_mutex)])).
Proof.
  intros (Hok & Hown & a & wa & wb & Hw & Hb & Ha & Haft & Hfirst) Hp Hfree.
  assert (Hk : in_section (k 0)).
  { specialize (Hok t). rewrite Hp in Hok. apply Hok. }
  assert (Hin : tx_phase (k 0) = Inside) by (apply in_section_phase; exact Hk).
  assert (Hq : tx_phase (Conc.c_prog (Conc.other t) c) <> Inside).
  { intros Hx. apply Hown in Hx. congruence. }
  assert (Hpt : tx_phase (Conc.c_prog t c) = Before) by (rewrite Hp; reflexivity).
  assert (Hwire : Conc.tagged_wire (Conc.c_trace c ++ [(t, EvLock uart_tx_mutex)]) =
                  Conc.tagged_wire (Conc.c_trace c))
    by (rewrite tagged_wire_app; cbn [Conc.tagged_wire]; apply app_nil_r).
  destruct c as [st ow p1 p2 tr].
  destruct t; cbn [Conc.c_prog Conc.set_prog Conc.other Conc.c_prog1 Conc.c_prog2
                   Conc.c_state Conc.c_owner Conc.c_trace] in *.
  - (* T1 takes the mutex *)
    split; [| split].
    + intros [|]; cbn [Conc.c_prog Conc.c_prog1 Conc.c_prog2];
        [apply in_section_sender_ok; exact Hk | exact (Hok Conc.T2)].
    + intros [|]; cbn [Conc.c_prog Conc.c_prog1 Conc.c_prog2 Conc.c_owner
                       Conc.set_owner mutex_eqb]; split; intros Hx;
        try reflexivity; try assumption; try congruence.
    + destruct (tx_phase p2) eqn:Hp2; [| congruence |].
      * (* the other has not started: the wire is empty *)
        assert (wa = [] /\ wb = []) as [-> ->].
        { destruct a; cbn [Conc.c_prog Conc.other Conc.c_prog1 Conc.c_prog2] in *;
            split; auto. }
        exists Conc.T1, [], [].
        cbn [Conc.c_prog Conc.other Conc.c_prog1 Conc.c_prog2 Conc.c_trace].
        rewrite Hwire, Hw, Hin.
        assert (Hnone : Conc.first_locker uart_tx_mutex tr = None).
        { destruct a; cbn [Conc.c_prog Conc.c_prog1 Conc.c_prog2] in Hfirst;
            rewrite ?Hpt, ?Hp2 in Hfirst; exact Hfirst. }
        rewrite (first_locker_app_none _ _ _ Hnone).
        repeat split; try reflexivity; try congruence;
          try (destruct a; reflexivity).
      * (* the other is done: it was first *)
        destruct a; cbn [Conc.c_prog Conc.other Conc.c_prog1 Conc.c_prog2] in *.
        { exfalso. assert (Hx : tx_phase p1 = After) by (apply Haft; congruence).
          congruence. }
        exists Conc.T2, wa, wb.
        cbn [Conc.c_prog Conc.other Conc.c_prog1 Conc.c_prog2 Conc.c_trace].
        rewrite Hwire, Hp2. rewrite Hp2 in Hfirst.
        rewrite (first_locker_app_some _ _ _ _ Hfirst).
        repeat split; try assumption; try reflexivity; try congruence;
          try (intros _; apply Hb; exact Hpt).
  - (* T2 takes the mutex *)
    split; [| split].
    + intros [|]; cbn [Conc.c_prog Conc.c_prog1 Conc.c_prog2];
        [exact (Hok Conc.T1) | apply in_section_sender_ok; exact Hk].
    + intros [|]; cbn [Conc.c_prog Conc.c_prog1 Conc.c_prog2 Conc.c_owner
                       Conc.set_owner mutex_eqb]; split; intros Hx;
        try reflexivity; try assumption; try congruence.
    + destruct (tx_phase p1) eqn:Hp1; [| congruence |].
      * assert (wa = [] /\ wb = []) as [-> ->].
        { destruct a; cbn [Conc.c_prog Conc.other Conc.c_prog1 Conc.c_prog2] in *;
            split; auto. }
        exists Conc.T2, [], [].
        cbn [Conc.c_prog Conc.other Conc.c_prog1 Conc.c_prog2 Conc.c_trace].
        rewrite Hwire, Hw, Hin.
        assert (Hnone : Conc.first_locker uart_tx_mutex tr = None).
        { destruct a; cbn [Conc.c_prog Conc.c_prog1 Conc.c_prog2] in Hfirst;
            rewrite ?Hpt, ?Hp1 in Hfirst; exact Hfirst. }
        rewrite (first_locker_app_none _ _ _ Hnone).
        repeat split; try reflexivity; try congruence;
          try (destruct a; reflexivity).
      * destruct a; cbn [Conc.c_prog Conc.other Conc.c_prog1 Conc.c_prog2] in *.
        2: { exfalso. assert (Hx : tx_phase p2 = After) by (apply Haft; congruence).
             congruence. }
        exists Conc.T1, wa, wb.
        cbn [Conc.c_prog Conc.other Conc.c_prog1 Conc.c_prog2 Conc.c_trace].
        rewrite Hwire, Hp1. rewrite Hp1 in Hfirst.
        rewrite (first_locker_app_some _ _ _ _ Hfirst).
        repeat split; try assumption; try reflexivity; try congruence;
          try (intros _; apply Hb; exact Hpt).
Qed.

(** A caller releases the transmit mutex and returns. *)
Lemma no_interleaving_release (t : Conc.tid) (c : Conc.cstate D) (k : Z -> prog unit) :
  no_interleaving c ->
  Conc.c_prog t c = Vis (MutexUnlock uart_tx_mutex) k ->
  (forall z, k z = Ret tt) ->
  no_interleaving
    (Conc.set_prog t (k 0) c (Conc.c_state c)
       (Conc.set_owner uart_tx_mutex None (Conc.c_owner c))
       (Conc.c_trace c ++ [(t, EvUnlock uart_tx_mutex)])).
Proof.
  intros (Hok & Hown & a & wa & wb & Hw & Hb & Ha & Haft & Hfirst) Hp Hk.
  rewrite (Hk 0).
  assert (Hpt : tx_phase (Conc.c_prog t c) = Inside) by (rewrite Hp; reflexivity).
  assert (Hq : tx_phase (Conc.c_prog (Conc.other t) c) <> Inside).
  { intros Hx. apply Hown in Hx. apply Hown in Hpt. rewrite Hpt in Hx.
    destruct t; discriminate. }
  assert (Hwire : Conc.tagged_wire (Conc.c_trace c ++ [(t, EvUnlock uart_tx_mutex)]) =
                  Conc.tagged_wire (Conc.c_trace c))
    by (rewrite tagged_wire_app; cbn [Conc.tagged_wire]; apply app_nil_r).
  destruct c as [st ow p1 p2 tr].
  destruct t; cbn [Conc.c_prog Conc.set_prog Conc.other Conc.c_prog1 Conc.c_prog2
                   Conc.c_state Conc.c_owner Conc.c_trace] in *.
  - split; [| split].
    + intros [|]; cbn [Conc.c_prog Conc.c_prog1 Conc.c_prog2];
        [exact I | exact (Hok Conc.T2)].
    + intros [|]; cbn [Conc.c_prog Conc.c_prog1 Conc.c_prog2 Conc.c_owner
                       Conc.set_owner mutex_eqb tx_phase]; split; intros Hx;
        try discriminate; congruence.
    + exists a, wa, wb. cbn [Conc.c_trace]. rewrite Hwire.
      destruct a; cbn [Conc.c_prog Conc.other Conc.c_prog1 Conc.c_prog2 tx_phase] in *.
      * rewrite Hpt in Hfirst. rewrite (first_locker_app_some _ _ _ _ Hfirst).
        repeat split; try assumption; try reflexivity; intros Hx; congruence.
      * assert (Hd : tx_phase p2 = After) by (apply Haft; congruence).
        rewrite Hd in *. rewrite (first_locker_app_some _ _ _ _ Hfirst).
        repeat split; try assumption; try reflexivity; intros Hx; congruence.
  - split; [| split].
    + intros [|]; cbn [Conc.c_prog Conc.c_prog1 Conc.c_prog2];
        [exact (Hok Conc.T1) | exact I].
    + intros [|]; cbn [Conc.c_prog Conc.c_prog1 Conc.c_prog2 Conc.c_owner
                       Conc.set_owner mutex_eqb tx_phase]; split; intros Hx;
        try discriminate; congruence.
    + exists a, wa, wb. cbn [Conc.c_trace]. rewrite Hwire.
      destruct a; cbn [Conc.c_prog Conc.other Conc.c_prog1 Conc.c_prog2 tx_phase] in *.
      * assert (Hd : tx_phase p1 = After) by (apply Haft; congruence).
        rewrite Hd in *. rewrite (first_locker_app_some _ _ _ _ Hfirst).
        repeat split; try assumption; try reflexivity; intros Hx; congruence.
      * rewrite Hpt in Hfirst. rewrite (first_locker_app_some _ _ _ _ Hfirst).
        repeat split; try assumption; try reflexivity; intros Hx; congruence.
Qed.

(** A caller inside its section executes an operation that is not on a
    mutex. *)
Lemma no_interleaving_plain (t : Conc.tid) (c : Conc.cstate D) (o : op)
      (k : Z -> prog unit) (st' : state D) (z : Z) (evs : list event) :
  no_interleaving c ->
  Conc.c_prog t c = Vis o k -> plain o -> (forall z, in_section (k z)) ->
  no_interleaving
    (Conc.set_prog t (k z) c st' (Conc.c_owner c)
       (Conc.c_trace c ++ map (pair t) evs)).
Proof.
  intros (Hok & Hown & a & wa & wb & Hw & Hb & Ha & Haft & Hfirst) Hp Ho Hk.
  assert (Hpt : tx_phase (Conc.c_prog t c) = Inside).
  { rewrite Hp. destruct o; try reflexivity; contradiction. }
  assert (Hin : tx_phase (k z) = Inside) by (apply in_section_phase, Hk).
  assert (Hwire : Conc.tagged_wire (Conc.c_trace c ++ map (pair t) evs) =
                  Conc.tagged_wire (Conc.c_trace c) ++ bytes_of t (wire evs))
    by (rewrite tagged_wire_app, tagged_wire_of; reflexivity).
  destruct c as [st ow p1 p2 tr].
  destruct t; cbn [Conc.c_prog Conc.set_prog Conc.other Conc.c_prog1 Conc.c_prog2
                   Conc.c_state Conc.c_owner Conc.c_trace] in *.
  - split; [| split].
    + intros [|]; cbn [Conc.c_prog Conc.c_prog1 Conc.c_prog2];
        [apply in_section_sender_ok, Hk | exact (Hok Conc.T2)].
    + intros [|]; cbn [Conc.c_prog Conc.c_prog1 Conc.c_prog2 Conc.c_owner].
      * rewrite Hin. rewrite (Hown Conc.T1). cbn [Conc.c_prog Conc.c_prog1].
        rewrite Hpt. tauto.
      * exact (Hown Conc.T2).
    + destruct a; cbn [Conc.c_prog Conc.other Conc.c_prog1 Conc.c_prog2] in *.
      * assert (Hq : tx_phase p2 = Before).
        { destruct (tx_phase p2) eqn:E; [reflexivity | |];
            (assert (Hx : tx_phase p1 = After) by (apply Haft; congruence); congruence). }
        rewrite (Hb Hq) in *.
        exists Conc.T1, (wa ++ wire evs), [].
        cbn [Conc.c_prog Conc.other Conc.c_prog1 Conc.c_prog2 Conc.c_trace].
        rewrite Hwire, Hw, Hin. rewrite Hpt in Hfirst.
        rewrite (first_locker_app_some _ _ _ _ Hfirst).
        rewrite bytes_of_app. cbn [bytes_of map]. rewrite !app_nil_r.
        repeat split; try reflexivity; intros Hx; congruence.
      * assert (Hd : tx_phase p2 = After) by (apply Haft; congruence).
        exists Conc.T2, wa, (wb ++ wire evs).
        cbn [Conc.c_prog Conc.other Conc.c_prog1 Conc.c_prog2 Conc.c_trace].
        rewrite Hwire, Hw, Hin, Hd. rewrite Hd in Hfirst.
        rewrite (first_locker_app_some _ _ _ _ Hfirst).
        rewrite bytes_of_app, app_assoc.
        repeat split; try reflexivity; intros Hx; congruence.
  - split; [| split].
    + intros [|]; cbn [Conc.c_prog Conc.c_prog1 Conc.c_prog2];
        [exact (Hok Conc.T1) | apply in_section_sender_ok, Hk].
    + intros [|]; cbn [Conc.c_prog Conc.c_prog1 Conc.c_prog2 Conc.c_owner].
      * exact (Hown Conc.T1).
      * rewrite Hin. rewrite (Hown Conc.T2). cbn [Conc.c_prog Conc.c_prog2].
        rewrite Hpt. tauto.
    + destruct a; cbn [Conc.c_prog Conc.other Conc.c_prog1 Conc.c_prog2] in *.
      * assert (Hd : tx_phase p1 = After) by (apply Haft; congruence).
        exists Conc.T1, wa, (wb ++ wire evs).
        cbn [Conc.c_prog Conc.other Conc.c_prog1 Conc.c_prog2 Conc.c_trace].
        rewrite Hwire, Hw, Hin, Hd. rewrite Hd in Hfirst.
        rewrite (first_locker_app_some _ _ _ _ Hfirst).
        rewrite bytes_of_app, app_assoc.
        repeat split; try reflexivity; intros Hx; congruence.
      * assert (Hq : tx_phase p1 = Before).
        { destruct (tx_phase p1) eqn:E; [reflexivity | |];
            (assert (Hx : tx_phase p2 = After) by (apply Haft; congruence); congruence). }
        rewrite (Hb Hq) in *.
        exists Conc.T2, (wa ++ wire evs), [].
        cbn [Conc.c_prog Conc.other Conc.c_prog1 Conc.c_prog2 Conc.c_trace].
        rewrite Hwire, Hw, Hin. rewrite Hpt in Hfirst.
        rewrite (first_locker_app_some _ _ _ _ Hfirst).
        rewrite bytes_of_app. cbn [bytes_of map]. rewrite !app_nil_r.
        repeat split; try reflexivity; intros Hx; congruence.
Qed.

End ConcInvariant.

Section ConcTheorem.
Context {D : Type} `{Device D}.

Lemma no_interleaving_step (t : Conc.tid) (c : Conc.cstate D) :
  no_interleaving c -> no_interleaving (Conc.step t c).
Proof.
  intros Hinv. unfold Conc.step.
  destruct (Conc.c_prog t c) as [u | o k] eqn:Hp; [exact Hinv |].
  pose proof (proj1 Hinv t) as Hok. rewrite Hp in Hok.
  assert (Hplain : plain o -> in_section (Vis o k) ->
                   forall z st' evs,
                     no_interleaving
                       (Conc.set_prog t (k z) c st' (Conc.c_owner c)
                          (Conc.c_trace c ++ map (pair t) evs))).
  { intros Ho Hs z st' evs.
    destruct (in_section_inv _ _ Hs) as [[Heq _] | [_ Hk]];
      [subst o; contradiction |].
    apply (no_interleaving_plain t c o k st' z evs Hinv Hp Ho Hk). }
  destruct o; cbn [sender_ok] in Hok;
    try (destruct (exec_op _ (Conc.c_state c)) as [[z st'] evs] eqn:He;
         apply Hplain; [exact I | exact Hok]).
  - (* mutex_lock *)
    destruct m.
    + destruct (in_section_inv _ _ Hok) as [[Heq _] | [Ho _]];
        [discriminate | contradiction].
    + destruct (Conc.c_owner c uart_tx_mutex) eqn:Hown; [exact Hinv |].
      apply no_interleaving_acquire; assumption.
    + destruct (in_section_inv _ _ Hok) as [[Heq _] | [Ho _]];
        [discriminate | contradiction].
  - (* mutex_unlock *)
    destruct (in_section_inv _ _ Hok) as [[Heq Hk] | [Ho _]]; [| contradiction].
    injection Heq as ->.
    apply no_interleaving_release; assumption.
Qed.

Lemma no_interleaving_schedule (sched : list Conc.tid) (c : Conc.cstate D) :
  no_interleaving c -> no_interleaving (Conc.run_schedule sched c).
Proof.
  revert c. induction sched as [| t sched IH]; intros c Hc; [exact Hc |].
  cbn [Conc.run_schedule fold_left]. apply IH, no_interleaving_step, Hc.
Qed.

(** C9: whatever the interleaving of two calls of [uart_send_string], at
    every point of the execution the bytes written to [MU_IO] so far are
    bytes of one caller followed by bytes of the other, and the caller
    whose bytes come first is the one that took the transmit mutex first. *)
Theorem send_string_never_interleaves (st : state D) (s1 s2 : list ascii)
        (sched : list Conc.tid) :
  let c := Conc.run_schedule sched
             (Conc.start st (uart_send_string s1) (uart_send_string s2)) in
  exists a wa wb,
    Conc.tagged_wire (Conc.c_trace c) = bytes_of a wa ++ bytes_of (Conc.other a) wb /\
    (wa <> [] \/ wb <> [] ->
     Conc.first_locker uart_tx_mutex (Conc.c_trace c) = Some a).
Proof.
  intros c.
  pose proof (no_interleaving_schedule sched _ (no_interleaving_start st s1 s2)) as Hinv.
  fold c in Hinv.
  destruct Hinv as (_ & _ & a & wa & wb & Hw & Hb & Ha & Haft & Hfirst).
  exists a, wa, wb. split; [exact Hw |].
  intros Hne.
  assert (Hnb : tx_phase (Conc.c_prog a c) <> Before).
  { destruct Hne as [Hne | Hne].
    - intros Hx. apply Hne, Ha, Hx.
    - intros Hx. assert (Hy : tx_phase (Conc.c_prog (Conc.other a) c) <> Before)
        by (intros Hy; apply Hne, Hb, Hy).
      rewrite (Haft Hy) in Hx. discriminate. }
  rewrite Hfirst. destruct (tx_phase (Conc.c_prog a c)); [congruence | |]; reflexivity.
Qed.

End ConcTheorem.

(** Two callers scheduled in turn on the simulated device: the second waits
    for the mutex; both return, and the wire carries the first caller's
    bytes, then the second's. *)
Example two_senders_example :
  let c := Conc.run_schedule
             (concat (repeat [Conc.T1; Conc.T2] 20))
             (Conc.start (sim_state initial_config zero_stats (sim_with_rx []))
                         (uart_send_string (chars "ab"))
                         (uart_send_string (chars "cd"))) in
  Conc.finished c = true /\
  Conc.tagged_wire (Conc.c_trace c) =
    [(Conc.T1, 97); (Conc.T1, 98); (Conc.T2, 99); (Conc.T2, 100)] /\
  Conc.first_locker uart_tx_mutex (Conc.c_trace c) = Some Conc.T1.
Proof. vm_compute. repeat split; reflexivity. Qed.

Lemma send_string_never_interleaves_witness :
  let c := Conc.run_schedule
             (concat (repeat [Conc.T1; Conc.T2] 20))
             (Conc.start (sim_state initial_config zero_stats (sim_with_rx []))
                         (uart_send_string (chars "ab"))
                         (uart_send_string (chars "cd"))) in
  exists a wa wb,
    Conc.tagged_wire (Conc.c_trace c) = bytes_of a wa ++ bytes_of (Conc.other a) wb /\
    (wa <> [] \/ wb <> [] ->
     Conc.first_locker uart_tx_mutex (Conc.c_trace c) = Some a).
Proof.
  exact (send_string_never_interleaves
           (sim_state initial_config zero_stats (sim_with_rx []))
           (chars "ab") (chars "cd") (concat (repeat [Conc.T1; Conc.T2] 20))).
Defined.

(* ================================================================== *)
(** * Further properties of the driver *)

(* ------------------------------------------------------------------ *)
(** ** What each call executes *)

Section Footprints.
Context {D : Type} `{Device D}.

Lemma executed_bind {A B : Type} (p : prog A) (f : A -> prog B) (s : state D) :
  executed (bind p f) s =
  let '(a, s1, _) := run p s in executed p s ++ executed (f a) s1.
Proof.
  revert s. induction p as [a | o k IH]; intros s; cbn [bind executed run].
  - reflexivity.
  - destruct (exec_op o s) as [[z s1] t1]. rewrite IH.
    destruct (run (k z) s1) as [[a s2] t2]. reflexivity.
Qed.

Lemma uses_bind {A B : Type} (allowed : op -> bool) (p : prog A) (f : A -> prog B) :
  uses_only allowed p -> (forall a, uses_only allowed (f a)) ->
  uses_only allowed (bind p f).
Proof.
  intros Hp Hf. induction Hp as [a | o k Ho Hk IH]; cbn [bind].
  - apply Hf.
  - apply uses_vis; [exact Ho | exact IH].
Qed.

Lemma uses_call (allowed : op -> bool) (o : op) :
  allowed o = true -> uses_only allowed (call o).
Proof. intros Ho. apply uses_vis; [exact Ho | intros z; apply uses_ret]. Qed.

Lemma uses_executed {A : Type} (allowed : op -> bool) (p : prog A) :
  uses_only allowed p -> forall s : state D, forallb allowed (executed p s) = true.
Proof.
  intros Hp. induction Hp as [a | o k Ho Hk IH]; intros s; cbn [executed].
  - reflexivity.
  - destruct (exec_op o s) as [[z s1] t1]. cbn [forallb]. now rewrite Ho, IH.
Qed.

End Footprints.

Ltac uses_step :=
  first
    [ match goal with Hc : uses_only ?a ?p |- uses_only ?a ?p => exact Hc end
    | match goal with
      | |- uses_only _ (Ret _) => apply uses_ret
      | |- uses_only _ (call _) => apply uses_call; reflexivity
      | |- uses_only _ (if ?b then _ else _) => destruct b
      | |- uses_only _ (match ?x with _ => _ end) => destruct x
      | |- uses_only _ (bind _ _) => apply uses_bind; [| intros ?]
      end ].

Ltac uses := repeat uses_step.

Lemma uses_stat_incr (allowed : op -> bool) (f : stat_field) :
  allowed (LoadStat f) = true -> (forall v, allowed (StoreStat f v) = true) ->
  uses_only allowed (stat_incr f).
Proof.
  intros Hl Hs. unfold stat_incr.
  apply uses_bind; [apply uses_call; exact Hl | intros v].
  apply uses_bind; [apply uses_call; apply Hs | intros _; apply uses_ret].
Qed.

Lemma uses_mono {A : Type} (a a' : op -> bool) (p : prog A) :
  (forall o, a o = true -> a' o = true) -> uses_only a p -> uses_only a' p.
Proof.
  intros Hm Hp. induction Hp as [x | o k Ho Hk IH].
  - apply uses_ret.
  - apply uses_vis; [apply Hm, Ho | exact IH].
Qed.

Lemma without_locks_sub (a : op -> bool) (o : op) :
  without_locks a o = true -> a o = true.
Proof. unfold without_locks. intros Ho. apply andb_true_iff in Ho. apply Ho. Qed.

Lemma uses_tx_wait (n : nat) : uses_only (without_locks tx_footprint) (tx_wait n).
Proof. induction n; cbn [tx_wait]; uses. Qed.

Lemma uses_send_char_body (c : ascii) :
  uses_only (without_locks tx_footprint) (send_char_body c).
Proof.
  pose proof (uses_tx_wait 10000) as Hw.
  pose proof (uses_stat_incr (without_locks tx_footprint) TxErrors eq_refl
                (fun _ => eq_refl)) as He.
  pose proof (uses_stat_incr (without_locks tx_footprint) TxBytes eq_refl
                (fun _ => eq_refl)) as Hb.
  unfold send_char_body. uses.
Qed.

Lemma uses_send_char (c : ascii) :
  uses_only (without_locks tx_footprint) (uart_send_char c).
Proof.
  rewrite uart_send_char_unfold. apply uses_bind; [| intros _; apply uses_send_char_body].
  destruct (Ascii.eqb c LF); [| apply uses_ret].
  rewrite uart_send_char_unfold. apply uses_bind; [| intros _; apply uses_send_char_body].
  change (Ascii.eqb CR LF) with false. apply uses_ret.
Qed.

Lemma uses_send_string_loop (s : list ascii) :
  uses_only (without_locks tx_footprint) (send_string_loop s).
Proof.
  induction s as [| c s IH]; cbn [send_string_loop]; [apply uses_ret |].
  pose proof (uses_send_char c) as Hc. pose proof (uses_send_char CR) as Hcr.
  uses.
Qed.

Lemma uses_send_string (s : list ascii) : uses_only tx_footprint (uart_send_string s).
Proof.
  pose proof (uses_mono _ tx_footprint _ (without_locks_sub tx_footprint)
                (uses_send_string_loop s)) as Hl.
  unfold uart_send_string. uses.
Qed.

Lemma uses_proc_write (buf : option (list ascii)) (count : Z) :
  uses_only tx_footprint (uart_proc_write buf count).
Proof.
  pose proof (uses_stat_incr tx_footprint TxErrors eq_refl (fun _ => eq_refl)) as He.
  unfold uart_proc_write.
  destruct (copy_from_user buf (Z.min count KBUF_LIMIT)) as [kbuf |].
  - pose proof (uses_send_string (kbuf ++ [NUL])). uses.
  - uses.
Qed.

Lemma uses_data_available (allowed : op -> bool) :
  allowed (Readl MU_LSR) = true -> uses_only allowed uart_data_available.
Proof.
  intros Hl. unfold uart_data_available.
  apply uses_bind; [apply uses_call; exact Hl | intros v; apply uses_ret].
Qed.

Lemma uses_receive_char : uses_only (without_locks rx_footprint) uart_receive_char.
Proof.
  pose proof (uses_data_available (without_locks rx_footprint) eq_refl) as Ha.
  pose proof (uses_stat_incr (without_locks rx_footprint) RxBytes eq_refl
                (fun _ => eq_refl)) as Hb.
  pose proof (uses_stat_incr (without_locks rx_footprint) FifoOverruns eq_refl
                (fun _ => eq_refl)) as Ho.
  unfold uart_receive_char, uart_check_rx_errors. uses.
Qed.

Lemma uses_rx_first_wait (n : nat) :
  uses_only (without_locks rx_footprint) (rx_first_wait n).
Proof.
  pose proof (uses_data_available (without_locks rx_footprint) eq_refl) as Ha.
  induction n; cbn [rx_first_wait]; uses.
Qed.

Lemma uses_rx_inner (fuel : nat) :
  forall count kbuf nd,
    uses_only (without_locks rx_footprint) (rx_inner fuel count kbuf nd).
Proof.
  pose proof (uses_data_available (without_locks rx_footprint) eq_refl) as Ha.
  pose proof uses_receive_char as Hc.
  induction fuel as [| fuel IH]; intros count kbuf nd; cbn [rx_inner];
    [apply uses_ret |].
  apply uses_bind; [exact Ha | intros avail].
  destruct (negb (avail =? 0) && (Z.of_nat (length kbuf) <? KBUF_LIMIT) &&
            (Z.of_nat (length kbuf) <? count)); [| apply uses_ret].
  apply uses_bind; [exact Hc | intros c].
  destruct (negb (Ascii.eqb c NUL)); apply IH.
Qed.

Lemma uses_rx_outer (fuel : nat) :
  forall count kbuf nd,
    uses_only (without_locks rx_footprint) (rx_outer fuel count kbuf nd).
Proof.
  pose proof (uses_data_available (without_locks rx_footprint) eq_refl) as Ha.
  induction fuel as [| fuel IH]; intros count kbuf nd; cbn [rx_outer];
    [apply uses_ret |].
  destruct ((Z.of_nat (length kbuf) <? KBUF_LIMIT) &&
            (Z.of_nat (length kbuf) <? count)); [| apply uses_ret].
  apply uses_bind; [apply uses_rx_inner | intros [[k1 nd1] |]];
    [| apply uses_ret].
  rewrite nonneg_branch by lia.
  apply uses_bind; [exact Ha | intros avail].
  destruct (avail =? 0); [| apply IH].
  apply uses_bind; [unfold rx_idle; uses | intros [nd2 brk]].
  cbn [fst snd]. destruct brk; [apply uses_ret | apply IH].
Qed.

Lemma uses_proc_read (fuel : nat) (user_ok : bool) (count ppos : Z) :
  uses_only rx_footprint (uart_proc_read fuel user_ok count ppos).
Proof.
  pose proof (uses_mono _ rx_footprint _ (without_locks_sub rx_footprint)
                (uses_rx_first_wait 1000)) as Hw.
  pose proof (uses_mono _ rx_footprint _ (without_locks_sub rx_footprint)
                (uses_rx_outer fuel count [] 0)) as Ho.
  pose proof (uses_stat_incr rx_footprint RxErrors eq_refl (fun _ => eq_refl)) as He.
  unfold uart_proc_read. uses.
Qed.

Lemma uses_clear_fifos (allowed : op -> bool) :
  (forall v, allowed (Writel v MU_IIR) = true) ->
  allowed (Usleep 100 150) = true ->
  uses_only allowed uart_clear_fifos.
Proof.
  intros Hw Hs. unfold uart_clear_fifos.
  apply uses_bind; [apply uses_call, Hw | intros _].
  apply uses_bind; [apply uses_call, Hw | intros _].
  apply uses_bind; [apply uses_call, Hs | intros _; apply uses_ret].
Qed.

Lemma uses_apply_config : uses_only config_write_footprint uart_apply_config.
Proof.
  pose proof (uses_clear_fifos config_write_footprint (fun _ => eq_refl)
                eq_refl) as Hc.
  unfold uart_apply_config, calculate_baud_register. uses.
Qed.

Lemma uses_config_write (buf : option (list ascii)) (count : Z) :
  uses_only config_write_footprint (uart_config_write buf count).
Proof.
  pose proof uses_apply_config as Ha.
  pose proof (uses_clear_fifos config_write_footprint (fun _ => eq_refl)
                eq_refl) as Hc.
  unfold uart_config_write.
  destruct (copy_from_user buf (Z.min count 127)) as [bytes |]; [| apply uses_ret].
  cbv zeta.
  destruct (sscanf_baud (bytes ++ [NUL])) as [v |].
  - destruct (negb (v =? BAUD_9600) && negb (v =? BAUD_19200) &&
              negb (v =? BAUD_38400) && negb (v =? BAUD_57600) &&
              negb (v =? BAUD_115200)); [apply uses_ret |].
    apply uses_bind; [apply uses_call; reflexivity | intros _].
    apply uses_bind; [exact Ha | intros r].
    destruct (negb (r =? 0)); apply uses_ret.
  - destruct (strncmp (bytes ++ [NUL]) (chars "bits=8") 6 =? 0).
    { apply uses_bind; [apply uses_call; reflexivity | intros _].
      apply uses_bind; [exact Ha | intros r].
      destruct (negb (r =? 0)); apply uses_ret. }
    destruct (strncmp (bytes ++ [NUL]) (chars "bits=7") 6 =? 0).
    { apply uses_bind; [apply uses_call; reflexivity | intros _].
      apply uses_bind; [exact Ha | intros r].
      destruct (negb (r =? 0)); apply uses_ret. }
    destruct (strncmp (bytes ++ [NUL]) (chars "clear_fifo") 10 =? 0).
    { apply uses_bind; [exact Hc | intros _]. apply uses_ret. }
    destruct (strncmp (bytes ++ [NUL]) (chars "reset_stats") 11 =? 0).
    { apply uses_bind; [apply uses_call; reflexivity | intros _]. apply uses_ret. }
    apply uses_ret.
Qed.

Lemma uses_init_hardware : uses_only init_hardware_footprint uart_init_hardware.
Proof.
  pose proof (uses_clear_fifos init_hardware_footprint (fun _ => eq_refl)
                eq_refl) as Hc.
  unfold uart_init_hardware, calculate_baud_register. uses.
Qed.

Lemma uses_delay_cycles (allowed : op -> bool) (n : nat) :
  allowed CpuRelax = true -> uses_only allowed (delay_cycles n).
Proof.
  intros Hr. induction n as [| n IH]; cbn [delay_cycles]; [apply uses_ret |].
  apply uses_bind; [apply uses_call; exact Hr | intros _; exact IH].
Qed.

Lemma uses_init_gpio : uses_only init_gpio_footprint uart_init_gpio.
Proof.
  unfold uart_init_gpio.
  apply uses_bind; [apply uses_call; reflexivity | intros v1]. cbv zeta.
  apply uses_bind; [apply uses_call; reflexivity | intros _].
  apply uses_bind; [apply uses_call; reflexivity | intros v2]. cbv zeta.
  apply uses_bind; [apply uses_call; reflexivity | intros _].
  apply uses_delay_cycles. reflexivity.
Qed.

Lemma uses_operation (o : operation) : uses_only (footprint o) (operation_prog o).
Proof.
  destruct o; cbn [operation_prog footprint].
  - apply uses_bind; [apply uses_proc_write | intros _; apply uses_ret].
  - apply uses_bind; [apply uses_proc_read | intros _; apply uses_ret].
  - apply uses_bind; [| intros _; apply uses_ret].
    unfold uart_config_read. uses.
  - apply uses_bind; [apply uses_config_write | intros _; apply uses_ret].
  - apply uses_bind; [| intros _; apply uses_ret].
    unfold uart_status_read. uses.
  - apply uses_bind; [| intros _; apply uses_ret].
    unfold uart_stats_read. uses.
  - apply uses_init_gpio.
  - apply uses_bind; [apply uses_init_hardware | intros _; apply uses_ret].
  - apply uses_send_string.
Qed.

(** X20: the primitives each call executes, on any device and from any
    state, are within its footprint.  So the transmit path reads only the
    status register, writes only [MU_IO] and touches only the two transmit
    counters; the receive path writes no register; reading the config and
    stats files touches no register and takes no mutex; reading the status
    file reads [MU_LSR] and [MU_STAT] and nothing else; the commands of the
    config file write only the control, FIFO, format and divisor registers
    and never store [system_clock]. *)
Theorem operation_footprint {D : Type} `{Device D} (o : operation) (s : state D) :
  forallb (footprint o) (executed (operation_prog o) s) = true.
Proof. apply uses_executed, uses_operation. Qed.
(* ------------------------------------------------------------------ *)
(** ** The divisor and the rate it gives *)

Lemma baud_register_quotient (c b v : Z) :
  is_u32 c -> is_u32 b -> baud_register c b = BaudReg v ->
  1 <= b /\ v = c / (8 * b) - 1 /\ 0 <= v <= 65535 /\
  8 * b * (v + 1) <= c < 8 * b * (v + 2).
Proof.
  intros Hc Hb Hv. rewrite (baud_register_exact c b Hc Hb) in Hv.
  destruct ((b =? 0) || (b >? c / 8)) eqn:E; [discriminate |].
  apply orb_false_iff in E. destruct E as [E0 E8].
  apply Z.eqb_neq in E0.
  assert (Hle : b <= c / 8) by (destruct (Z.gtb_spec b (c / 8)); [discriminate | lia]).
  unfold is_u32 in *.
  assert (H8 : 8 * b <= c).
  { pose proof (Z.mul_div_le c 8 ltac:(lia)). lia. }
  destruct (Z.gtb_spec (c / (8 * b) - 1) 65535) as [Hgt | Hle2]; [discriminate |].
  assert (Hveq : v = c / (8 * b) - 1) by congruence.
  clear Hv. subst v.
  assert (Hq1 : 1 <= c / (8 * b)) by (apply Z.div_le_lower_bound; lia).
  pose proof (Z.mul_div_le c (8 * b) ltac:(lia)) as Hlo.
  pose proof (Z.mul_succ_div_gt c (8 * b) ltac:(lia)) as Hhi.
  replace (c / (8 * b) - 1 + 1) with (c / (8 * b)) by lia.
  replace (c / (8 * b) - 1 + 2) with (Z.succ (c / (8 * b))) by lia.
  split; [lia |]. split; [reflexivity |]. split; [lia |]. split; [exact Hlo | exact Hhi].
Qed.

(** X1: when [calculate_baud_register] succeeds with the value [v], the
    rate the hardware derives from it, [clock / (8 * (v + 1))], is not
    below the rate asked for, and [v] is the largest register value with
    that property (the next one gives a rate below it); a higher rate
    never gets a larger register value. *)
Theorem baud_register_brackets (c b v : Z) :
  is_u32 c -> is_u32 b -> baud_register c b = BaudReg v ->
  0 <= v <= 65535 /\
  b <= c / (8 * (v + 1)) /\
  c / (8 * (v + 2)) < b /\
  forall b' v', is_u32 b' -> b <= b' -> baud_register c b' = BaudReg v' -> v' <= v.
Proof.
  intros Hc Hb Hv.
  destruct (baud_register_quotient c b v Hc Hb Hv) as (Hb1 & Heq & Hr & Hlo & Hhi).
  split; [exact Hr |]. split; [| split].
  - apply Z.div_le_lower_bound; lia.
  - apply Z.div_lt_upper_bound; lia.
  - intros b' v' Hb' Hle Hv'.
    destruct (baud_register_quotient c b' v' Hc Hb' Hv') as (_ & _ & Hr' & Hlo' & _).
    destruct (Z.le_gt_cases v' v) as [Hok | Hgt]; [exact Hok | exfalso].
    assert (8 * b * (v + 2) <= 8 * b' * (v' + 1)) by nia.
    lia.
Qed.

Lemma baud_register_brackets_witness :
  is_u32 500000000 /\ is_u32 115200 /\
  baud_register 500000000 115200 = BaudReg 541 /\
  0 <= 541 <= 65535 /\
  115200 <= 500000000 / (8 * (541 + 1)) /\
  500000000 / (8 * (541 + 2)) < 115200.
Proof.
  assert (H1 : is_u32 500000000) by (unfold is_u32; lia).
  assert (H2 : is_u32 115200) by (unfold is_u32; lia).
  assert (H3 : baud_register 500000000 115200 = BaudReg 541) by reflexivity.
  split; [exact H1 |]. split; [exact H2 |]. split; [exact H3 |].
  destruct (baud_register_brackets 500000000 115200 541 H1 H2 H3) as (A & B & C & _).
  split; [exact A |]. split; [exact B | exact C].
Defined.

Lemma shipped_clock_classes (b : Z) :
  is_u32 b ->
  baud_register 500000000 b =
  if (b =? 0) || (b >? 62500000) then BaudErr InvalidBaudRate
  else if b <=? 953 then BaudErr BaudOverflow
  else BaudReg (500000000 / (8 * b) - 1).
Proof.
  intros Hb.
  assert (Hc : is_u32 500000000) by (unfold is_u32; lia).
  rewrite (baud_register_exact _ b Hc Hb).
  change (500000000 / 8) with 62500000.
  unfold is_u32 in Hb.
  destruct ((b =? 0) || (b >? 62500000)) eqn:E; [reflexivity |].
  apply orb_false_iff in E. destruct E as [E0 E8].
  apply Z.eqb_neq in E0.
  assert (Hpos : 0 < 8 * b) by lia.
  pose proof (Z.mul_div_le 500000000 (8 * b) Hpos) as Hlo.
  pose proof (Z.mul_succ_div_gt 500000000 (8 * b) Hpos) as Hhi.
  destruct (Z.gtb_spec (500000000 / (8 * b) - 1) 65535) as [Hov | Hfit];
    destruct (Z.leb_spec b 953) as [Hs | Hl]; try reflexivity; exfalso; nia.
Qed.

(** X2: with the clock the driver is built with (500 MHz),
    [calculate_baud_register] accepts exactly the rates from 954 to
    62500000: below 954 (and above 0) the divisor does not fit 16 bits,
    and 0 or a rate above 62500000 is refused as invalid. *)
Theorem shipped_clock_rates (b : Z) :
  is_u32 b ->
  ((exists v, baud_register (system_clock initial_config) b = BaudReg v) <->
   954 <= b <= 62500000) /\
  (baud_register (system_clock initial_config) b = BaudErr BaudOverflow <->
   1 <= b <= 953) /\
  (baud_register (system_clock initial_config) b = BaudErr InvalidBaudRate <->
   b = 0 \/ 62500000 < b).
Proof.
  intros Hb. cbn [system_clock initial_config].
  rewrite (shipped_clock_classes b Hb). unfold is_u32 in Hb.
  destruct (Z.eqb_spec b 0) as [H0 | H0];
    destruct (Z.gtb_spec b 62500000) as [H1 | H1];
    destruct (Z.leb_spec b 953) as [H2 | H2]; cbn [orb];
    (split; [| split]); split; intros Hx;
    try discriminate; try lia; try reflexivity;
    try (destruct Hx as [v Hv]; discriminate);
    try (eexists; reflexivity).
Qed.

Lemma shipped_clock_rates_witness :
  is_u32 953 /\
  (baud_register (system_clock initial_config) 953 = BaudErr BaudOverflow <->
   1 <= 953 <= 953).
Proof.
  assert (H1 : is_u32 953) by (unfold is_u32; lia).
  split; [exact H1 |].
  destruct (shipped_clock_rates 953 H1) as (_ & W & _). exact W.
Defined.
(* ------------------------------------------------------------------ *)
(** ** The commands of the config file, by their first characters *)

Lemma starts_with_app (lit s : list ascii) :
  starts_with lit s = true -> s = lit ++ skipn (length lit) s.
Proof.
  revert s. induction lit as [| l lit IH]; intros s Hs; [reflexivity |].
  destruct s as [| c s]; [discriminate |].
  cbn [starts_with] in Hs. apply andb_true_iff in Hs. destruct Hs as [Hc Hs].
  apply Ascii.eqb_eq in Hc. subst c. cbn [length skipn app]. f_equal. apply IH, Hs.
Qed.

Lemma starts_with_prefix (lit rest : list ascii) : starts_with lit (lit ++ rest) = true.
Proof.
  induction lit as [| l lit IH]; [reflexivity |].
  cbn [app starts_with]. now rewrite Ascii.eqb_refl, IH.
Qed.

(** A NUL-free literal begins a buffer exactly when it begins the buffer
    followed by its terminator. *)
Lemma starts_with_terminated (lit bytes : list ascii) :
  forallb not_nul lit = true ->
  starts_with lit (bytes ++ [NUL]) = starts_with lit bytes.
Proof.
  revert bytes. induction lit as [| l lit IH]; intros bytes Hl; [reflexivity |].
  cbn [forallb] in Hl. apply andb_true_iff in Hl. destruct Hl as [Hn Hl].
  destruct bytes as [| c bytes]; cbn [app starts_with].
  - unfold not_nul in Hn. destruct (Ascii.eqb l NUL); [discriminate | reflexivity].
  - now rewrite IH.
Qed.

(** [strncmp(kbuf, lit, strlen(lit)) == 0] says that [kbuf] begins with
    [lit]. *)
Lemma strncmp_starts_with (lit cs : list ascii) :
  forallb not_nul lit = true ->
  (strncmp cs lit (length lit) =? 0) = starts_with lit cs.
Proof.
  revert cs. induction lit as [| l lit IH]; intros cs Hl; [reflexivity |].
  cbn [forallb] in Hl. apply andb_true_iff in Hl. destruct Hl as [Hn Hl].
  unfold not_nul in Hn. apply negb_true_iff in Hn.
  cbn [length strncmp hd starts_with].
  destruct cs as [| c cs]; cbn [hd tl].
  - rewrite (Ascii.eqb_sym NUL l), Hn. cbn [negb].
    destruct (N_of_ascii NUL <? N_of_ascii l)%N; reflexivity.
  - rewrite (Ascii.eqb_sym c l).
    destruct (Ascii.eqb l c) eqn:E; cbn [negb andb].
    + apply Ascii.eqb_eq in E. subst c. rewrite Hn. apply IH, Hl.
    + destruct (N_of_ascii c <? N_of_ascii l)%N; reflexivity.
Qed.

Lemma match_literal_starts_with (lit s : list ascii) :
  starts_with lit s = false -> match_literal lit s = None.
Proof.
  revert s. induction lit as [| l lit IH]; intros s Hs; [discriminate |].
  destruct s as [| c s]; [reflexivity |].
  cbn [starts_with match_literal] in *.
  destruct (Ascii.eqb l c); [apply IH, Hs | reflexivity].
Qed.

Lemma starts_with_c_str (lit s : list ascii) :
  forallb not_nul lit = true ->
  starts_with lit (c_str s) = starts_with lit s.
Proof.
  revert s. induction lit as [| l lit IH]; intros s Hl; [reflexivity |].
  cbn [forallb] in Hl. apply andb_true_iff in Hl. destruct Hl as [Hn Hl].
  unfold not_nul in Hn. apply negb_true_iff in Hn.
  destruct s as [| c s]; [reflexivity |].
  cbn [c_str]. destruct (Ascii.eqb c NUL) eqn:Ec; cbn [starts_with].
  - apply Ascii.eqb_eq in Ec. subst c. now rewrite Hn.
  - now rewrite IH.
Qed.

(** A buffer that does not begin with ["baud="] is not a rate command. *)
Lemma sscanf_baud_needs_prefix (bytes : list ascii) :
  starts_with (chars "baud=") bytes = false -> sscanf_baud (bytes ++ [NUL]) = None.
Proof.
  intros Hs. unfold sscanf_baud.
  rewrite match_literal_starts_with; [reflexivity |].
  rewrite starts_with_c_str, starts_with_terminated by reflexivity. exact Hs.
Qed.

Section ConfigCommands.
Context {D : Type} `{Device D}.

Lemma baud_register_u32 (c b v : Z) : baud_register c b = BaudReg v -> u32 v = v.
Proof.
  unfold baud_register.
  destruct ((b =? 0) || (b >? c / 8)); [discriminate |].
  set (res := u32 (c / u32 (8 * b) - 1)).
  destruct (res >? 65535); [discriminate |].
  intros Hv. injection Hv as <-. apply u32_small.
  unfold u16. change (2 ^ 16) with 65536. change (2 ^ 32) with 4294967296.
  pose proof (Z.mod_pos_bound res 65536 ltac:(lia)).
  lia.
Qed.

(** A successful [uart_apply_config]: the transmitter and receiver are
    disabled, the FIFOs cleared, the format and the divisor written, both
    re-enabled, all under the config mutex. *)
Lemma run_apply_config_ok (s : state D) (v : Z) :
  baud_register (system_clock (st_config s)) (baudrate (st_config s)) = BaudReg v ->
  let '(r, s', t) := run uart_apply_config s in
  r = 0 /\ st_config s' = st_config s /\ st_stats s' = st_stats s /\
  t = [EvLock uart_config_mutex; EvWrite 0 MU_CNTL; EvWrite 2 MU_IIR;
       EvWrite 4 MU_IIR; EvSleep 100 150;
       EvWrite (u32 (data_bits (st_config s))) MU_LCR; EvWrite v MU_BAUD;
       EvWrite 3 MU_CNTL; EvWmb; EvUnlock uart_config_mutex].
Proof.
  intros Hv. unfold uart_apply_config, calculate_baud_register, uart_clear_fifos.
  cbn [bind call run exec_op get_cfg st_config st_stats st_dev]. rewrite Hv.
  cbn [bind call run exec_op get_cfg st_config st_stats st_dev app].
  rewrite (baud_register_u32 _ _ _ Hv).
  repeat split; reflexivity.
Qed.

End ConfigCommands.

Lemma c_str_app_not_nul (l r : list ascii) :
  forallb not_nul l = true -> c_str (l ++ r) = l ++ c_str r.
Proof.
  induction l as [| c l IH]; intros Hl; [reflexivity |].
  cbn [forallb] in Hl. apply andb_true_iff in Hl. destruct Hl as [Hc Hl].
  cbn [app c_str]. unfold not_nul in Hc.
  destruct (Ascii.eqb c NUL); [discriminate |]. now rewrite IH.
Qed.







(** The test [strncmp(kbuf, kw, n) == 0] of [uart_config_write], [n] being
    the length of the keyword. *)
Lemma keyword_test (bytes kw : list ascii) (n : nat) :
  forallb not_nul kw = true -> n = length kw ->
  (strncmp (bytes ++ [NUL]) kw n =? 0) = starts_with kw bytes.
Proof.
  intros Hkw ->. rewrite strncmp_starts_with by exact Hkw.
  apply starts_with_terminated, Hkw.
Qed.

Section ConfigCommandTheorems.
Context {D : Type} `{Device D}.



(** X4: a write that begins with [bits=8] (resp. [bits=7]), whatever
    follows, when the divisor for the current rate can be computed, returns
    [count], stores [DATA_BITS_8] = 3 (resp. [DATA_BITS_7] = 0) as the
    format and reprograms the device with it, as a rate command does. *)
Theorem config_write_bits_applies (buf : option (list ascii)) (count : Z)
        (bytes : list ascii) (eight : bool) (v : Z) (s : state D) :
  copy_from_user buf (Z.min count 127) = Some bytes ->
  starts_with (chars (if eight then "bits=8" else "bits=7")) bytes = true ->
  baud_register (system_clock (st_config s)) (baudrate (st_config s)) = BaudReg v ->
  let bits := if eight then DATA_BITS_8 else DATA_BITS_7 in
  let '(r, s', t) := run (uart_config_write buf count) s in
  r = count /\
  st_config s' = set_cfg DataBits bits (st_config s) /\
  st_stats s' = st_stats s /\
  t = [EvLock uart_config_mutex; EvWrite 0 MU_CNTL; EvWrite 2 MU_IIR;
       EvWrite 4 MU_IIR; EvSleep 100 150;
       EvWrite bits MU_LCR; EvWrite v MU_BAUD;
       EvWrite 3 MU_CNTL; EvWmb; EvUnlock uart_config_mutex].
Proof.
  intros Hcopy Hs Hv bits.
  assert (Hscan : sscanf_baud (bytes ++ [NUL]) = None).
  { apply sscanf_baud_needs_prefix.
    rewrite (starts_with_app _ bytes Hs). destruct eight; reflexivity. }
  assert (H8 : (strncmp (bytes ++ [NUL]) (chars "bits=8") 6 =? 0) = eight).
  { rewrite (keyword_test bytes (chars "bits=8") 6 eq_refl eq_refl).
    destruct eight; [exact Hs |].
    rewrite (starts_with_app _ bytes Hs). reflexivity. }
  assert (H7 : eight = false ->
               (strncmp (bytes ++ [NUL]) (chars "bits=7") 6 =? 0) = true).
  { intros ->. rewrite (keyword_test bytes (chars "bits=7") 6 eq_refl eq_refl).
    exact Hs. }
  set (s1 := mk_state (set_cfg DataBits bits (st_config s)) (st_stats s) (st_dev s)).
  pose proof (run_apply_config_ok s1 v Hv) as Ha.
  assert (Hb : u32 (data_bits (st_config s1)) = bits) by (destruct eight; reflexivity).
  rewrite Hb in Ha.
  unfold uart_config_write. rewrite Hcopy, Hscan, H8.
  destruct eight.
  - cbn [bind call run exec_op]. change (u32 DATA_BITS_8) with bits.
    fold s1. rewrite run_bind.
    destruct (run uart_apply_config s1) as [[r s'] t].
    destruct Ha as (-> & Hc & Hst & ->).
    cbn [Z.eqb negb run app]. repeat split; assumption || reflexivity.
  - rewrite (H7 eq_refl).
    cbn [bind call run exec_op]. change (u32 DATA_BITS_7) with bits.
    fold s1. rewrite run_bind.
    destruct (run uart_apply_config s1) as [[r s'] t].
    destruct Ha as (-> & Hc & Hst & ->).
    cbn [Z.eqb negb run app]. repeat split; assumption || reflexivity.
Qed.

(** X6: a write that begins with [clear_fifo], whatever follows, returns
    [count] after writing 2 and then 4 to [MU_IIR] and sleeping once; it
    takes no mutex and changes neither the configuration nor the
    statistics. *)
Theorem config_write_clear_fifo (buf : option (list ascii)) (count : Z)
        (bytes : list ascii) (s : state D) :
  copy_from_user buf (Z.min count 127) = Some bytes ->
  starts_with (chars "clear_fifo") bytes = true ->
  run (uart_config_write buf count) s =
  (count,
   mk_state (st_config s) (st_stats s)
     (dev_sleep 100 150 (dev_writel 4 MU_IIR (dev_writel 2 MU_IIR (st_dev s)))),
   [EvWrite 2 MU_IIR; EvWrite 4 MU_IIR; EvSleep 100 150]).
Proof.
  intros Hcopy Hs.
  assert (Hscan : sscanf_baud (bytes ++ [NUL]) = None).
  { apply sscanf_baud_needs_prefix.
    rewrite (starts_with_app _ bytes Hs). reflexivity. }
  unfold uart_config_write. rewrite Hcopy, Hscan.
  rewrite (keyword_test bytes (chars "bits=8") 6 eq_refl eq_refl),
          (keyword_test bytes (chars "bits=7") 6 eq_refl eq_refl),
          (keyword_test bytes (chars "clear_fifo") 10 eq_refl eq_refl), Hs.
  rewrite (starts_with_app _ bytes Hs).
  reflexivity.
Qed.

(** X5: a write that is none of the commands returns [-EINVAL] and
    changes nothing: one that begins with none of [bits=8], [bits=7],
    [clear_fifo], [reset_stats] and either does not begin with [baud=] or
    has no digit after [baud=] and optional white space.  A write of no
    bytes is such a write whatever the buffer, since a copy of no bytes
    cannot fault.  A write of at least one byte from an unmapped buffer
    returns [-EFAULT], changes nothing and counts no error. *)
Theorem config_write_rejects (buf : option (list ascii)) (count : Z)
        (bytes : list ascii) (s : state D) :
  copy_from_user buf (Z.min count 127) = Some bytes ->
  starts_with (chars "bits=8") bytes = false ->
  starts_with (chars "bits=7") bytes = false ->
  starts_with (chars "clear_fifo") bytes = false ->
  starts_with (chars "reset_stats") bytes = false ->
  (starts_with (chars "baud=") bytes = false \/
   isdigit (hd NUL (skip_spaces (c_str (skipn 5 bytes ++ [NUL])))) = false) ->
  run (uart_config_write buf count) s = (- EINVAL, s, []) /\
  (forall n : Z, 0 < n -> run (uart_config_write None n) s = (- EFAULT, s, [])).
Proof.
  intros Hcopy H8 H7 Hc Hr Hb. split.
  2: { intros n Hn. unfold uart_config_write, copy_from_user.
       destruct (Z.leb_spec (Z.min n 127) 0) as [Hle | Hgt]; [lia | reflexivity]. }
  assert (Hscan : sscanf_baud (bytes ++ [NUL]) = None).
  { destruct (starts_with (chars "baud=") bytes) eqn:Hp;
      [| apply sscanf_baud_needs_prefix; exact Hp].
    destruct Hb as [Hb | Hb]; [discriminate |].
    unfold sscanf_baud. rewrite (starts_with_app _ bytes Hp).
    change (length (chars "baud=")) with 5%nat.
    rewrite <- app_assoc, c_str_app_not_nul by reflexivity.
    cbn [chars list_ascii_of_string app match_literal Ascii.eqb Bool.eqb]. cbn [andb].
    now rewrite Hb. }
  unfold uart_config_write. rewrite Hcopy, Hscan.
  rewrite (keyword_test bytes (chars "bits=8") 6 eq_refl eq_refl),
          (keyword_test bytes (chars "bits=7") 6 eq_refl eq_refl),
          (keyword_test bytes (chars "clear_fifo") 10 eq_refl eq_refl),
          (keyword_test bytes (chars "reset_stats") 11 eq_refl eq_refl).
  rewrite H8, H7, Hc, Hr. reflexivity.
Qed.

End ConfigCommandTheorems.


Lemma config_write_bits_applies_witness :
  let s := sim_state initial_config zero_stats (sim_with_rx []) in
  let bytes := chars "bits=7 please" in
  copy_from_user (Some bytes) (Z.min 13 127) = Some bytes /\
  starts_with (chars (if false then "bits=8" else "bits=7")) bytes = true /\
  baud_register (system_clock (st_config s)) (baudrate (st_config s)) = BaudReg 6509 /\
  let bits := if false then DATA_BITS_8 else DATA_BITS_7 in
  let '(r, s', t) := run (uart_config_write (Some bytes) 13) s in
  r = 13 /\
  st_config s' = set_cfg DataBits bits (st_config s) /\
  st_stats s' = st_stats s /\
  t = [EvLock uart_config_mutex; EvWrite 0 MU_CNTL; EvWrite 2 MU_IIR;
       EvWrite 4 MU_IIR; EvSleep 100 150;
       EvWrite bits MU_LCR; EvWrite 6509 MU_BAUD;
       EvWrite 3 MU_CNTL; EvWmb; EvUnlock uart_config_mutex].
Proof.
  intros s bytes.
  assert (H1 : copy_from_user (Some bytes) (Z.min 13 127) = Some bytes) by reflexivity.
  assert (H2 : starts_with (chars (if false then "bits=8" else "bits=7")) bytes = true)
    by reflexivity.
  assert (H3 : baud_register (system_clock (st_config s)) (baudrate (st_config s)) =
               BaudReg 6509) by reflexivity.
  split; [exact H1 |]. split; [exact H2 |]. split; [exact H3 |].
  exact (config_write_bits_applies (Some bytes) 13 bytes false 6509 s H1 H2 H3).
Defined.

Lemma config_write_clear_fifo_witness :
  let s := sim_state initial_config zero_stats (sim_with_rx (chars "pending")) in
  let bytes := chars "clear_fifo" ++ [LF] in
  copy_from_user (Some bytes) (Z.min 11 127) = Some bytes /\
  starts_with (chars "clear_fifo") bytes = true /\
  run (uart_config_write (Some bytes) 11) s =
  (11,
   mk_state (st_config s) (st_stats s)
     (dev_sleep 100 150 (dev_writel 4 MU_IIR (dev_writel 2 MU_IIR (st_dev s)))),
   [EvWrite 2 MU_IIR; EvWrite 4 MU_IIR; EvSleep 100 150]).
Proof.
  intros s bytes.
  assert (H1 : copy_from_user (Some bytes) (Z.min 11 127) = Some bytes) by reflexivity.
  assert (H2 : starts_with (chars "clear_fifo") bytes = true) by reflexivity.
  split; [exact H1 |]. split; [exact H2 |].
  exact (config_write_clear_fifo (Some bytes) 11 bytes s H1 H2).
Defined.

Lemma config_write_rejects_witness :
  let s := sim_state initial_config zero_stats (sim_with_rx []) in
  copy_from_user None (Z.min 0 127) = Some [] /\
  starts_with (chars "bits=8") [] = false /\
  starts_with (chars "bits=7") [] = false /\
  starts_with (chars "clear_fifo") [] = false /\
  starts_with (chars "reset_stats") [] = false /\
  (starts_with (chars "baud=") [] = false \/
   isdigit (hd NUL (skip_spaces (c_str (skipn 5 [] ++ [NUL])))) = false) /\
  run (uart_config_write None 0) s = (- EINVAL, s, []) /\
  (forall n : Z, 0 < n -> run (uart_config_write None n) s = (- EFAULT, s, [])).
Proof.
  intros s.
  assert (H1 : copy_from_user None (Z.min 0 127) = Some []) by reflexivity.
  assert (H2 : starts_with (chars "bits=8") [] = false) by reflexivity.
  assert (H3 : starts_with (chars "bits=7") [] = false) by reflexivity.
  assert (H4 : starts_with (chars "clear_fifo") [] = false) by reflexivity.
  assert (H5 : starts_with (chars "reset_stats") [] = false) by reflexivity.
  assert (H6 : starts_with (chars "baud=") [] = false \/
               isdigit (hd NUL (skip_spaces (c_str (skipn 5 [] ++ [NUL])))) = false)
    by (left; reflexivity).
  split; [exact H1 |]. split; [exact H2 |]. split; [exact H3 |]. split; [exact H4 |].
  split; [exact H5 |]. split; [exact H6 |].
  exact (config_write_rejects None 0 [] s H1 H2 H3 H4 H5 H6).
Defined.

(* ------------------------------------------------------------------ *)
(** ** Rate commands and the five supported rates *)


Section UnsupportedRates.
Context {D : Type} `{Device D}.


End UnsupportedRates.



(* ------------------------------------------------------------------ *)
(** ** The configuration stays valid *)

Section ConfigInvariant.
Context {D : Type} `{Device D}.

(** A property of the stored configuration that every allowed primitive
    keeps is kept by a program made of allowed primitives. *)
Lemma uses_keeps_config {A : Type} (allowed : op -> bool) (P : uart_config -> Prop)
      (p : prog A) :
  (forall o (s : state D), allowed o = true -> P (st_config s) ->
     P (st_config (snd (fst (exec_op o s))))) ->
  uses_only allowed p ->
  forall s : state D, P (st_config s) -> P (st_config (snd (fst (run p s)))).
Proof.
  intros Hstep Hp. induction Hp as [x | o k Ho Hk IH]; intros s Hs; cbn [run].
  - exact Hs.
  - specialize (Hstep o s Ho Hs).
    destruct (exec_op o s) as [[z s1] t1]. cbn [fst snd] in Hstep.
    specialize (IH z s1 Hstep).
    destruct (run (k z) s1) as [[a s2] t2]. exact IH.
Qed.

Lemma exec_op_config (o : op) (s : state D) :
  match o with StoreCfg _ _ => True | _ => st_config (snd (fst (exec_op o s))) = st_config s end.
Proof.
  destruct o; cbn [exec_op fst snd st_config]; try reflexivity; try exact I.
  destruct (dev_readl r (st_dev s)); reflexivity.
Qed.

Lemma config_store_keeps_valid (o : op) (s : state D) :
  config_store_ok o = true ->
  valid_config (st_config s) = true ->
  valid_config (st_config (snd (fst (exec_op o s)))) = true.
Proof.
  intros Ho Hs. pose proof (exec_op_config o s) as Hc.
  destruct o; try (rewrite Hc; exact Hs).
  cbn [exec_op fst snd st_config]. unfold valid_config in *.
  apply andb_true_iff in Hs. destruct Hs as [Hs Hclk].
  apply andb_true_iff in Hs. destruct Hs as [Hbaud Hbits].
  destruct f; cbn [config_store_ok] in Ho; [| | discriminate];
    cbn [set_cfg baudrate data_bits system_clock].
  - rewrite (supported_baud_u32 v Ho), Ho, Hbits, Hclk. reflexivity.
  - assert (Hv : u32 v = v).
    { apply orb_true_iff in Ho. destruct Ho as [Ho | Ho]; apply Z.eqb_eq in Ho;
        subst v; reflexivity. }
    rewrite Hv, Hbaud, Ho, Hclk. reflexivity.
Qed.

Lemma config_store_keeps_clock (c : Z) (o : op) (s : state D) :
  config_store_ok o = true ->
  system_clock (st_config s) = c ->
  system_clock (st_config (snd (fst (exec_op o s)))) = c.
Proof.
  intros Ho Hs. pose proof (exec_op_config o s) as Hc.
  destruct o; try (rewrite Hc; exact Hs).
  cbn [exec_op fst snd st_config].
  destruct f; cbn [config_store_ok] in Ho; [| | discriminate];
    cbn [set_cfg system_clock]; exact Hs.
Qed.

Lemma config_write_stores_ok (buf : option (list ascii)) (count : Z) :
  uses_only config_store_ok (uart_config_write buf count).
Proof.
  assert (Hc : uses_only config_store_ok uart_clear_fifos)
    by (apply uses_clear_fifos; [intros v |]; reflexivity).
  assert (Ha : uses_only config_store_ok uart_apply_config)
    by (unfold uart_apply_config, calculate_baud_register; uses).
  unfold uart_config_write.
  destruct (copy_from_user buf (Z.min count 127)) as [bytes |]; [| apply uses_ret].
  cbv zeta.
  destruct (sscanf_baud (bytes ++ [NUL])) as [v |].
  - rewrite unsupported_test.
    destruct (supported_baud v) eqn:Hsup; cbn [negb]; [| apply uses_ret].
    apply uses_bind; [apply uses_call; exact Hsup | intros _].
    apply uses_bind; [exact Ha | intros r].
    destruct (negb (r =? 0)); apply uses_ret.
  - destruct (strncmp (bytes ++ [NUL]) (chars "bits=8") 6 =? 0).
    { apply uses_bind; [apply uses_call; reflexivity | intros _].
      apply uses_bind; [exact Ha | intros r].
      destruct (negb (r =? 0)); apply uses_ret. }
    destruct (strncmp (bytes ++ [NUL]) (chars "bits=7") 6 =? 0).
    { apply uses_bind; [apply uses_call; reflexivity | intros _].
      apply uses_bind; [exact Ha | intros r].
      destruct (negb (r =? 0)); apply uses_ret. }
    destruct (strncmp (bytes ++ [NUL]) (chars "clear_fifo") 10 =? 0).
    { apply uses_bind; [exact Hc | intros _]. apply uses_ret. }
    destruct (strncmp (bytes ++ [NUL]) (chars "reset_stats") 11 =? 0).
    { apply uses_bind; [apply uses_call; reflexivity | intros _]. apply uses_ret. }
    apply uses_ret.
Qed.

Lemma operation_stores_ok (o : operation) : uses_only config_store_ok (operation_prog o).
Proof.
  destruct o;
    try (match goal with
         | |- uses_only _ (operation_prog ?x) => apply (uses_mono (footprint x))
         end; [| apply uses_operation];
         intros o' Hx; destruct o'; try reflexivity; cbn in Hx; discriminate).
  cbn [operation_prog].
  apply uses_bind; [apply config_write_stores_ok | intros _; apply uses_ret].
Qed.

Lemma valid_config_applies (s : state D) :
  valid_config (st_config s) = true -> fst (fst (run uart_apply_config s)) = 0.
Proof.
  intros Hs. unfold valid_config in Hs.
  apply andb_true_iff in Hs. destruct Hs as [Hs Hclk].
  apply andb_true_iff in Hs. destruct Hs as [Hbaud _].
  apply Z.eqb_eq in Hclk.
  assert (Hv : exists v, baud_register (system_clock (st_config s))
                           (baudrate (st_config s)) = BaudReg v).
  { rewrite Hclk. apply supported_baud_cases in Hbaud.
    destruct Hbaud as [-> | [-> | [-> | [-> | ->]]]]; eexists; reflexivity. }
  destruct Hv as [v Hv]. pose proof (run_apply_config_ok s v Hv) as Ha.
  destruct (run uart_apply_config s) as [[r s'] t]. apply Ha.
Qed.

(** X7: no sequence of calls (on the five files, of the attach routines, of
    [uart_send_string]) ever changes [config.system_clock]; and from a
    configuration with a supported rate, 7 or 8 data bits and the 500 MHz
    clock (the one the module is loaded with), every such sequence ends in
    one, where [uart_apply_config] succeeds: the failure of the apply step
    cannot happen in a state the driver reaches. *)
Theorem config_stays_valid (os : list operation) (s : state D) :
  system_clock (st_config (run_ops os s)) = system_clock (st_config s) /\
  (valid_config (st_config s) = true ->
   valid_config (st_config (run_ops os s)) = true /\
   fst (fst (run uart_apply_config (run_ops os s))) = 0).
Proof.
  revert s. induction os as [| o os IH]; intros s; cbn [run_ops].
  - split; [reflexivity |]. intros Hs. split; [exact Hs | apply valid_config_applies, Hs].
  - destruct (IH (snd (fst (run (operation_prog o) s)))) as [Hclk Hval].
    split.
    + rewrite Hclk.
      apply (uses_keeps_config config_store_ok
               (fun c => system_clock c = system_clock (st_config s)));
        [ intros o' s' Ho' Hs'; apply config_store_keeps_clock; assumption
        | apply operation_stores_ok | reflexivity ].
    + intros Hs. apply Hval.
      apply (uses_keeps_config config_store_ok (fun c => valid_config c = true));
        [ intros o' s' Ho' Hs'; apply config_store_keeps_valid; assumption
        | apply operation_stores_ok | exact Hs ].
Qed.

End ConfigInvariant.

Lemma config_stays_valid_witness :
  let s := sim_state initial_config zero_stats (sim_with_rx []) in
  let os := [OpInitGpio; OpInitHardware;
             OpConfigWrite (Some (chars "baud=115200")) 11;
             OpConfigWrite (Some (chars "bits=7")) 6;
             OpTxWrite (Some (chars "hello")) 5] in
  valid_config (st_config s) = true /\
  valid_config (st_config (run_ops os s)) = true /\
  fst (fst (run uart_apply_config (run_ops os s))) = 0.
Proof.
  intros s os.
  assert (H1 : valid_config (st_config s) = true) by reflexivity.
  split; [exact H1 |].
  exact (proj2 (config_stays_valid os s) H1).
Defined.

(* ------------------------------------------------------------------ *)
(** ** Config commands that fail *)

Section ConfigFailure.
Context {D : Type} `{Device D}.







End ConfigFailure.

(* ------------------------------------------------------------------ *)
(** ** Properties of every trace *)

Section Every.
Context {D : Type} `{Device D}.
Variable P : list event -> Prop.
Hypothesis P_nil : P [].
Hypothesis P_app : forall t1 t2, P t1 -> P t2 -> P (t1 ++ t2).

Lemma every_ret {A : Type} (a : A) : every_run (D := D) P (Ret a).
Proof. intros s. exact P_nil. Qed.

Lemma every_bind {A B : Type} (p : prog A) (k : A -> prog B) :
  every_run (D := D) P p -> (forall a, every_run (D := D) P (k a)) ->
  every_run (D := D) P (bind p k).
Proof.
  intros Hp Hk s. rewrite run_bind. specialize (Hp s).
  destruct (run p s) as [[a s1] t1]. specialize (Hk a s1).
  destruct (run (k a) s1) as [[b s2] t2]. cbn [snd] in *.
  apply P_app; assumption.
Qed.

Lemma every_call (o : op) :
  (forall s : state D, P (snd (exec_op o s))) -> every_run (D := D) P (call o).
Proof.
  intros Ho s. specialize (Ho s). cbn [call run].
  destruct (exec_op o s) as [[z s1] t1]. cbn [snd] in *. now rewrite app_nil_r.
Qed.

(** A property that every allowed primitive has on its own holds of the
    programs made of allowed primitives. *)
Lemma every_uses {A : Type} (allowed : op -> bool) (p : prog A) :
  (forall o (s : state D), allowed o = true -> P (snd (exec_op o s))) ->
  uses_only allowed p -> every_run (D := D) P p.
Proof.
  intros Hop Hp. induction Hp as [a | o k Ho Hk IH]; intros s; cbn [run].
  - exact P_nil.
  - specialize (Hop o s Ho). destruct (exec_op o s) as [[z s1] t1].
    specialize (IH z s1). destruct (run (k z) s1) as [[a s2] t2].
    cbn [snd] in *. apply P_app; assumption.
Qed.

End Every.

(* ------------------------------------------------------------------ *)
(** ** Mutexes *)

Lemma lock_trace_app (t1 t2 : list event) :
  forall h, lock_trace h (t1 ++ t2) =
            match lock_trace h t1 with
            | Some h' => lock_trace h' t2
            | None => None
            end.
Proof.
  induction t1 as [| e t1 IH]; intros h; [reflexivity |].
  cbn [app]. destruct e as [v r | | | | m | m | |]; cbn [lock_trace]; try apply IH.
  - destruct r; try apply IH. destruct h as [[] |]; try reflexivity. apply IH.
  - destruct h; [reflexivity | apply IH].
  - destruct h as [m' |]; [| reflexivity]. destruct (mutex_eqb m m'); [apply IH | reflexivity].
Qed.

Lemma lock_kept_app (h : option mutex) (t1 t2 : list event) :
  lock_trace h t1 = Some h -> lock_trace h t2 = Some h ->
  lock_trace h (t1 ++ t2) = Some h.
Proof. intros H1 H2. now rewrite lock_trace_app, H1. Qed.

Lemma lock_bracket (m : mutex) (t : list event) :
  lock_trace (Some m) t = Some (Some m) ->
  lock_trace None (EvLock m :: t ++ [EvUnlock m]) = Some None.
Proof.
  intros Ht. cbn [lock_trace]. rewrite lock_trace_app, Ht. cbn [lock_trace].
  destruct m; reflexivity.
Qed.

Lemma lock_section (m : mutex) (t1 t2 rest : list event) :
  lock_trace (Some m) t1 = Some (Some m) ->
  lock_trace (Some m) t2 = Some (Some m) ->
  lock_trace None (EvLock m :: t1 ++ t2 ++ EvUnlock m :: rest) = lock_trace None rest.
Proof.
  intros H1 H2. cbn [lock_trace]. rewrite lock_trace_app, H1, lock_trace_app, H2.
  cbn [lock_trace]. destruct m; reflexivity.
Qed.

Section Locks.
Context {D : Type} `{Device D}.

(** Primitives that leave the mutexes alone; a write to [MU_IO] needs the
    transmit mutex. *)
Lemma lock_neutral (h : option mutex) (o : op) (s : state D) :
  match o with
  | MutexLock _ | MutexUnlock _ => False
  | Writel _ MU_IO => h = Some uart_tx_mutex
  | _ => True
  end ->
  lock_trace h (snd (exec_op o s)) = Some h.
Proof.
  intros Ho. destruct o; cbn [exec_op snd lock_trace]; try reflexivity; try contradiction.
  - destruct (dev_readl r (st_dev s)). reflexivity.
  - destruct r; try reflexivity. subst h. reflexivity.
Qed.

Lemma lock_kept_uses {A : Type} (h : option mutex) (allowed : op -> bool) (p : prog A) :
  (forall o, allowed o = true ->
     match o with
     | MutexLock _ | MutexUnlock _ => False
     | Writel _ MU_IO => h = Some uart_tx_mutex
     | _ => True
     end) ->
  uses_only allowed p ->
  every_run (D := D) (fun t => lock_trace h t = Some h) p.
Proof.
  intros Ha Hp.
  apply (every_uses _ eq_refl (lock_kept_app h) allowed); [| exact Hp].
  intros o s Ho. apply lock_neutral, Ha, Ho.
Qed.

Lemma without_locks_neutral (a : op -> bool) (h : option mutex) :
  (forall v, a (Writel v MU_IO) = true -> h = Some uart_tx_mutex) ->
  forall o, without_locks a o = true ->
    match o with
    | MutexLock _ | MutexUnlock _ => False
    | Writel _ MU_IO => h = Some uart_tx_mutex
    | _ => True
    end.
Proof.
  intros Hio o Ho. unfold without_locks in Ho. apply andb_true_iff in Ho.
  destruct Ho as [Ha Hl].
  destruct o; try exact I; try discriminate.
  destruct r; try exact I. apply (Hio v), Ha.
Qed.

Lemma locks_send_string (str : list ascii) :
  every_run (D := D) (fun t => lock_trace None t = Some None) (uart_send_string str).
Proof.
  intros s. unfold uart_send_string. cbn [bind call run exec_op].
  rewrite run_bind.
  pose proof (lock_kept_uses (Some uart_tx_mutex) _ _
                (without_locks_neutral tx_footprint _ (fun _ _ => eq_refl))
                (uses_send_string_loop str) s) as Hl.
  destruct (run (send_string_loop str) s) as [[u s1] t1]. cbn [snd] in Hl.
  cbn [bind call run exec_op snd app].
  apply lock_bracket, Hl.
Qed.

Lemma locks_apply_config :
  every_run (D := D) (fun t => lock_trace None t = Some None) uart_apply_config.
Proof.
  intros s.
  destruct (baud_register (system_clock (st_config s)) (baudrate (st_config s)))
    as [v | e] eqn:Hb.
  - pose proof (run_apply_config_ok s v Hb) as Ha.
    destruct (run uart_apply_config s) as [[r s'] t].
    destruct Ha as (_ & _ & _ & ->). reflexivity.
  - rewrite (run_apply_config_fail s e Hb). reflexivity.
Qed.

Lemma locks_free {A : Type} (allowed : op -> bool) (p : prog A) :
  (forall o, allowed o = true ->
     match o with
     | MutexLock _ | MutexUnlock _ => False
     | Writel _ MU_IO => @None mutex = Some uart_tx_mutex
     | _ => True
     end) ->
  uses_only allowed p ->
  every_run (D := D) (fun t => lock_trace None t = Some None) p.
Proof. apply lock_kept_uses. Qed.

End Locks.

Ltac footprint_sub :=
  let o := fresh "o" in
  let Ho := fresh "Ho" in
  intros o Ho; destruct o; try exact I; try reflexivity;
  try (cbn in Ho; discriminate);
  try (match goal with r : reg |- _ => destruct r end;
       try exact I; try reflexivity; cbn in Ho; discriminate).

Ltac locks_step :=
  first
    [ match goal with Hc : every_run ?P ?p |- every_run ?P ?p => exact Hc end
    | match goal with
      | |- every_run _ (Ret _) => apply every_ret; reflexivity
      | |- every_run _ (call _) =>
          apply every_call; intros ?; apply lock_neutral; exact I
      | |- every_run _ (if ?b then _ else _) => destruct b
      | |- every_run _ (match ?x with _ => _ end) => destruct x
      | |- every_run _ (bind _ _) =>
          apply (every_bind _ (lock_kept_app None)); [| intros ?]
      end ].

Section LockTheorem.
Context {D : Type} `{Device D}.

Lemma locks_stat_incr (f : stat_field) :
  every_run (D := D) (fun t => lock_trace None t = Some None) (stat_incr f).
Proof. unfold stat_incr. repeat locks_step. Qed.

Lemma locks_proc_write (buf : option (list ascii)) (count : Z) :
  every_run (D := D) (fun t => lock_trace None t = Some None) (uart_proc_write buf count).
Proof.
  pose proof (locks_stat_incr TxErrors) as He.
  unfold uart_proc_write.
  destruct (copy_from_user buf (Z.min count KBUF_LIMIT)) as [kbuf |].
  - pose proof (locks_send_string (kbuf ++ [NUL])) as Hs. repeat locks_step.
  - repeat locks_step.
Qed.

Lemma locks_clear_fifos :
  every_run (D := D) (fun t => lock_trace None t = Some None) uart_clear_fifos.
Proof. unfold uart_clear_fifos. repeat locks_step. Qed.

Lemma locks_config_write (buf : option (list ascii)) (count : Z) :
  every_run (D := D) (fun t => lock_trace None t = Some None)
            (uart_config_write buf count).
Proof.
  pose proof locks_apply_config as Ha. pose proof locks_clear_fifos as Hc.
  unfold uart_config_write.
  destruct (copy_from_user buf (Z.min count 127)) as [bytes |];
    [| apply every_ret; reflexivity].
  cbv zeta.
  destruct (sscanf_baud (bytes ++ [NUL])) as [v |]; repeat locks_step.
Qed.

(** [uart_proc_read] takes the receive mutex and gives it back on each of
    its returns. *)
Lemma locks_proc_read (fuel : nat) (user_ok : bool) (count ppos : Z) (s : state D) :
  let '(r, _, t) := run (uart_proc_read fuel user_ok count ppos) s in
  r <> None -> lock_trace None t = Some None.
Proof.
  unfold uart_proc_read. destruct (ppos >? 0); [intros _; reflexivity |].
  cbn [bind call run exec_op]. rewrite run_bind.
  pose proof (lock_kept_uses (Some uart_rx_mutex) _ _
                (without_locks_neutral rx_footprint _
                   (fun _ (Hx : false = true) => False_ind _ (diff_false_true Hx)))
                (uses_rx_first_wait 1000) s) as Hw.
  destruct (run (rx_first_wait 1000) s) as [[timeout s1] t1]. cbn [snd] in Hw.
  destruct (timeout <=? 0).
  - cbn [bind call run exec_op app]. intros _. apply lock_bracket, Hw.
  - rewrite run_bind.
    pose proof (lock_kept_uses (Some uart_rx_mutex) _ _
                  (without_locks_neutral rx_footprint _
                     (fun _ (Hx : false = true) => False_ind _ (diff_false_true Hx)))
                  (uses_rx_outer fuel count [] 0) s1) as Ho.
    destruct (run (rx_outer fuel count [] 0) s1) as [[[k1 |] s2] t2]; cbn [snd] in Ho;
      [| cbn [run]; intros Hx; congruence].
    cbn [bind call run exec_op].
    destruct (Z.of_nat (length k1) =? 0); [| destruct user_ok]; intros _;
      rewrite ?run_bind, ?run_stat_incr; cbn [run app]; rewrite ?app_nil_r;
      rewrite (lock_section _ _ _ _ Hw Ho); reflexivity.
Qed.

End LockTheorem.

Ltac every_step app_lem neutral :=
  first
    [ match goal with Hc : every_run ?P ?p |- every_run ?P ?p => exact Hc end
    | match goal with
      | |- every_run _ (Ret _) => apply every_ret; reflexivity
      | |- every_run _ (call _) => apply every_call; intros ?; neutral
      | |- every_run _ (if ?b then _ else _) => destruct b
      | |- every_run _ (match ?x with _ => _ end) => destruct x
      | |- every_run _ (bind _ _) => apply (every_bind _ app_lem); [| intros ?]
      end ].

Section LockDiscipline.
Context {D : Type} `{Device D}.

Lemma locks_operation (o : operation) :
  match o with
  | OpRxRead _ _ _ _ => True
  | _ => every_run (D := D) (fun t => lock_trace None t = Some None) (operation_prog o)
  end.
Proof.
  destruct o; try exact I;
    try (match goal with
         | |- every_run _ (operation_prog ?x) => apply (locks_free (footprint x))
         end; [solve [footprint_sub] | apply uses_operation]).
  - cbn [operation_prog].
    apply (every_bind _ (lock_kept_app None));
      [apply locks_proc_write | intros _; apply every_ret; reflexivity].
  - cbn [operation_prog].
    apply (every_bind _ (lock_kept_app None));
      [apply locks_config_write | intros _; apply every_ret; reflexivity].
  - apply locks_send_string.
Qed.

Lemma locks_driver_init (ok : resource -> bool) :
  every_run (D := D) (fun t => lock_trace None t = Some None) (uart_driver_init ok).
Proof.
  pose proof (locks_free init_gpio_footprint _ ltac:(footprint_sub) uses_init_gpio) as Hg.
  pose proof (locks_free init_hardware_footprint _ ltac:(footprint_sub)
                uses_init_hardware) as Hh.
  pose proof (locks_send_string loaded_message) as Hs.
  unfold uart_driver_init.
  repeat every_step (lock_kept_app None) ltac:(apply lock_neutral; exact I).
Qed.

(** X8: every call takes at most one mutex at a time and has given it back
    when it returns, on each of its paths (for [uart_proc_read]: on each
    path that returns); no mutex is released that is not held; and [MU_IO]
    is written only by a caller holding the transmit mutex.  The same
    holds of loading and unloading the module. *)
Theorem lock_discipline :
  (forall (o : operation) (s : state D),
     match o with
     | OpRxRead _ _ _ _ => True
     | _ => lock_trace None (snd (run (operation_prog o) s)) = Some None
     end) /\
  (forall (fuel : nat) (user_ok : bool) (count ppos : Z) (s : state D),
     let '(r, _, t) := run (uart_proc_read fuel user_ok count ppos) s in
     r <> None -> lock_trace None t = Some None) /\
  (forall (ok : resource -> bool) (s : state D),
     lock_trace None (snd (run (uart_driver_init ok) s)) = Some None) /\
  (forall (u g : bool) (s : state D),
     lock_trace None (snd (run (uart_driver_exit u g) s)) = Some None).
Proof.
  split; [| split; [| split]].
  - intros o s. pose proof (locks_operation o) as Ho.
    destruct o; try exact I; apply Ho.
  - intros fuel user_ok count ppos s. apply locks_proc_read.
  - intros ok s. apply locks_driver_init.
  - intros u g s. unfold uart_driver_exit.
    apply (every_bind _ (lock_kept_app None));
      [apply locks_send_string | intros _; apply every_ret; reflexivity].
Qed.

End LockDiscipline.
(* ------------------------------------------------------------------ *)
(** ** Changing the line settings *)

Lemma reconfig_resume (t : list event) :
  reconfig_trace None t = true -> reconfig_trace (Some 3) t = true.
Proof.
  induction t as [| e t IH]; [reflexivity |].
  destruct e as [v r | | | | | | |]; cbn [reconfig_trace]; try exact IH.
  destruct r; try exact IH; try discriminate. auto.
Qed.

Lemma reconfig_app_gen (t1 t2 : list event) :
  reconfig_trace None t2 = true ->
  forall c, reconfig_trace c t1 = true -> reconfig_trace c (t1 ++ t2) = true.
Proof.
  intros H2. induction t1 as [| e t1 IH]; intros c H1.
  - cbn [app]. destruct c as [v |]; [| exact H2].
    cbn [reconfig_trace] in H1. apply Z.eqb_eq in H1. subst v.
    apply reconfig_resume, H2.
  - cbn [app]. destruct e as [v r | | | | | | |]; cbn [reconfig_trace] in *;
      try (apply IH; exact H1).
    destruct r; try (apply IH; exact H1);
      (destruct c as [w |]; [| discriminate]);
      apply andb_true_iff in H1; destruct H1 as [Hw H1];
      rewrite Hw; cbn [andb]; apply IH; exact H1.
Qed.

Lemma reconfig_app (t1 t2 : list event) :
  reconfig_trace None t1 = true -> reconfig_trace None t2 = true ->
  reconfig_trace None (t1 ++ t2) = true.
Proof. intros H1 H2. apply reconfig_app_gen; assumption. Qed.

Section Reconfiguration.
Context {D : Type} `{Device D}.

Lemma reconfig_neutral (o : op) (s : state D) :
  match o with
  | Writel _ MU_CNTL | Writel _ MU_LCR | Writel _ MU_BAUD => False
  | _ => True
  end ->
  reconfig_trace None (snd (exec_op o s)) = true.
Proof.
  intros Ho. destruct o; cbn [exec_op snd reconfig_trace]; try reflexivity.
  - destruct (dev_readl r (st_dev s)). reflexivity.
  - destruct r; try reflexivity; contradiction.
Qed.

Lemma reconfig_free {A : Type} (allowed : op -> bool) (p : prog A) :
  (forall o, allowed o = true ->
     match o with
     | Writel _ MU_CNTL | Writel _ MU_LCR | Writel _ MU_BAUD => False
     | _ => True
     end) ->
  uses_only allowed p ->
  every_run (D := D) (fun t => reconfig_trace None t = true) p.
Proof.
  intros Ha Hp. apply (every_uses _ eq_refl reconfig_app allowed); [| exact Hp].
  intros o s Ho. apply reconfig_neutral, Ha, Ho.
Qed.

Lemma reconfig_apply_config :
  every_run (D := D) (fun t => reconfig_trace None t = true) uart_apply_config.
Proof.
  intros s.
  destruct (baud_register (system_clock (st_config s)) (baudrate (st_config s)))
    as [v | e] eqn:Hb.
  - pose proof (run_apply_config_ok s v Hb) as Ha.
    destruct (run uart_apply_config s) as [[r s'] t].
    destruct Ha as (_ & _ & _ & ->). reflexivity.
  - rewrite (run_apply_config_fail s e Hb). reflexivity.
Qed.

(** [uart_init_hardware]: nothing is touched when the divisor cannot be
    computed; otherwise the Mini UART is enabled in [ENABLES] (the other
    bits kept), transmitter and receiver are disabled, the interrupts
    disabled, the FIFOs cleared, the format, flow control and divisor
    written, and both re-enabled. *)
Lemma run_init_hardware (s : state D) :
  match baud_register (system_clock (st_config s)) (baudrate (st_config s)) with
  | BaudErr _ => run uart_init_hardware s = (- EINVAL, s, [])
  | BaudReg v =>
      let '(r, s', t) := run uart_init_hardware s in
      r = 0 /\ st_config s' = st_config s /\ st_stats s' = st_stats s /\
      t = [EvWrite (u32 (Z.lor (u32 (fst (dev_readl ENABLES (st_dev s)))) 1)) ENABLES;
           EvWrite 0 MU_CNTL; EvWrite 0 MU_IER; EvWrite 2 MU_IIR; EvWrite 4 MU_IIR;
           EvSleep 100 150; EvWrite (u32 (data_bits (st_config s))) MU_LCR;
           EvWrite 0 MU_MCR; EvWrite v MU_BAUD; EvWrite 3 MU_CNTL; EvWmb]
  end.
Proof.
  destruct (baud_register (system_clock (st_config s)) (baudrate (st_config s)))
    as [v | e] eqn:Hb.
  - unfold uart_init_hardware, calculate_baud_register, uart_clear_fifos.
    cbn [bind call run exec_op get_cfg st_config st_stats st_dev]. rewrite Hb.
    cbn [bind call run exec_op get_cfg st_config st_stats st_dev].
    destruct (dev_readl ENABLES (st_dev s)) as [en d].
    cbn [bind call run exec_op get_cfg st_config st_stats st_dev app fst].
    rewrite (baud_register_u32 _ _ _ Hb).
    repeat split; reflexivity.
  - unfold uart_init_hardware, calculate_baud_register.
    cbn [bind call run exec_op get_cfg]. rewrite Hb. reflexivity.
Qed.

Lemma reconfig_init_hardware :
  every_run (D := D) (fun t => reconfig_trace None t = true) uart_init_hardware.
Proof.
  intros s. pose proof (run_init_hardware s) as Hr.
  destruct (baud_register (system_clock (st_config s)) (baudrate (st_config s))).
  - destruct (run uart_init_hardware s) as [[r s'] t].
    destruct Hr as (_ & _ & _ & ->). reflexivity.
  - rewrite Hr. reflexivity.
Qed.

Lemma reconfig_config_write (buf : option (list ascii)) (count : Z) :
  every_run (D := D) (fun t => reconfig_trace None t = true)
            (uart_config_write buf count).
Proof.
  pose proof reconfig_apply_config as Ha.
  assert (Hc : every_run (D := D) (fun t => reconfig_trace None t = true)
                 uart_clear_fifos)
    by (unfold uart_clear_fifos;
        repeat every_step reconfig_app ltac:(apply reconfig_neutral; exact I)).
  unfold uart_config_write.
  destruct (copy_from_user buf (Z.min count 127)) as [bytes |];
    [| apply every_ret; reflexivity].
  cbv zeta.
  destruct (sscanf_baud (bytes ++ [NUL])) as [v |];
    repeat every_step reconfig_app ltac:(apply reconfig_neutral; exact I).
Qed.

Lemma reconfig_operation (o : operation) :
  every_run (D := D) (fun t => reconfig_trace None t = true) (operation_prog o).
Proof.
  destruct o;
    try (match goal with
         | |- every_run _ (operation_prog ?x) => apply (reconfig_free (footprint x))
         end; [solve [footprint_sub] | apply uses_operation]).
  - cbn [operation_prog].
    apply (every_bind _ reconfig_app);
      [apply reconfig_config_write | intros _; apply every_ret; reflexivity].
  - cbn [operation_prog].
    apply (every_bind _ reconfig_app);
      [apply reconfig_init_hardware | intros _; apply every_ret; reflexivity].
Qed.

(** X15: in every call, and in loading the module, the format register
    [MU_LCR] and the divisor register [MU_BAUD] are written only after 0
    has been written to [MU_CNTL] (transmitter and receiver disabled), and
    a call that writes [MU_CNTL] leaves 3 in it (both enabled) when it
    returns. *)
Theorem reconfiguration_protocol :
  (forall (o : operation) (s : state D),
     reconfig_trace None (snd (run (operation_prog o) s)) = true) /\
  (forall (ok : resource -> bool) (s : state D),
     reconfig_trace None (snd (run (uart_driver_init ok) s)) = true).
Proof.
  split.
  - intros o s. apply reconfig_operation.
  - intros ok.
    change (every_run (D := D) (fun t => reconfig_trace None t = true)
                      (uart_driver_init ok)).
    pose proof (reconfig_operation OpInitGpio) as Hg. cbn [operation_prog] in Hg.
    pose proof reconfig_init_hardware as Hh.
    pose proof (reconfig_operation (OpSendString loaded_message)) as Hs.
    cbn [operation_prog] in Hs.
    unfold uart_driver_init.
    repeat every_step reconfig_app ltac:(apply reconfig_neutral; exact I).
Qed.

End Reconfiguration.
(* ------------------------------------------------------------------ *)
(** ** What the transmit counters count *)

Lemma tx_count_app (t1 t2 : list event) :
  stat_stores TxBytes t1 = length (wire t1) ->
  stat_stores TxBytes t2 = length (wire t2) ->
  stat_stores TxBytes (t1 ++ t2) = length (wire (t1 ++ t2)).
Proof.
  intros H1 H2. rewrite stat_stores_app, wire_app, length_app. lia.
Qed.

Ltac footprint_sub_stat :=
  let o := fresh "o" in
  let Ho := fresh "Ho" in
  intros o Ho; destruct o; try exact I; try reflexivity;
  try (cbn in Ho; discriminate);
  try (match goal with r : reg |- _ => destruct r end;
       try exact I; try reflexivity; cbn in Ho; discriminate);
  try (match goal with f : stat_field |- _ => destruct f end;
       try exact I; try reflexivity; cbn in Ho; discriminate).

Section TxAccounting.
Context {D : Type} `{Device D}.

Lemma tx_count_neutral (o : op) (s : state D) :
  match o with
  | Writel _ MU_IO | StoreStat TxBytes _ => False
  | _ => True
  end ->
  stat_stores TxBytes (snd (exec_op o s)) = length (wire (snd (exec_op o s))).
Proof.
  intros Ho. destruct o; cbn [exec_op snd]; try reflexivity.
  - destruct (dev_readl r (st_dev s)). reflexivity.
  - destruct r; try reflexivity; contradiction.
  - destruct f; try reflexivity; contradiction.
Qed.

Lemma tx_count_free {A : Type} (allowed : op -> bool) (p : prog A) :
  (forall o, allowed o = true ->
     match o with
     | Writel _ MU_IO | StoreStat TxBytes _ => False
     | _ => True
     end) ->
  uses_only allowed p ->
  every_run (D := D) (fun t => stat_stores TxBytes t = length (wire t)) p.
Proof.
  intros Ha Hp. apply (every_uses _ eq_refl tx_count_app allowed); [| exact Hp].
  intros o s Ho. apply tx_count_neutral, Ha, Ho.
Qed.

Lemma tx_count_send_char_body (c : ascii) :
  every_run (D := D) (fun t => stat_stores TxBytes t = length (wire t))
            (send_char_body c).
Proof.
  intros s.
  destruct (run_send_char_body c s) as (k & d & _ & [[_ Hr] | [_ Hr]]);
    rewrite Hr; cbn [snd];
    rewrite stat_stores_app, wire_app, length_app, stat_stores_sleeps, wire_sleeps;
    reflexivity.
Qed.

Lemma tx_count_send_char (c : ascii) :
  every_run (D := D) (fun t => stat_stores TxBytes t = length (wire t))
            (uart_send_char c).
Proof.
  rewrite uart_send_char_unfold.
  apply (every_bind _ tx_count_app); [| intros _; apply tx_count_send_char_body].
  destruct (Ascii.eqb c LF); [| apply every_ret; reflexivity].
  rewrite uart_send_char_unfold.
  apply (every_bind _ tx_count_app); [| intros _; apply tx_count_send_char_body].
  change (Ascii.eqb CR LF) with false. apply every_ret; reflexivity.
Qed.

Lemma tx_count_send_string (str : list ascii) :
  every_run (D := D) (fun t => stat_stores TxBytes t = length (wire t))
            (uart_send_string str).
Proof.
  assert (Hl : every_run (D := D) (fun t => stat_stores TxBytes t = length (wire t))
                 (send_string_loop str)).
  { induction str as [| c str IH]; cbn [send_string_loop];
      [apply every_ret; reflexivity |].
    pose proof (tx_count_send_char c) as Hc.
    pose proof (tx_count_send_char CR) as Hcr.
    repeat every_step tx_count_app ltac:(apply tx_count_neutral; exact I). }
  unfold uart_send_string.
  repeat every_step tx_count_app ltac:(apply tx_count_neutral; exact I).
Qed.

Lemma tx_count_operation (o : operation) :
  every_run (D := D) (fun t => stat_stores TxBytes t = length (wire t))
            (operation_prog o).
Proof.
  destruct o;
    try (match goal with
         | |- every_run _ (operation_prog ?x) => apply (tx_count_free (footprint x))
         end; [solve [footprint_sub_stat] | apply uses_operation]).
  - cbn [operation_prog]. unfold uart_proc_write, stat_incr.
    destruct (copy_from_user buf (Z.min count KBUF_LIMIT)) as [kbuf |].
    + pose proof (tx_count_send_string (kbuf ++ [NUL])) as Hs.
      repeat every_step tx_count_app ltac:(apply tx_count_neutral; exact I).
    + repeat every_step tx_count_app ltac:(apply tx_count_neutral; exact I).
  - apply tx_count_send_string.
Qed.

(** X9: in every call the stores to [tx_bytes] are as many as the bytes
    written to [MU_IO]; so, the [reset_stats] command apart, a call
    advances [tx_bytes] by exactly the number of bytes it put on the wire
    (a byte that timed out is not counted, a byte written is). *)
Theorem tx_bytes_counts_wire (o : operation) (s : state D) :
  let '(_, s', t) := run (operation_prog o) s in
  stat_stores TxBytes t = length (wire t) /\
  (is_reset_stats o = false ->
   tx_bytes (st_stats s') = advance (length (wire t)) (tx_bytes (st_stats s))).
Proof.
  pose proof (tx_count_operation o s) as Hc.
  pose proof (counts_operation o) as Hadv.
  destruct (run (operation_prog o) s) as [[u s'] t] eqn:Hr. cbn [snd] in Hc.
  split; [exact Hc |]. intros Hnr. specialize (Hadv Hnr s). rewrite Hr in Hadv.
  destruct Hadv as [_ Hadv]. rewrite <- Hc. apply (Hadv TxBytes).
Qed.

End TxAccounting.

Lemma tx_bytes_counts_wire_witness :
  let o := OpTxWrite (Some (chars "ab")) 2 in
  let s := sim_state initial_config zero_stats (mk_sim [] false 15000 []) in
  is_reset_stats o = false /\
  let '(_, s', t) := run (operation_prog o) s in
  stat_stores TxBytes t = length (wire t) /\
  tx_bytes (st_stats s') = advance (length (wire t)) (tx_bytes (st_stats s)).
Proof.
  intros o s.
  assert (H0 : is_reset_stats o = false) by reflexivity.
  split; [exact H0 |].
  pose proof (tx_bytes_counts_wire o s) as W.
  destruct (run (operation_prog o) s) as [[u s'] t].
  split; [exact (proj1 W) | exact (proj2 W H0)].
Defined.

(* ------------------------------------------------------------------ *)
(** ** A transmitter that never has space *)

Section TxStuck.
Context {D : Type} `{Device D}.
Variable I : D -> Prop.
Hypothesis HI : tx_space_never I.

Lemma run_tx_wait_stuck (n : nat) (s : state D) :
  I (st_dev s) ->
  exists d, I d /\
    run (tx_wait n) s =
    (-1, mk_state (st_config s) (st_stats s) d, repeat (EvSleep 1 2) n).
Proof.
  destruct HI as [Hlsr Hsleep].
  revert s. induction n as [| n IH]; intros s Hs;
    cbn [tx_wait bind call run exec_op];
    destruct (Hlsr _ Hs) as [Hv Hd];
    destruct (dev_readl MU_LSR (st_dev s)) as [v d]; cbn [fst snd] in Hv, Hd;
    rewrite Hv; cbn [Z.eqb negb bind call run exec_op st_config st_stats st_dev].
  - exists d. split; [exact Hd | reflexivity].
  - destruct (IH (mk_state (st_config s) (st_stats s) (dev_sleep 1 2 d)))
      as (d' & Hd' & Hr); [apply Hsleep, Hd |].
    rewrite Hr. exists d'. split; [exact Hd' | reflexivity].
Qed.

Lemma run_send_char_body_stuck (c : ascii) (s : state D) :
  I (st_dev s) ->
  let '(_, s', t) := run (send_char_body c) s in
  I (st_dev s') /\ st_config s' = st_config s /\
  st_stats s' = bump TxErrors (st_stats s) /\
  wire t = [] /\ sleeps t = 10000%nat.
Proof.
  intros Hs. unfold send_char_body. rewrite run_bind.
  destruct (run_tx_wait_stuck 10000 s Hs) as (d & Hd & Hr). rewrite Hr.
  change (-1 <=? 0) with true. cbv iota. rewrite run_stat_incr.
  cbn [st_config st_stats st_dev].
  rewrite wire_app, wire_sleeps, sleeps_app, sleeps_repeat.
  split; [exact Hd |]. split; [reflexivity |]. split; [reflexivity |].
  split; [reflexivity |]. cbn [sleeps]. apply Nat.add_0_r.
Qed.

(** [n] attempts in a row, each timing out. *)
Lemma stuck_step (n m : nat) (st0 st1 st2 : uart_stats) (t1 t2 : list event) :
  st1 = bump_n TxErrors n st0 -> st2 = bump_n TxErrors m st1 ->
  wire t1 = [] -> wire t2 = [] ->
  sleeps t1 = (10000 * n)%nat -> sleeps t2 = (10000 * m)%nat ->
  st2 = bump_n TxErrors (n + m) st0 /\ wire (t1 ++ t2) = [] /\
  sleeps (t1 ++ t2) = (10000 * (n + m))%nat.
Proof.
  intros -> -> W1 W2 S1 S2. rewrite wire_app, W1, W2, sleeps_app, S1, S2.
  split; [| split; [reflexivity | lia]].
  clear. revert st0. induction n as [| n IH]; intros st0; [reflexivity |].
  cbn [bump_n Nat.add]. apply IH.
Qed.

Lemma run_send_char_stuck (c : ascii) (s : state D) :
  I (st_dev s) ->
  let '(_, s', t) := run (uart_send_char c) s in
  let n := if Ascii.eqb c LF then 2%nat else 1%nat in
  I (st_dev s') /\ st_config s' = st_config s /\
  st_stats s' = bump_n TxErrors n (st_stats s) /\
  wire t = [] /\ sleeps t = (10000 * n)%nat.
Proof.
  intros Hs. rewrite uart_send_char_unfold, run_bind.
  destruct (Ascii.eqb c LF).
  - rewrite uart_send_char_unfold. change (Ascii.eqb CR LF) with false. cbn [bind].
    pose proof (run_send_char_body_stuck CR s Hs) as H1.
    destruct (run (send_char_body CR) s) as [[u1 s1] t1].
    destruct H1 as (Hd1 & Hc1 & Hst1 & Hw1 & Hsl1).
    pose proof (run_send_char_body_stuck c s1 Hd1) as H2.
    destruct (run (send_char_body c) s1) as [[u2 s2] t2].
    destruct H2 as (Hd2 & Hc2 & Hst2 & Hw2 & Hsl2).
    destruct (stuck_step 1 1 (st_stats s) (st_stats s1) (st_stats s2) t1 t2)
      as (A & B & C); try assumption; try (rewrite ?Hsl1, ?Hsl2; reflexivity).
    repeat split; try assumption. congruence.
  - cbn [run].
    pose proof (run_send_char_body_stuck c s Hs) as H2.
    destruct (run (send_char_body c) s) as [[u2 s2] t2].
    destruct H2 as (Hd2 & Hc2 & Hst2 & Hw2 & Hsl2).
    cbn [app]. repeat split; assumption.
Qed.

Lemma run_send_string_loop_stuck (str : list ascii) (s : state D) :
  I (st_dev s) ->
  let '(_, s', t) := run (send_string_loop str) s in
  I (st_dev s') /\ st_config s' = st_config s /\
  st_stats s' = bump_n TxErrors (send_attempts str) (st_stats s) /\
  wire t = [] /\ sleeps t = (10000 * send_attempts str)%nat.
Proof.
  assert (Hnil : forall s : state D, I (st_dev s) ->
            I (st_dev s) /\ st_config s = st_config s /\
            st_stats s = bump_n TxErrors 0 (st_stats s) /\
            wire [] = [] /\ sleeps [] = (10000 * 0)%nat).
  { intros s0 Hs0. split; [exact Hs0 |]. split; [reflexivity |].
    split; [reflexivity |]. split; [reflexivity |]. symmetry. apply Nat.mul_0_r. }
  revert s. induction str as [| c str IH]; intros s Hs.
  - exact (Hnil s Hs).
  - cbn [send_string_loop send_attempts].
    destruct (Ascii.eqb c NUL); [exact (Hnil s Hs) |].
    rewrite run_bind.
    assert (Hpre :
      let '(_, s', t) := run (if Ascii.eqb c LF then uart_send_char CR else Ret tt) s in
      let n := if Ascii.eqb c LF then 1%nat else 0%nat in
      I (st_dev s') /\ st_config s' = st_config s /\
      st_stats s' = bump_n TxErrors n (st_stats s) /\
      wire t = [] /\ sleeps t = (10000 * n)%nat).
    { destruct (Ascii.eqb c LF).
      - exact (run_send_char_stuck CR s Hs).
      - exact (Hnil s Hs). }
    destruct (run (if Ascii.eqb c LF then uart_send_char CR else Ret tt) s)
      as [[u0 s0] t0].
    destruct Hpre as (Hd0 & Hc0 & Hst0 & Hw0 & Hsl0).
    rewrite run_bind.
    pose proof (run_send_char_stuck c s0 Hd0) as H1.
    destruct (run (uart_send_char c) s0) as [[u1 s1] t1].
    destruct H1 as (Hd1 & Hc1 & Hst1 & Hw1 & Hsl1).
    specialize (IH s1 Hd1).
    destruct (run (send_string_loop str) s1) as [[u2 s2] t2].
    destruct IH as (Hd2 & Hc2 & Hst2 & Hw2 & Hsl2).
    destruct (stuck_step _ _ _ _ _ t1 t2 Hst1 Hst2 Hw1 Hw2 Hsl1 Hsl2) as (A & B & C).
    destruct (stuck_step _ _ _ _ _ t0 (t1 ++ t2) Hst0 A Hw0 B Hsl0 C) as (A' & B' & C').
    split; [exact Hd2 |]. split; [congruence |].
    destruct (Ascii.eqb c LF); cbn [Nat.add] in *.
    + split; [exact A' |]. split; [exact B' | exact C'].
    + split; [exact A' |]. split; [exact B' | exact C'].
Qed.

(** X10: on a device whose transmitter never reports space,
    [uart_proc_write] still returns [count], as for a write that went out.
    Nothing is written to [MU_IO]; each attempt sleeps 10000 times before
    giving up, all under the transmit mutex; and [tx_errors] goes up once
    per attempt (one per character, three per line feed), which is the
    only sign of the failure. *)
Theorem write_on_stuck_transmitter (bytes : list ascii) (count : Z) (s : state D) :
  I (st_dev s) ->
  0 <= count <= Z.of_nat (length bytes) ->
  let sent := firstn (Z.to_nat (Z.min count 511)) bytes ++ [NUL] in
  let '(r, s', t) := run (uart_proc_write (Some bytes) count) s in
  r = count /\ wire t = [] /\
  sleeps t = (10000 * send_attempts sent)%nat /\
  st_stats s' = bump_n TxErrors (send_attempts sent) (st_stats s) /\
  st_config s' = st_config s.
Proof.
  intros Hs Hc sent.
  unfold uart_proc_write, copy_from_user, KBUF_LIMIT.
  replace (Z.min count 511 <=? Z.of_nat (length bytes)) with true
    by (symmetry; apply Z.leb_le; lia).
  fold sent. rewrite run_bind. unfold uart_send_string.
  cbn [bind call run exec_op]. rewrite run_bind.
  pose proof (run_send_string_loop_stuck sent s Hs) as Hl.
  destruct (run (send_string_loop sent) s) as [[u s1] t1].
  destruct Hl as (Hd & Hcfg & Hst & Hw & Hsl).
  cbn [bind call run exec_op app].
  rewrite ?app_nil_r.
  split; [reflexivity |].
  change (EvLock uart_tx_mutex :: t1 ++ [EvUnlock uart_tx_mutex])
    with ([EvLock uart_tx_mutex] ++ t1 ++ [EvUnlock uart_tx_mutex]).
  rewrite !wire_app, !sleeps_app, Hw, Hsl. cbn [wire sleeps app].
  repeat split; try assumption. lia.
Qed.

End TxStuck.

Lemma silent_never_space : @tx_space_never unit silent_device (fun _ => True).
Proof. split; [intros d _; split; [reflexivity | exact I] | intros; exact I]. Qed.

Lemma write_on_stuck_transmitter_witness :
  let s := @mk_state unit initial_config zero_stats tt in
  @tx_space_never unit silent_device (fun _ => True) /\
  (fun _ : unit => True) (st_dev s) /\
  0 <= 2 <= Z.of_nat (length (chars "a" ++ [LF])) /\
  let sent := firstn (Z.to_nat (Z.min 2 511)) (chars "a" ++ [LF]) ++ [NUL] in
  let '(r, s', t) :=
    @run unit silent_device _ (uart_proc_write (Some (chars "a" ++ [LF])) 2) s in
  r = 2 /\ wire t = [] /\
  sleeps t = (10000 * send_attempts sent)%nat /\
  st_stats s' = bump_n TxErrors (send_attempts sent) (st_stats s) /\
  st_config s' = st_config s.
Proof.
  intros s.
  assert (H1 : (fun _ : unit => True) (st_dev s)) by exact I.
  assert (H2 : 0 <= 2 <= Z.of_nat (length (chars "a" ++ [LF]))) by (simpl; lia).
  split; [exact silent_never_space |]. split; [exact H1 |]. split; [exact H2 |].
  exact (@write_on_stuck_transmitter unit silent_device (fun _ => True)
           silent_never_space (chars "a" ++ [LF]) 2 s H1 H2).
Defined.
(* ------------------------------------------------------------------ *)
(** ** The overrun counter *)

Lemma overrun_app (t1 t2 : list event) :
  stat_stores FifoOverruns t1 = O -> stat_stores FifoOverruns t2 = O ->
  stat_stores FifoOverruns (t1 ++ t2) = O.
Proof. intros H1 H2. now rewrite stat_stores_app, H1, H2. Qed.

Section Overruns.
Context {D : Type} `{Device D}.
Hypothesis Hclear : lsr_read_clears_overrun (D := D).

Lemma overrun_neutral (o : op) (s : state D) :
  match o with
  | StoreStat FifoOverruns _ => False
  | _ => True
  end ->
  stat_stores FifoOverruns (snd (exec_op o s)) = O.
Proof.
  intros Ho. destruct o; cbn [exec_op snd]; try reflexivity.
  - destruct (dev_readl r (st_dev s)). reflexivity.
  - destruct f; try reflexivity; contradiction.
Qed.

Lemma overrun_free {A : Type} (allowed : op -> bool) (p : prog A) :
  (forall o, allowed o = true ->
     match o with
     | StoreStat FifoOverruns _ => False
     | _ => True
     end) ->
  uses_only allowed p ->
  every_run (D := D) (fun t => stat_stores FifoOverruns t = O) p.
Proof.
  intros Ha Hp. apply (every_uses _ eq_refl overrun_app allowed); [| exact Hp].
  intros o s Ho. apply overrun_neutral, Ha, Ho.
Qed.

(** The flag [uart_check_rx_errors] tests comes from a second read of
    [MU_LSR], right after the read of [uart_data_available]. *)
Lemma overrun_receive_char :
  every_run (D := D) (fun t => stat_stores FifoOverruns t = O) uart_receive_char.
Proof.
  intros s. unfold uart_receive_char, uart_data_available, uart_check_rx_errors.
  cbn [bind call run exec_op].
  pose proof (Hclear (st_dev s)) as Hc.
  destruct (dev_readl MU_LSR (st_dev s)) as [v d]. cbn [snd] in Hc.
  cbn [bind call run exec_op st_dev].
  destruct (Z.land (u32 v) 1 =? 0); [reflexivity |].
  cbn [bind call run exec_op st_dev].
  destruct (dev_readl MU_LSR d) as [v2 d2]. cbn [fst] in Hc.
  cbn [bind call run exec_op st_dev]. rewrite Hc.
  cbn [Z.eqb negb bind run]. rewrite run_bind, run_stat_incr.
  cbn [bind call run exec_op st_dev st_stats st_config].
  destruct (dev_readl MU_IO d2) as [v3 d3]. reflexivity.
Qed.

Lemma overrun_data_available :
  every_run (D := D) (fun t => stat_stores FifoOverruns t = O) uart_data_available.
Proof.
  unfold uart_data_available.
  repeat every_step overrun_app ltac:(apply overrun_neutral; exact I).
Qed.

Lemma overrun_rx_inner (fuel : nat) :
  forall count kbuf nd,
    every_run (D := D) (fun t => stat_stores FifoOverruns t = O)
              (rx_inner fuel count kbuf nd).
Proof.
  pose proof overrun_data_available as Ha. pose proof overrun_receive_char as Hc.
  induction fuel as [| fuel IH]; intros count kbuf nd; cbn [rx_inner];
    [apply every_ret; reflexivity |].
  apply (every_bind _ overrun_app); [exact Ha | intros avail].
  destruct (negb (avail =? 0) && (Z.of_nat (length kbuf) <? KBUF_LIMIT) &&
            (Z.of_nat (length kbuf) <? count)); [| apply every_ret; reflexivity].
  apply (every_bind _ overrun_app); [exact Hc | intros c].
  destruct (negb (Ascii.eqb c NUL)); apply IH.
Qed.

Lemma overrun_rx_outer (fuel : nat) :
  forall count kbuf nd,
    every_run (D := D) (fun t => stat_stores FifoOverruns t = O)
              (rx_outer fuel count kbuf nd).
Proof.
  pose proof overrun_data_available as Ha.
  induction fuel as [| fuel IH]; intros count kbuf nd; cbn [rx_outer];
    [apply every_ret; reflexivity |].
  destruct ((Z.of_nat (length kbuf) <? KBUF_LIMIT) &&
            (Z.of_nat (length kbuf) <? count)); [| apply every_ret; reflexivity].
  apply (every_bind _ overrun_app); [apply overrun_rx_inner | intros [[k1 nd1] |]];
    [| apply every_ret; reflexivity].
  rewrite nonneg_branch by lia.
  apply (every_bind _ overrun_app); [exact Ha | intros avail].
  destruct (avail =? 0); [| apply IH].
  apply (every_bind _ overrun_app);
    [unfold rx_idle;
     repeat every_step overrun_app ltac:(apply overrun_neutral; exact I)
    | intros [nd2 brk]].
  cbn [fst snd]. destruct brk; [apply every_ret; reflexivity | apply IH].
Qed.

Lemma overrun_proc_read (fuel : nat) (user_ok : bool) (count ppos : Z) :
  every_run (D := D) (fun t => stat_stores FifoOverruns t = O)
            (uart_proc_read fuel user_ok count ppos).
Proof.
  pose proof overrun_data_available as Ha.
  pose proof (overrun_rx_outer fuel count [] 0) as Ho.
  assert (Hwn : forall n, every_run (D := D) (fun t => stat_stores FifoOverruns t = O)
                            (rx_first_wait n)).
  { induction n; cbn [rx_first_wait];
      repeat every_step overrun_app ltac:(apply overrun_neutral; exact I). }
  pose proof (Hwn 1000%nat) as Hw. clear Hwn.
  unfold uart_proc_read, stat_incr.
  repeat every_step overrun_app ltac:(apply overrun_neutral; exact I).
Qed.

Lemma overrun_operation (o : operation) :
  every_run (D := D) (fun t => stat_stores FifoOverruns t = O) (operation_prog o).
Proof.
  destruct o;
    try (match goal with
         | |- every_run _ (operation_prog ?x) => apply (overrun_free (footprint x))
         end; [solve [footprint_sub_stat] | apply uses_operation]).
  cbn [operation_prog].
  apply (every_bind _ overrun_app);
    [apply overrun_proc_read | intros _; apply every_ret; reflexivity].
Qed.

(** X18: on a device where reading [MU_LSR] clears the overrun flag, no
    call ever counts an overrun: [uart_receive_char] looks for the flag in
    a second read of [MU_LSR], made right after the read by which
    [uart_data_available] found data, so it finds it clear; and nothing
    else increments [fifo_overruns]. *)
Theorem overruns_never_counted (o : operation) (s : state D) :
  let '(_, s', t) := run (operation_prog o) s in
  stat_stores FifoOverruns t = O /\
  (is_reset_stats o = false ->
   fifo_overruns (st_stats s') = fifo_overruns (st_stats s)).
Proof.
  pose proof (overrun_operation o s) as Hc.
  pose proof (counts_operation o) as Hadv.
  destruct (run (operation_prog o) s) as [[u s'] t] eqn:Hr. cbn [snd] in Hc.
  split; [exact Hc |]. intros Hnr. specialize (Hadv Hnr s). rewrite Hr in Hadv.
  destruct Hadv as [_ Hadv]. specialize (Hadv FifoOverruns).
  rewrite Hc in Hadv. exact Hadv.
Qed.

End Overruns.

Lemma sim_clears_overrun : @lsr_read_clears_overrun sim_dev sim_device.
Proof.
  intros [rx ov busy wr].
  cbn [dev_readl sim_device sim_readl snd fst sim_rx sim_overrun sim_tx_busy sim_written].
  apply sim_lsr_bit1.
Qed.

Lemma overruns_never_counted_witness :
  let o := OpRxRead 400 true 100 0 in
  let s := sim_state initial_config zero_stats (mk_sim (chars "abc") true 0 []) in
  @lsr_read_clears_overrun sim_dev sim_device /\
  let '(_, s', t) := run (operation_prog o) s in
  stat_stores FifoOverruns t = O /\
  (is_reset_stats o = false ->
   fifo_overruns (st_stats s') = fifo_overruns (st_stats s)).
Proof.
  intros o s. split; [exact sim_clears_overrun |].
  exact (overruns_never_counted sim_clears_overrun o s).
Defined.
(* ------------------------------------------------------------------ *)
(** ** What [uart_proc_read] returns, on any device *)

Section RxResult.
Context {D : Type} `{Device D}.

Lemma rx_inner_bound (fuel : nat) :
  forall (count : Z) (kbuf : list ascii) (nd : Z) (s : state D),
    Z.of_nat (length kbuf) <= 511 -> Z.of_nat (length kbuf) <= Z.max 0 count ->
    match fst (fst (run (rx_inner fuel count kbuf nd) s)) with
    | Some (kbuf', _) =>
        Z.of_nat (length kbuf') <= 511 /\ Z.of_nat (length kbuf') <= Z.max 0 count
    | None => True
    end.
Proof.
  induction fuel as [| fuel IH]; intros count kbuf nd s H1 H2; cbn [rx_inner].
  - exact I.
  - rewrite run_bind.
    destruct (run uart_data_available s) as [[avail s1] t1].
    destruct (negb (avail =? 0) && (Z.of_nat (length kbuf) <? KBUF_LIMIT) &&
              (Z.of_nat (length kbuf) <? count)) eqn:Hcond;
      [| split; assumption].
    apply andb_true_iff in Hcond. destruct Hcond as [Hcond Hc].
    apply andb_true_iff in Hcond. destruct Hcond as [_ Hl].
    apply Z.ltb_lt in Hc, Hl. unfold KBUF_LIMIT in Hl.
    rewrite run_bind.
    destruct (run uart_receive_char s1) as [[c s2] t2].
    destruct (negb (Ascii.eqb c NUL)).
    + assert (Hlen : Z.of_nat (length (kbuf ++ [c])) = Z.of_nat (length kbuf) + 1)
        by (rewrite length_app; simpl; lia).
      specialize (IH count (kbuf ++ [c]) 0 s2 ltac:(lia) ltac:(lia)).
      destruct (run (rx_inner fuel count (kbuf ++ [c]) 0) s2) as [[r s3] t3].
      exact IH.
    + specialize (IH count kbuf nd s2 H1 H2).
      destruct (run (rx_inner fuel count kbuf nd) s2) as [[r s3] t3].
      exact IH.
Qed.

Lemma rx_outer_bound (fuel : nat) :
  forall (count : Z) (kbuf : list ascii) (nd : Z) (s : state D),
    Z.of_nat (length kbuf) <= 511 -> Z.of_nat (length kbuf) <= Z.max 0 count ->
    match fst (fst (run (rx_outer fuel count kbuf nd) s)) with
    | Some kbuf' =>
        Z.of_nat (length kbuf') <= 511 /\ Z.of_nat (length kbuf') <= Z.max 0 count
    | None => True
    end.
Proof.
  induction fuel as [| fuel IH]; intros count kbuf nd s H1 H2; cbn [rx_outer].
  - exact I.
  - destruct ((Z.of_nat (length kbuf) <? KBUF_LIMIT) &&
              (Z.of_nat (length kbuf) <? count)); [| split; assumption].
    rewrite run_bind.
    pose proof (rx_inner_bound fuel count kbuf nd s H1 H2) as Hin.
    destruct (run (rx_inner fuel count kbuf nd) s) as [[[[k1 nd1] |] s1] t1];
      cbn [fst] in Hin; [| exact I].
    destruct Hin as [Hk1 Hk2].
    rewrite nonneg_branch by lia.
    rewrite run_bind.
    destruct (run uart_data_available s1) as [[avail s2] t2].
    destruct (avail =? 0).
    + rewrite run_bind.
      destruct (run (rx_idle nd1) s2) as [[[nd2 brk] s3] t3]. cbn [fst snd].
      destruct brk; [split; assumption |].
      specialize (IH count k1 nd2 s3 Hk1 Hk2).
      destruct (run (rx_outer fuel count k1 nd2) s3) as [[r s4] t4].
      exact IH.
    + specialize (IH count k1 nd1 s2 Hk1 Hk2).
      destruct (run (rx_outer fuel count k1 nd1) s2) as [[r s4] t4].
      exact IH.
Qed.

(** X11: whatever the device does, a call of [uart_proc_read] that returns
    either fails in the copy to the caller ([-EFAULT], nothing delivered,
    the position unchanged), or returns the number of bytes it delivers,
    which is at most 511 and at most [count], and advances the position by
    it; a call with [count] = 0 delivers nothing.  A call at a position
    above 0 returns 0 at once, touching neither the device nor the
    counters nor the mutex: after a read from position 0 (or above) that
    delivered something, a second read through the same position is an
    end of file, whatever the device holds. *)
Theorem proc_read_result (fuel : nat) (user_ok : bool) (count ppos : Z) (s : state D) :
  let '(res, s', t) := run (uart_proc_read fuel user_ok count ppos) s in
  (forall r, res = Some r ->
     (rd_ret r = - EFAULT /\ rd_data r = [] /\ rd_ppos r = ppos /\ user_ok = false) \/
     (rd_ret r = Z.of_nat (length (rd_data r)) /\ rd_ppos r = ppos + rd_ret r /\
      rd_ret r <= 511 /\ rd_ret r <= Z.max 0 count)) /\
  (0 < ppos -> res = Some (mk_read 0 [] ppos) /\ s' = s /\ t = []) /\
  (forall r, 0 <= ppos -> res = Some r -> 0 < rd_ret r ->
     forall fuel' user_ok' count',
       run (uart_proc_read fuel' user_ok' count' (rd_ppos r)) s' =
       (Some (mk_read 0 [] (rd_ppos r)), s', [])).
Proof.
  assert (Heof : forall fuel' user_ok' count' p (s0 : state D),
            0 < p ->
            run (uart_proc_read fuel' user_ok' count' p) s0 =
            (Some (mk_read 0 [] p), s0, [])).
  { intros fuel' user_ok' count' p s0 Hp. unfold uart_proc_read.
    replace (p >? 0) with true by (symmetry; apply Z.gtb_lt; lia). reflexivity. }
  assert (Hshape : forall r,
            fst (fst (run (uart_proc_read fuel user_ok count ppos) s)) = Some r ->
            (rd_ret r = - EFAULT /\ rd_data r = [] /\ rd_ppos r = ppos /\
             user_ok = false) \/
            (rd_ret r = Z.of_nat (length (rd_data r)) /\ rd_ppos r = ppos + rd_ret r /\
             rd_ret r <= 511 /\ rd_ret r <= Z.max 0 count)).
  { intros r. unfold uart_proc_read.
    assert (Hzero : Some (mk_read 0 [] ppos) = Some r ->
              (rd_ret r = - EFAULT /\ rd_data r = [] /\ rd_ppos r = ppos /\
               user_ok = false) \/
              (rd_ret r = Z.of_nat (length (rd_data r)) /\
               rd_ppos r = ppos + rd_ret r /\
               rd_ret r <= 511 /\ rd_ret r <= Z.max 0 count)).
    { intros Hr. injection Hr as <-. right. cbn [rd_ret rd_data rd_ppos length].
      repeat split; lia. }
    destruct (ppos >? 0); [exact Hzero |].
    cbn [bind call run exec_op]. rewrite run_bind.
    destruct (run (rx_first_wait 1000) s) as [[timeout s1] t1].
    destruct (timeout <=? 0); [exact Hzero |].
    rewrite run_bind.
    pose proof (rx_outer_bound fuel count [] 0 s1 ltac:(simpl; lia) ltac:(simpl; lia))
      as Hout.
    destruct (run (rx_outer fuel count [] 0) s1) as [[[k1 |] s2] t2];
      cbn [fst] in Hout; [| discriminate].
    destruct Hout as [Hk1 Hk2].
    cbn [bind call run exec_op].
    destruct (Z.of_nat (length k1) =? 0); [exact Hzero |].
    destruct user_ok.
    - cbn [run fst]. intros Hr. injection Hr as <-. right.
      cbn [rd_ret rd_data rd_ppos]. repeat split; assumption.
    - rewrite run_bind, run_stat_incr. cbn [run fst]. intros Hr. injection Hr as <-.
      left. repeat split. }
  destruct (run (uart_proc_read fuel user_ok count ppos) s) as [[res s'] t] eqn:Hrun.
  cbn [fst] in Hshape.
  split; [exact Hshape |]. split.
  - intros Hp. rewrite (Heof fuel user_ok count ppos s Hp) in Hrun.
    injection Hrun as <- <- <-. repeat split.
  - intros r Hnn Hr Hpos fuel' user_ok' count'. apply Heof.
    destruct (Hshape r Hr) as [(He & _) | (_ & Hp & _)].
    + unfold EFAULT in He. lia.
    + destruct (Z.gtb_spec ppos 0) as [Hgt | Hle].
      * rewrite (Heof fuel user_ok count ppos s Hgt) in Hrun.
        injection Hrun as <- <- <-. injection Hr as <-. cbn [rd_ret] in Hpos. lia.
      * rewrite Hp. lia.
Qed.

End RxResult.
(* ------------------------------------------------------------------ *)
(** ** A failed copy to the caller, on the simulated device *)

(** X19: when the copy to the caller fails, [uart_proc_read] returns
    [-EFAULT] with the position unchanged and [rx_errors] incremented; the
    bytes it had taken from the device are gone from the FIFO and counted
    in [rx_bytes], but delivered to no one: a second call does not get
    them. *)
Theorem failed_copy_loses_data (bytes : list ascii) (count ppos : Z) (fuel : nat)
        cfg st ov busy wr :
  ppos <= 0 ->
  forallb not_nul bytes = true ->
  1 <= Z.of_nat (length bytes) <= 511 ->
  Z.of_nat (length bytes) <= count ->
  (length bytes + 301 < fuel)%nat ->
  let '(r, s', t) :=
    run (uart_proc_read fuel false count ppos)
        (mk_state cfg st (mk_sim bytes ov busy wr)) in
  r = Some (mk_read (- EFAULT) [] ppos) /\
  sim_rx (st_dev s') = [] /\
  rx_bytes (st_stats s') = u64 (rx_bytes st + Z.of_nat (length bytes)) /\
  rx_errors (st_stats s') = u64 (rx_errors st + 1) /\
  st_config s' = cfg.
Proof.
  intros Hp Hnn HN Hc Hf.
  unfold uart_proc_read.
  replace (ppos >? 0) with false
    by (symmetry; destruct (Z.gtb_spec ppos 0); [lia | reflexivity]).
  assert (Hd : drain count [] bytes = ([] ++ bytes, []))
    by (apply drain_all; simpl; assumption || lia).
  assert (Hlen : (1 <= length bytes)%nat) by lia.
  destruct bytes as [| c rx]; [simpl in HN; lia |].
  cbn [bind call run exec_op]. rewrite run_bind, run_rx_first_wait_data.
  change (Z.of_nat 1000 <=? 0) with false. cbv iota.
  rewrite run_bind.
  destruct (run_rx_outer_sim fuel count (c :: rx) cfg st busy wr Hf) as [busy' Hr].
  rewrite Hr. clear Hr.
  rewrite Hd.
  cbn [fst snd app bind call run exec_op].
  replace (Z.of_nat (length (c :: rx)) =? 0) with false
    by (symmetry; apply Z.eqb_neq; lia).
  cbv iota. rewrite run_bind, run_stat_incr.
  cbn [run st_config st_stats st_dev sim_rx].
  rewrite Nat.sub_0_r, bump_n_rx by exact Hlen.
  split; [reflexivity |]. split; [reflexivity |].
  split; [reflexivity |]. split; reflexivity.
Qed.

Lemma failed_copy_loses_data_witness :
  0 <= 0 /\
  forallb not_nul (chars "abc") = true /\
  1 <= Z.of_nat (length (chars "abc")) <= 511 /\
  Z.of_nat (length (chars "abc")) <= 100 /\
  (length (chars "abc") + 301 < 400)%nat /\
  let '(r, s', t) :=
    run (uart_proc_read 400 false 100 0)
        (mk_state initial_config zero_stats (mk_sim (chars "abc") false 0 [])) in
  r = Some (mk_read (- EFAULT) [] 0) /\
  sim_rx (st_dev s') = [] /\
  rx_bytes (st_stats s') = u64 (rx_bytes zero_stats + Z.of_nat (length (chars "abc"))) /\
  rx_errors (st_stats s') = u64 (rx_errors zero_stats + 1) /\
  st_config s' = initial_config.
Proof.
  assert (H0 : 0 <= 0) by lia.
  assert (H1 : forallb not_nul (chars "abc") = true) by reflexivity.
  assert (H2 : 1 <= Z.of_nat (length (chars "abc")) <= 511) by (simpl; lia).
  assert (H3 : Z.of_nat (length (chars "abc")) <= 100) by (simpl; lia).
  assert (H4 : (length (chars "abc") + 301 < 400)%nat) by (simpl; lia).
  split; [exact H0 |]. split; [exact H1 |]. split; [exact H2 |].
  split; [exact H3 |]. split; [exact H4 |].
  exact (failed_copy_loses_data (chars "abc") 100 0 400
           initial_config zero_stats false 0 [] H0 H1 H2 H3 H4).
Defined.
(* ------------------------------------------------------------------ *)
(** ** The three text files *)

(** The decimal text of a number below [10 ^ k] has at most [k] digits. *)
Lemma decimal_length_pow (n : Z) (k : nat) :
  (1 <= k)%nat -> 0 <= n < 10 ^ Z.of_nat k -> (length (decimal n) <= k)%nat.
Proof.
  intros Hk Hn.
  assert (Hval : uint_value (N.to_uint (Z.to_N n)) 0 = n).
  { rewrite <- of_uint_value. change (Pos.of_uint ?d) with (N.of_uint d).
    rewrite DecimalN.Unsigned.of_to. lia. }
  assert (Hnorm : N.to_uint (Z.to_N n) = Decimal.unorm (N.to_uint (Z.to_N n))).
  { rewrite <- DecimalN.Unsigned.to_of, DecimalN.Unsigned.of_to. reflexivity. }
  unfold decimal, NilZero.string_of_uint.
  set (e := N.to_uint (Z.to_N n)) in *.
  unfold Decimal.unorm in Hnorm. pose proof (nzhead_head e) as Hh.
  destruct (Decimal.nzhead e) eqn:Enz; rewrite Hnorm; try (cbn; lia); try contradiction;
    rewrite Hnorm in Hval; cbn [uint_value] in Hval;
    cbn [NilEmpty.string_of_uint chars list_ascii_of_string length];
    match type of Hval with
    | uint_value ?l ?a = _ =>
        pose proof (uint_value_digits l a ltac:(lia)) as Hd;
        unfold chars in Hd;
        set (L := length (list_ascii_of_string (NilEmpty.string_of_uint l))) in *;
        destruct (le_lt_dec (S L) k) as [Hle | Hgt]; [exact Hle |];
        exfalso;
        assert (Hp : 10 ^ Z.of_nat k <= 10 ^ Z.of_nat L) by (apply Z.pow_le_mono_r; lia);
        nia
    end.
Qed.

Lemma decimal_length_u64 (n : Z) : is_u64 n -> (length (decimal n) <= 20)%nat.
Proof.
  intros Hn. unfold is_u64 in Hn. apply decimal_length_pow; [lia |].
  change (2 ^ 64) with 18446744073709551616 in Hn.
  change (10 ^ Z.of_nat 20) with 100000000000000000000. lia.
Qed.

Lemma decimal_length_small (n : Z) : 0 <= n <= 15 -> (length (decimal n) <= 2)%nat.
Proof.
  intros Hn. apply decimal_length_pow; [lia |].
  change (10 ^ Z.of_nat 2) with 100. lia.
Qed.

Lemma config_text_length (c : uart_config) :
  length (config_text c) =
  (289 + length (decimal (baudrate c)) + length (decimal (system_clock c)))%nat.
Proof.
  unfold config_text, line, dquote. rewrite !length_app.
  destruct (data_bits c =? DATA_BITS_8);
    cbn [length chars list_ascii_of_string]; lia.
Qed.

Lemma stats_text_length (s : uart_stats) :
  length (stats_text s) =
  (144 + length (decimal (tx_bytes s)) + length (decimal (rx_bytes s)) +
   length (decimal (tx_errors s)) + length (decimal (rx_errors s)) +
   length (decimal (fifo_overruns s)))%nat.
Proof.
  unfold stats_text, line, dquote. rewrite !length_app.
  cbn [length chars list_ascii_of_string]. lia.
Qed.

Lemma status_text_length (lsr stat : Z) :
  (length (status_text lsr stat) <= 149)%nat.
Proof.
  assert (Hf : forall x, 0 <= Z.land x 15 <= 15).
  { intros x. change (Z.land x 15) with (Z.land x (Z.ones 4)).
    rewrite Z.land_ones by lia. change (2 ^ 4) with 16.
    pose proof (Z.mod_pos_bound x 16 ltac:(lia)). lia. }
  pose proof (decimal_length_small _ (Hf (Z.shiftr stat 24))) as H1.
  pose proof (decimal_length_small _ (Hf (Z.shiftr stat 16))) as H2.
  unfold status_text, line, yes_no. rewrite !length_app.
  destruct (negb (Z.land lsr 32 =? 0)), (negb (Z.land stat 512 =? 0)),
           (negb (Z.land lsr 1 =? 0)), (negb (Z.land lsr 2 =? 0));
    cbn [length chars list_ascii_of_string]; lia.
Qed.

Lemma texts_fit_buffer_lengths :
  (forall c : uart_config,
     is_u32 (baudrate c) -> is_u32 (system_clock c) ->
     (length (config_text c) <= 309)%nat) /\
  (forall st : uart_stats,
     (forall f, is_u64 (get_stat f st)) -> (length (stats_text st) <= 244)%nat) /\
  (forall lsr stat : Z, (length (status_text lsr stat) <= 149)%nat).
Proof.
  split; [| split].
  - intros c Hb Hc.
    pose proof (decimal_length _ Hb) as H1. pose proof (decimal_length _ Hc) as H2.
    pose proof (config_text_length c) as Hl. lia.
  - intros st Hst.
    pose proof (decimal_length_u64 _ (Hst TxBytes)) as H1.
    pose proof (decimal_length_u64 _ (Hst RxBytes)) as H2.
    pose proof (decimal_length_u64 _ (Hst TxErrors)) as H3.
    pose proof (decimal_length_u64 _ (Hst RxErrors)) as H4.
    pose proof (decimal_length_u64 _ (Hst FifoOverruns)) as H5.
    cbn [get_stat] in *.
    pose proof (stats_text_length st) as Hl. lia.
  - apply status_text_length.
Qed.

(** X13: the text each of the three files prints fits the 512-byte buffer
    it is printed into, with room for the terminator, for every value the
    fields can hold (32-bit configuration, 64-bit counters, any register
    values): [snprintf] never truncates, and the length it returns never
    exceeds what the buffer holds. *)
Theorem texts_fit_buffer :
  (forall c : uart_config,
     is_u32 (baudrate c) -> is_u32 (system_clock c) ->
     (length (config_text c) <= 309)%nat /\ firstn 511 (config_text c) = config_text c) /\
  (forall st : uart_stats,
     (forall f, is_u64 (get_stat f st)) ->
     (length (stats_text st) <= 244)%nat /\ firstn 511 (stats_text st) = stats_text st) /\
  (forall lsr stat : Z,
     (length (status_text lsr stat) <= 149)%nat /\
     firstn 511 (status_text lsr stat) = status_text lsr stat).
Proof.
  destruct texts_fit_buffer_lengths as (H1 & H2 & H3).
  split; [| split].
  - intros c Hb Hc. pose proof (H1 c Hb Hc).
    split; [assumption | apply firstn_all2; lia].
  - intros st Hst. pose proof (H2 st Hst).
    split; [assumption | apply firstn_all2; lia].
  - intros lsr stat. pose proof (H3 lsr stat).
    split; [assumption | apply firstn_all2; lia].
Qed.

Lemma read_text_delivered (text : list ascii) (count : Z) :
  0 < count -> (length text <= 511)%nat ->
  delivered text count (read_text text true count 0).
Proof.
  intros Hc Hl. unfold delivered, read_text.
  rewrite (firstn_all2 (n := 511) text) by lia.
  cbn [orb rd_data rd_ret rd_ppos].
  destruct (Z.gtb_spec (Z.of_nat (length text)) count) as [Hgt | Hle].
  - rewrite length_firstn. repeat split; lia.
  - rewrite Nat2Z.id, firstn_all, (firstn_all2 (n := Z.to_nat count)) by lia.
    repeat split; lia.
Qed.

(** With something to copy, a caller whose buffer cannot be written gets
    [-EFAULT]. *)
Lemma read_text_fault (text : list ascii) (count ppos : Z) :
  0 < count -> text <> [] ->
  read_text text false count ppos = mk_read (- EFAULT) [] ppos.
Proof.
  intros Hc Hne. unfold read_text. cbn [orb].
  assert (Hl : 0 < Z.of_nat (length text))
    by (destruct text; [congruence | simpl length; lia]).
  destruct (Z.gtb_spec (Z.of_nat (length text)) count) as [Hgt | Hle];
    match goal with
    | |- (if ?x <=? 0 then _ else _) = _ =>
        destruct (Z.leb_spec x 0) as [H0 | H0]; [lia | reflexivity]
    end.
Qed.

Section TextFiles.
Context {D : Type} `{Device D}.

(** X12: a first read (position 0, a positive [count], a caller whose
    buffer can be written) of the config, stats or status file delivers the
    first [count] characters of the text, returns their number and leaves
    it as the position; reading the config or stats file touches neither
    the device nor the driver's state.  A read at that position returns 0
    at once: when [count] is smaller than the text, what was cut off is not
    delivered by a second read.  A caller whose buffer cannot be written
    gets [-EFAULT] and the position stays. *)
Theorem text_read_protocol (count : Z) (s : state D) :
  0 < count ->
  is_u32 (baudrate (st_config s)) -> is_u32 (system_clock (st_config s)) ->
  (forall f, is_u64 (get_stat f (st_stats s))) ->
  (let '(r, s', t) := run (uart_config_read true count 0) s in
   delivered (config_text (st_config s)) count r /\ 0 < rd_ret r /\ s' = s /\ t = [] /\
   forall ok' count',
     run (uart_config_read ok' count' (rd_ppos r)) s' = (mk_read 0 [] (rd_ppos r), s', [])) /\
  (let '(r, s', t) := run (uart_stats_read true count 0) s in
   delivered (stats_text (st_stats s)) count r /\ 0 < rd_ret r /\ s' = s /\ t = [] /\
   forall ok' count',
     run (uart_stats_read ok' count' (rd_ppos r)) s' = (mk_read 0 [] (rd_ppos r), s', [])) /\
  (let '(r, s', t) := run (uart_status_read true count 0) s in
   let lsr := dev_readl MU_LSR (st_dev s) in
   let stat := dev_readl MU_STAT (snd lsr) in
   delivered (status_text (u32 (fst lsr)) (u32 (fst stat))) count r /\ 0 < rd_ret r /\
   s' = mk_state (st_config s) (st_stats s) (snd stat) /\ t = [] /\
   forall ok' count',
     run (uart_status_read ok' count' (rd_ppos r)) s' = (mk_read 0 [] (rd_ppos r), s', [])) /\
  fst (fst (run (uart_config_read false count 0) s)) = mk_read (- EFAULT) [] 0 /\
  fst (fst (run (uart_stats_read false count 0) s)) = mk_read (- EFAULT) [] 0 /\
  fst (fst (run (uart_status_read false count 0) s)) = mk_read (- EFAULT) [] 0.
Proof.
  intros Hc Hb Hclk Hst.
  assert (Hpos : forall text r, delivered text count r -> text <> [] -> 0 < rd_ret r).
  { intros text r (_ & _ & Hr & _) Hne. rewrite Hr.
    destruct text; [congruence | simpl length; lia]. }
  assert (Heof : forall (r : read_result) (b : bool) (A : Type) (x y : A),
            0 < rd_ret r -> rd_ppos r = rd_ret r ->
            (if rd_ppos r >? 0 then x else y) = x).
  { intros r b A x y Hr Hp. rewrite Hp.
    replace (rd_ret r >? 0) with true by (symmetry; apply Z.gtb_lt; lia). reflexivity. }
  split; [| split; [| split; [| split; [| split]]]].
  - unfold uart_config_read at 1. change (0 >? 0) with false. cbv iota.
    cbn [bind call run exec_op get_cfg].
    assert (Hcfg : mk_config (baudrate (st_config s)) (data_bits (st_config s))
                     (system_clock (st_config s)) = st_config s)
      by (destruct (st_config s); reflexivity).
    rewrite Hcfg.
    destruct texts_fit_buffer_lengths as (Hfit & _ & _).
    pose proof (read_text_delivered (config_text (st_config s)) count Hc
                  ltac:(pose proof (Hfit (st_config s) Hb Hclk); lia)) as Hd.
    split; [exact Hd |].
    assert (Hr : 0 < rd_ret (read_text (config_text (st_config s)) true count 0))
      by (apply (Hpos _ _ Hd); unfold config_text, line; discriminate).
    split; [exact Hr |]. split; [reflexivity |]. split; [reflexivity |].
    intros ok' count'. unfold uart_config_read.
    rewrite (Heof _ true); [reflexivity | exact Hr | apply Hd].
  - unfold uart_stats_read at 1. change (0 >? 0) with false. cbv iota.
    cbn [bind call run exec_op get_stat].
    assert (Hsts : mk_stats (tx_bytes (st_stats s)) (rx_bytes (st_stats s))
                     (tx_errors (st_stats s)) (rx_errors (st_stats s))
                     (fifo_overruns (st_stats s)) = st_stats s)
      by (destruct (st_stats s); reflexivity).
    rewrite Hsts.
    destruct texts_fit_buffer_lengths as (_ & Hfit & _).
    pose proof (read_text_delivered (stats_text (st_stats s)) count Hc
                  ltac:(pose proof (Hfit (st_stats s) Hst); lia)) as Hd.
    split; [exact Hd |].
    assert (Hr : 0 < rd_ret (read_text (stats_text (st_stats s)) true count 0))
      by (apply (Hpos _ _ Hd); unfold stats_text, line; discriminate).
    split; [exact Hr |]. split; [reflexivity |]. split; [reflexivity |].
    intros ok' count'. unfold uart_stats_read.
    rewrite (Heof _ true); [reflexivity | exact Hr | apply Hd].
  - unfold uart_status_read at 1. change (0 >? 0) with false. cbv iota.
    cbn [bind call run exec_op]. cbv zeta.
    destruct (dev_readl MU_LSR (st_dev s)) as [lsr d1]. cbn [fst snd st_dev].
    destruct (dev_readl MU_STAT d1) as [stat d2]. cbn [fst snd run app].
    destruct texts_fit_buffer_lengths as (_ & _ & Hfit).
    pose proof (read_text_delivered (status_text (u32 lsr) (u32 stat)) count Hc
                  ltac:(pose proof (Hfit (u32 lsr) (u32 stat)); lia)) as Hd.
    split; [exact Hd |].
    assert (Hr : 0 < rd_ret (read_text (status_text (u32 lsr) (u32 stat)) true count 0))
      by (apply (Hpos _ _ Hd); unfold status_text, line; discriminate).
    split; [exact Hr |]. split; [reflexivity |]. split; [reflexivity |].
    intros ok' count'. unfold uart_status_read.
    rewrite (Heof _ true); [reflexivity | exact Hr | apply Hd].
  - unfold uart_config_read. change (0 >? 0) with false. cbv iota.
    cbn [bind call run exec_op fst].
    apply read_text_fault; [exact Hc | unfold config_text, line; discriminate].
  - unfold uart_stats_read. change (0 >? 0) with false. cbv iota.
    cbn [bind call run exec_op fst].
    apply read_text_fault; [exact Hc | unfold stats_text, line; discriminate].
  - unfold uart_status_read. change (0 >? 0) with false. cbv iota.
    cbn [bind call run exec_op].
    destruct (dev_readl MU_LSR (st_dev s)) as [lsr d1]. cbn [st_dev].
    destruct (dev_readl MU_STAT d1) as [stat d2]. cbn [run fst].
    apply read_text_fault; [exact Hc | unfold status_text, line; discriminate].
Qed.

End TextFiles.

Lemma text_read_protocol_witness :
  let s := sim_state initial_config zero_stats (sim_with_rx []) in
  0 < 16 /\
  is_u32 (baudrate (st_config s)) /\ is_u32 (system_clock (st_config s)) /\
  (forall f, is_u64 (get_stat f (st_stats s))) /\
  let '(r, s', t) := run (uart_config_read true 16 0) s in
  delivered (config_text (st_config s)) 16 r /\ 0 < rd_ret r /\ s' = s /\ t = [] /\
  forall ok' count',
    run (uart_config_read ok' count' (rd_ppos r)) s' = (mk_read 0 [] (rd_ppos r), s', []).
Proof.
  intros s.
  assert (H1 : 0 < 16) by lia.
  assert (H2 : is_u32 (baudrate (st_config s)))
    by (vm_compute; split; [discriminate | reflexivity]).
  assert (H3 : is_u32 (system_clock (st_config s)))
    by (vm_compute; split; [discriminate | reflexivity]).
  assert (H4 : forall f, is_u64 (get_stat f (st_stats s)))
    by (intros []; (vm_compute; split; [discriminate | reflexivity])).
  split; [exact H1 |]. split; [exact H2 |]. split; [exact H3 |]. split; [exact H4 |].
  destruct (text_read_protocol 16 s H1 H2 H3 H4) as (W & _).
  exact W.
Defined.

(* ------------------------------------------------------------------ *)
(** ** The pins *)

Lemma u32_bits_high (x i : Z) : 32 <= i -> Z.testbit (u32 x) i = false.
Proof. intros Hi. unfold u32. apply Z.mod_pow2_bits_high. lia. Qed.

Lemma u32_u32 (x : Z) : u32 (u32 x) = u32 x.
Proof. unfold u32. apply Z.mod_mod. lia. Qed.

Lemma bit_cases (i : Z) :
  0 <= i ->
  i = 0 \/ i = 1 \/ i = 2 \/ i = 3 \/ i = 4 \/ i = 5 \/ i = 6 \/ i = 7 \/
  i = 8 \/ i = 9 \/ i = 10 \/ i = 11 \/ i = 12 \/ i = 13 \/ i = 14 \/ i = 15 \/
  i = 16 \/ i = 17 \/ i = 18 \/ i = 19 \/ i = 20 \/ i = 21 \/ i = 22 \/ i = 23 \/
  i = 24 \/ i = 25 \/ i = 26 \/ i = 27 \/ i = 28 \/ i = 29 \/ i = 30 \/ i = 31 \/
  32 <= i.
Proof. lia. Qed.

(** The value written back to a pin register: the bits of [mask] are kept
    from the value read, those of [set] are set; both are 32-bit
    constants. *)
Lemma field_update_bits (v mask set i : Z) :
  0 <= i ->
  Z.testbit (Z.lor (Z.land (u32 v) (u32 mask)) set) i =
  (Z.testbit (u32 v) i && Z.testbit (u32 mask) i) || Z.testbit set i.
Proof. intros Hi. now rewrite Z.lor_spec, Z.land_spec. Qed.

Section Pins.
Context {D : Type} `{Device D}.

(** X14: [uart_init_gpio] rewrites two registers and nothing else.  In
    [GPFSEL1] it sets the function fields of GPIO14 (bits 12-14) and GPIO15
    (bits 15-17) to ALT5 = 2 and keeps every other bit as read; in
    [GPPUPPDN0] it sets the pull of GPIO14 (bits 28-29) to none = 0 and
    that of GPIO15 (bits 30-31) to up = 1 and keeps every other bit as
    read; then it spins 150 times.  Configuration and statistics are not
    touched. *)
Theorem init_gpio_fields (s : state D) :
  let '(_, s', t) := run uart_init_gpio s in
  exists v1 v2 w1 w2 : Z,
    v1 = u32 (fst (dev_readl GPFSEL1 (st_dev s))) /\
    v2 = u32 (fst (dev_readl GPPUPPDN0
                     (dev_writel w1 GPFSEL1 (snd (dev_readl GPFSEL1 (st_dev s)))))) /\
    reg_writes t = [(GPFSEL1, w1); (GPPUPPDN0, w2)] /\
    (forall i, 0 <= i ->
       Z.testbit w1 i =
       if (12 <=? i) && (i <? 18) then (i =? 13) || (i =? 16) else Z.testbit v1 i) /\
    (forall i, 0 <= i ->
       Z.testbit w2 i =
       if (28 <=? i) && (i <? 32) then i =? 30 else Z.testbit v2 i) /\
    relaxes t = 150%nat /\
    st_config s' = st_config s /\ st_stats s' = st_stats s.
Proof.
  unfold uart_init_gpio. cbn [bind call run exec_op st_dev st_config st_stats].
  destruct (dev_readl GPFSEL1 (st_dev s)) as [r1 d1]. cbn [fst snd].
  cbv zeta. cbn [bind call run exec_op st_dev st_config st_stats].
  set (w1 := u32 (Z.lor (Z.land (u32 r1)
                    (u32 (Z.lnot (Z.lor (Z.shiftl 7 12) (Z.shiftl 7 15)))))
                  (Z.lor (Z.shiftl GPIO_FSEL_ALT5 12) (Z.shiftl GPIO_FSEL_ALT5 15)))).
  destruct (dev_readl GPPUPPDN0 (dev_writel w1 GPFSEL1 d1)) as [r2 d2] eqn:E2.
  cbn [bind call run exec_op st_dev st_config st_stats].
  set (w2 := u32 (Z.lor (Z.land (u32 r2)
                    (u32 (Z.lnot (Z.lor (Z.shiftl 3 28) (Z.shiftl 3 30)))))
                  (Z.lor (Z.shiftl GPIO_PUPDN_NONE 28) (Z.shiftl GPIO_PUPDN_UP 30)))).
  assert (Hdelay : forall n (s0 : state D),
            run (delay_cycles n) s0 = (tt, s0, repeat EvRelax n)).
  { induction n as [| n IH]; intros s0; cbn [delay_cycles]; [reflexivity |].
    cbn [bind call run exec_op]. rewrite IH. reflexivity. }
  rewrite Hdelay. cbn [run app].
  assert (Hrelax : forall n, relaxes (repeat EvRelax n) = n /\
                             reg_writes (repeat EvRelax n) = [])
    by (induction n as [| n [IH1 IH2]]; cbn; [split; reflexivity | now rewrite IH1, IH2]).
  exists (u32 r1), (u32 r2), w1, w2.
  split; [reflexivity |]. split; [rewrite E2; reflexivity |].
  split; [cbn [reg_writes app]; now rewrite (proj2 (Hrelax 150%nat)) |].
  split; [| split; [| split; [| split; reflexivity]]].
  - intros i Hi. unfold w1.
    destruct (bit_cases i Hi) as
      [-> | [-> | [-> | [-> | [-> | [-> | [-> | [-> | [-> | [-> | [-> | [-> |
      [-> | [-> | [-> | [-> | [-> | [-> | [-> | [-> | [-> | [-> | [-> | [-> |
      [-> | [-> | [-> | [-> | [-> | [-> | [-> | [-> | Hhi]]]]]]]]]]]]]]]]]]]]]]]]]]]]]]]];
      try (unfold u32 at 1; rewrite Z.mod_pow2_bits_low by lia;
           rewrite field_update_bits by lia;
           destruct (Z.testbit (u32 r1) _); reflexivity).
    rewrite !u32_bits_high by lia.
    replace ((12 <=? i) && (i <? 18)) with false
      by (symmetry; apply andb_false_iff; right; apply Z.ltb_ge; lia).
    reflexivity.
  - intros i Hi. unfold w2.
    destruct (bit_cases i Hi) as
      [-> | [-> | [-> | [-> | [-> | [-> | [-> | [-> | [-> | [-> | [-> | [-> |
      [-> | [-> | [-> | [-> | [-> | [-> | [-> | [-> | [-> | [-> | [-> | [-> |
      [-> | [-> | [-> | [-> | [-> | [-> | [-> | [-> | Hhi]]]]]]]]]]]]]]]]]]]]]]]]]]]]]]]];
      try (unfold u32 at 1; rewrite Z.mod_pow2_bits_low by lia;
           rewrite field_update_bits by lia;
           destruct (Z.testbit (u32 r2) _); reflexivity).
    rewrite !u32_bits_high by lia.
    replace ((28 <=? i) && (i <? 32)) with false
      by (symmetry; apply andb_false_iff; right; apply Z.ltb_ge; lia).
    reflexivity.
  - cbn [relaxes app]. apply (proj1 (Hrelax 150%nat)).
Qed.

End Pins.
(* ------------------------------------------------------------------ *)
(** ** Loading and unloading the module *)

Lemma wire_nil_app (t1 t2 : list event) :
  wire t1 = [] -> wire t2 = [] -> wire (t1 ++ t2) = [].
Proof. intros H1 H2. now rewrite wire_app, H1, H2. Qed.

Section Attach.
Context {D : Type} `{Device D}.

Lemma wire_neutral (o : op) (s : state D) :
  match o with Writel _ MU_IO => False | _ => True end ->
  wire (snd (exec_op o s)) = [].
Proof.
  intros Ho. destruct o; cbn [exec_op snd]; try reflexivity.
  - destruct (dev_readl r (st_dev s)). reflexivity.
  - destruct r; try reflexivity; contradiction.
Qed.

Lemma run_init_gpio_quiet (s : state D) :
  let '(_, s', t) := run uart_init_gpio s in
  wire t = [] /\ st_config s' = st_config s.
Proof.
  assert (Hw : every_run (D := D) (fun t => wire t = []) uart_init_gpio).
  { apply (every_uses _ eq_refl wire_nil_app init_gpio_footprint);
      [| apply uses_init_gpio].
    intros o s0 Ho. apply wire_neutral.
    destruct o; try exact I. destruct r; try exact I; discriminate. }
  assert (Hc : st_config (snd (fst (run uart_init_gpio s))) = st_config s).
  { apply (uses_keeps_config init_gpio_footprint (fun c => c = st_config s));
      [| apply uses_init_gpio | reflexivity].
    intros o s0 Ho Hs0. pose proof (exec_op_config o s0) as Hc.
    destruct o; try (rewrite Hc; exact Hs0); discriminate. }
  specialize (Hw s).
  destruct (run uart_init_gpio s) as [[u s'] t]. split; assumption.
Qed.

(** The state in which [uart_driver_init] sends its greeting. *)
Lemma run_init_steps (s : state D) :
  run (uart_init_gpio ;; uart_init_hardware) s =
  let '(_, s1, t1) := run uart_init_gpio s in
  let '(r, s2, t2) := run uart_init_hardware s1 in
  (r, s2, t1 ++ t2).
Proof. apply run_bind. Qed.

(** X16: [uart_driver_init] returns 0 exactly when the kernel grants the
    two mappings and the five /proc entries and the divisor for the
    configured rate can be computed; it returns [-EINVAL] exactly when the
    mappings are granted and the divisor cannot be computed, and [-ENOMEM]
    otherwise.  Whatever fails, everything obtained before has been given
    back, last obtained first, when the function returns, and nothing was
    written to [MU_IO]; if a mapping fails no register is touched at all.
    On success the seven resources are held and the wire carries what
    [uart_send_string] makes of the greeting. *)
Theorem driver_init_resources (ok : resource -> bool) (s : state D) :
  let '((ret, log), s', t) := run (uart_driver_init ok) s in
  (ret = 0 \/ ret = - ENOMEM \/ ret = - EINVAL) /\
  (ret = 0 <->
   forallb ok all_resources = true /\
   exists v, baud_register (system_clock (st_config s)) (baudrate (st_config s)) =
             BaudReg v) /\
  (ret = - EINVAL <->
   ok GpioMap && ok UartMap = true /\
   exists e, baud_register (system_clock (st_config s)) (baudrate (st_config s)) =
             BaudErr e) /\
  held_after log [] = Some (if ret =? 0 then rev all_resources else []) /\
  (ret <> 0 -> wire t = []) /\
  (ret = 0 ->
   wire t =
   wire (snd (run (uart_send_string loaded_message)
                  (snd (fst (run (uart_init_gpio ;; uart_init_hardware) s)))))) /\
  (ok GpioMap && ok UartMap = false -> t = [] /\ s' = s).
Proof.
  assert (Hmap : forall log : list kcall,
            held_after log [] = Some [] ->
            forallb ok all_resources = false ->
            ok GpioMap && ok UartMap = false ->
            let '((ret, log0), s', t) :=
              (@pair (Z * list kcall * state D) (list event) (- ENOMEM, log, s) []) in
            (ret = 0 \/ ret = - ENOMEM \/ ret = - EINVAL) /\
            (ret = 0 <->
             forallb ok all_resources = true /\
             exists v, baud_register (system_clock (st_config s))
                         (baudrate (st_config s)) = BaudReg v) /\
            (ret = - EINVAL <->
             ok GpioMap && ok UartMap = true /\
             exists e, baud_register (system_clock (st_config s))
                         (baudrate (st_config s)) = BaudErr e) /\
            held_after log0 [] = Some (if ret =? 0 then rev all_resources else []) /\
            (ret <> 0 -> wire t = []) /\
            (ret = 0 ->
             wire t =
             wire (snd (run (uart_send_string loaded_message)
                            (snd (fst (run (uart_init_gpio ;; uart_init_hardware) s)))))) /\
            (ok GpioMap && ok UartMap = false -> t = [] /\ s' = s)).
  { intros log Hlog Hall Hm. rewrite Hall, Hm. unfold ENOMEM, EINVAL.
    split; [right; left; reflexivity |].
    split; [split; [discriminate | intros [Hx _]; discriminate] |].
    split; [split; [discriminate | intros [Hx _]; discriminate] |].
    split; [exact Hlog |]. split; [reflexivity |].
    split; [discriminate | intros _; split; reflexivity]. }
  unfold uart_driver_init.
  destruct (ok GpioMap) eqn:Eg; cbn [negb];
    [| cbn [run]; apply Hmap;
       [ reflexivity
       | cbn [all_resources forallb]; rewrite ?Eg; reflexivity
       | rewrite ?Eg; reflexivity ] ].
  cbv zeta.
  destruct (ok UartMap) eqn:Eu; cbn [negb];
    [| cbn [run]; apply Hmap;
       [ reflexivity
       | cbn [all_resources forallb]; rewrite ?Eg, ?Eu; reflexivity
       | rewrite ?Eg, ?Eu; reflexivity ] ].
  clear Hmap. rewrite ?Eg, ?Eu. cbn [andb].
  rewrite run_init_steps. rewrite run_bind.
  pose proof (run_init_gpio_quiet s) as Hg.
  destruct (run uart_init_gpio s) as [[u s1] t1]. destruct Hg as [Hw1 Hc1].
  rewrite run_bind.
  pose proof (run_init_hardware s1) as Hh. rewrite Hc1 in Hh.
  destruct (baud_register (system_clock (st_config s)) (baudrate (st_config s)))
    as [v | e] eqn:Hb.
  - destruct (run uart_init_hardware s1) as [[r s2] t2].
    destruct Hh as (-> & Hc2 & Hs2 & Ht2).
    assert (Hw2 : wire t2 = []) by (rewrite Ht2; reflexivity).
    assert (Hw12 : wire (t1 ++ t2) = []) by (apply wire_nil_app; assumption).
    clear Ht2. cbn [Z.eqb negb fst snd].
    assert (Hfail : forall log : list kcall,
              held_after log [] = Some [] ->
              forallb ok all_resources = false ->
              let '((ret, log0), s', t) :=
                (@pair (Z * list kcall * state D) (list event)
                   (- ENOMEM, log, s2) (t1 ++ t2 ++ [])) in
              (ret = 0 \/ ret = - ENOMEM \/ ret = - EINVAL) /\
              (ret = 0 <->
               forallb ok all_resources = true /\
               exists v0, BaudReg v = BaudReg v0) /\
              (ret = - EINVAL <-> true = true /\ exists e, BaudReg v = BaudErr e) /\
              held_after log0 [] = Some (if ret =? 0 then rev all_resources else []) /\
              (ret <> 0 -> wire t = []) /\
              (ret = 0 ->
               wire t = wire (snd (run (uart_send_string loaded_message) s2))) /\
              (true = false -> t = [] /\ s' = s)).
    { intros log Hlog Hall. rewrite app_nil_r, Hall.
      unfold ENOMEM, EINVAL in *.
      split; [right; left; reflexivity |].
      split; [split; [discriminate | intros [Hx _]; discriminate] |].
      split; [split; [discriminate | intros [_ [e He]]; discriminate] |].
      split; [exact Hlog |]. split; [intros _; exact Hw12 |].
      split; discriminate. }
    destruct (ok (ProcEntry PROC_UART_TX)) eqn:E1; cbn [negb];
      [| cbn [run]; apply Hfail;
         [reflexivity | cbn [all_resources forallb]; rewrite ?Eg, ?Eu, ?E1; reflexivity] ].
    destruct (ok (ProcEntry PROC_UART_RX)) eqn:E2; cbn [negb];
      [| cbn [run]; apply Hfail;
         [reflexivity | cbn [all_resources forallb]; rewrite ?Eg, ?Eu, ?E1, ?E2; reflexivity] ].
    destruct (ok (ProcEntry PROC_UART_CONFIG)) eqn:E3; cbn [negb];
      [| cbn [run]; apply Hfail;
         [reflexivity | cbn [all_resources forallb]; rewrite ?Eg, ?Eu, ?E1, ?E2, ?E3; reflexivity] ].
    destruct (ok (ProcEntry PROC_UART_STATUS)) eqn:E4; cbn [negb];
      [| cbn [run]; apply Hfail;
         [reflexivity
         | cbn [all_resources forallb]; rewrite ?Eg, ?Eu, ?E1, ?E2, ?E3, ?E4; reflexivity] ].
    destruct (ok (ProcEntry PROC_UART_STATS)) eqn:E5; cbn [negb];
      [| cbn [run]; apply Hfail;
         [reflexivity
         | cbn [all_resources forallb]; rewrite ?Eg, ?Eu, ?E1, ?E2, ?E3, ?E4, ?E5; reflexivity] ].
    clear Hfail. rewrite run_bind.
    destruct (run (uart_send_string loaded_message) s2) as [[u3 s3] t3].
    cbn [run snd]. rewrite app_nil_r.
    unfold ENOMEM, EINVAL.
    split; [left; reflexivity |].
    split; [split; [intros _ | reflexivity] |].
    { split; [cbn [all_resources forallb]; rewrite ?Eg, ?Eu, ?E1, ?E2, ?E3, ?E4, ?E5; reflexivity
             | exists v; reflexivity]. }
    split; [split; [discriminate | intros [_ [e He]]; discriminate] |].
    split; [reflexivity |]. split; [intros Hx; congruence |].
    split; [| discriminate].
    intros _. now rewrite app_assoc, wire_app, Hw12.
  - rewrite Hh. cbn [fst snd].
    replace (- EINVAL =? 0) with false by reflexivity. cbn [negb run].
    rewrite ?app_nil_r.
    unfold ENOMEM, EINVAL.
    split; [right; right; reflexivity |].
    split; [split; [discriminate | intros [_ [v Hv]]; discriminate] |].
    split; [split; [intros _; split; [reflexivity | exists e; reflexivity]
                    | reflexivity] |].
    split; [reflexivity |]. split; [intros _; exact Hw1 |].
    split; discriminate.
Qed.

(** Loading that succeeds has obtained the seven resources, in order, and
    given none back. *)
Lemma driver_init_held (ok : resource -> bool) (s : state D) :
  let '((ret, log), _, _) := run (uart_driver_init ok) s in
  ret = 0 -> log = map Obtained all_resources.
Proof.
  unfold uart_driver_init.
  destruct (ok GpioMap); cbn [negb]; [| cbn [run]; discriminate].
  cbv zeta.
  destruct (ok UartMap); cbn [negb]; [| cbn [run]; discriminate].
  rewrite run_bind.
  destruct (run uart_init_gpio s) as [[u s1] t1].
  rewrite run_bind.
  destruct (run uart_init_hardware s1) as [[r s2] t2].
  destruct (Z.eqb_spec r 0) as [-> | Hne]; cbn [negb];
    [| cbn [run]; intros Hx; contradiction].
  destruct (ok (ProcEntry PROC_UART_TX)); cbn [negb]; [| cbn [run]; discriminate].
  destruct (ok (ProcEntry PROC_UART_RX)); cbn [negb]; [| cbn [run]; discriminate].
  destruct (ok (ProcEntry PROC_UART_CONFIG)); cbn [negb]; [| cbn [run]; discriminate].
  destruct (ok (ProcEntry PROC_UART_STATUS)); cbn [negb]; [| cbn [run]; discriminate].
  destruct (ok (ProcEntry PROC_UART_STATS)); cbn [negb]; [| cbn [run]; discriminate].
  rewrite run_bind.
  destruct (run (uart_send_string loaded_message) s2) as [[u3 s3] t3].
  cbn [run]. intros _. reflexivity.
Qed.

(** X17: unloading a module that was loaded with success gives back
    everything loading obtained, last obtained first: the five /proc
    entries, then the mapping of the UART registers, then that of the GPIO
    registers, after what [uart_send_string] makes of the farewell has gone
    out. *)
Theorem driver_exit_releases (ok : resource -> bool) (s : state D) :
  let '((ret, log), s1, _) := run (uart_driver_init ok) s in
  let '(log', s2, t) := run (uart_driver_exit true true) s1 in
  (ret = 0 -> held_after (log ++ log') [] = Some []) /\
  held_after log' (rev all_resources) = Some [] /\
  t = snd (run (uart_send_string unloading_message) s1).
Proof.
  pose proof (driver_init_held ok s) as Hi.
  destruct (run (uart_driver_init ok) s) as [[[ret log] s1] t1].
  unfold uart_driver_exit. rewrite run_bind.
  destruct (run (uart_send_string unloading_message) s1) as [[u s2] t2].
  cbn [run snd app]. rewrite app_nil_r.
  split; [| split; reflexivity].
  intros Hr. specialize (Hi Hr). subst log. reflexivity.
Qed.

End Attach.
(* ------------------------------------------------------------------ *)
(** ** Two concurrent rate changes *)

Section RateRace.
Context {D : Type} `{Device D}.

(** X21: the config mutex does not make a rate change atomic.  The rate is
    stored, and the divisor computed from it, before the mutex is taken; so
    when two callers write two supported rates [N1] and [N2], there is an
    interleaving (the first is preempted after computing its divisor, the
    second runs to its end, the first resumes) after which both calls have
    returned, the stored rate, which the config file shows, is [N2], and
    the divisor last written to [MU_BAUD] is the one of [N1]. *)
Theorem rate_change_not_atomic (N1 N2 : Z) (s : state D) :
  supported_baud N1 = true -> supported_baud N2 = true ->
  system_clock (st_config s) = 500000000 ->
  let sched := repeat Conc.T1 3 ++ repeat Conc.T2 14 ++ repeat Conc.T1 11 in
  let c := Conc.run_schedule sched (Conc.start s (write_baud N1) (write_baud N2)) in
  Conc.finished c = true /\
  baudrate (st_config (Conc.c_state c)) = N2 /\
  last_write MU_BAUD (map snd (Conc.c_trace c)) None = Some (divisor_500MHz N1) /\
  lock_trace None (map snd (Conc.c_trace c)) = Some None.
Proof.
  intros H1 H2 Hclk.
  destruct s as [[b d c] st dev]. cbn [st_config system_clock] in Hclk. subst c.
  apply supported_baud_cases in H1, H2.
  destruct H1 as [-> | [-> | [-> | [-> | ->]]]];
    destruct H2 as [-> | [-> | [-> | [-> | ->]]]];
    vm_compute; repeat split; reflexivity.
Qed.

End RateRace.

Lemma rate_change_not_atomic_witness :
  let s := sim_state initial_config zero_stats (sim_with_rx []) in
  supported_baud 9600 = true /\ supported_baud 115200 = true /\
  system_clock (st_config s) = 500000000 /\
  let sched := repeat Conc.T1 3 ++ repeat Conc.T2 14 ++ repeat Conc.T1 11 in
  let c := Conc.run_schedule sched (Conc.start s (write_baud 9600) (write_baud 115200)) in
  Conc.finished c = true /\
  baudrate (st_config (Conc.c_state c)) = 115200 /\
  last_write MU_BAUD (map snd (Conc.c_trace c)) None = Some (divisor_500MHz 9600) /\
  lock_trace None (map snd (Conc.c_trace c)) = Some None.
Proof.
  intros s.
  assert (H1 : supported_baud 9600 = true) by reflexivity.
  assert (H2 : supported_baud 115200 = true) by reflexivity.
  assert (H3 : system_clock (st_config s) = 500000000) by reflexivity.
  split; [exact H1 |]. split; [exact H2 |]. split; [exact H3 |].
  exact (rate_change_not_atomic 9600 115200 s H1 H2 H3).
Defined.
